(** * kli.thorlabs: the APT/Kinesis driver of pykli

    A shallow embedding of [kli/thorlabs/__init__.py]: the wire codec
    ([struct.pack]/[struct.unpack] on little-endian formats), the
    transaction engine ([_write_packet], [_read_packet], [_get_packet]) and
    the two device profiles ([TPZ001], [KDC101]).

    Conventions.
    - Python [int] is [Z]; [bytes] is [list byte]; a [dict] with string keys
      is a [gmap string pyval].
    - Python [float] is modelled by exact rationals ([Q]): every formula of
      the driver is kept as written, only the binary64 rounding of each
      operation is left out.  [int(x)] on a float truncates toward zero.
      [Binary64] evaluates the encode direction on primitive floats, to run
      the concrete scenarios with the arithmetic of the interpreter.
    - A method is a state transformer that may raise: [M S A]. *)

From Stdlib Require Import ZArith QArith Qround Lia List String Ascii.
From Stdlib Require Import Floats.PrimFloat Floats.SpecFloat Floats.FloatOps.
From Stdlib Require Strings.Byte Strings.HexString Numbers.DecimalString.
From stdpp Require Import base option list gmap strings fin_maps.
Import ListNotations.

Local Open Scope Z_scope.

(** ** Bytes *)

Abbreviation byte := Byte.byte.

Definition b2z (b : byte) : Z := Z.of_N (Byte.to_N b).

Definition z2b (z : Z) : byte :=
  match Byte.of_N (Z.to_N (z mod 256)) with
  | Some b => b
  | None => Byte.x00
  end.

(** Little-endian digits of [z], [w] bytes wide; on a negative [z] the floor
    division and modulus yield the two's complement digits. *)
Fixpoint le_bytes (w : nat) (z : Z) : list byte :=
  match w with
  | O => []
  | S w' => z2b (z mod 256) :: le_bytes w' (z / 256)
  end.

Fixpoint le_int (l : list byte) : Z :=
  match l with
  | [] => 0
  | b :: r => b2z b + 256 * le_int r
  end.

(** ** Python values and exceptions *)

#[warnings="-register-all"]
Inductive pyval : Type :=
| VInt (z : Z)
| VFloat (q : Q)
| VBytes (l : list byte)
| VStr (s : string)
| VTuple (l : list pyval).

Inductive exn : Type :=
| ValueError (msg : string)
| StructError
| KeyError (key : pyval)
| IndexError
| TypeError
| AttributeError (name : string)
| ZeroDivisionError.

Inductive result (A : Type) : Type :=
| Ok (a : A)
| Raise (e : exn).
Arguments Ok {A} a.
Arguments Raise {A} e.

(** ** The [struct] module, restricted to the ['<'] formats of the driver *)

Module Struct.

(** Format characters: [H] unsigned 16, [h] signed 16, [I]/[L] unsigned 32,
    [i] signed 32, [B] unsigned 8, [ns] a byte string of length [n].  With
    the ['<'] prefix sizes are standard and nothing is padded. *)
Inductive code : Type := cB | cH | ch | cI | ci | cs (n : nat).

Definition width (c : code) : nat :=
  match c with
  | cB => 1 | cH | ch => 2 | cI | ci => 4 | cs n => n
  end%nat.

Definition calcsize (f : list code) : nat := foldr (fun c n => (width c + n)%nat) O f.

Definition lo (c : code) : Z :=
  match c with
  | ch => - 2 ^ 15 | ci => - 2 ^ 31 | _ => 0
  end.

Definition hi (c : code) : Z :=
  match c with
  | cB => 2 ^ 8 - 1 | cH => 2 ^ 16 - 1 | ch => 2 ^ 15 - 1
  | cI => 2 ^ 32 - 1 | ci => 2 ^ 31 - 1 | cs _ => 0
  end.

Definition signed (c : code) : bool :=
  match c with ch | ci => true | _ => false end.

(** One field.  An integer outside the range of its code, or a value of the
    wrong type, is a [struct.error]; a byte string is cut or zero-padded
    to the field width. *)
Definition pack1 (c : code) (v : pyval) : option (list byte) :=
  match c, v with
  | cs n, VBytes l => Some (take n l ++ replicate (n - length l) Byte.x00)
  | cs _, _ => None
  | _, VInt z =>
      if (lo c <=? z) && (z <=? hi c) then Some (le_bytes (width c) z) else None
  | _, _ => None
  end.

Fixpoint pack_opt (f : list code) (vs : list pyval) : option (list byte) :=
  match f, vs with
  | [], [] => Some []
  | c :: f', v :: vs' =>
      match pack1 c v, pack_opt f' vs' with
      | Some b, Some r => Some (b ++ r)
      | _, _ => None
      end
  | _, _ => None
  end.

Definition pack (f : list code) (vs : list pyval) : result (list byte) :=
  match pack_opt f vs with
  | Some b => Ok b
  | None => Raise StructError
  end.

Definition unpack1 (c : code) (l : list byte) : pyval :=
  match c with
  | cs _ => VBytes l
  | _ =>
      let u := le_int l in
      VInt (if signed c && (2 ^ (8 * Z.of_nat (width c) - 1) <=? u)
            then u - 2 ^ (8 * Z.of_nat (width c)) else u)
  end.

Fixpoint unpack_fields (f : list code) (l : list byte) : list pyval :=
  match f with
  | [] => []
  | c :: f' => unpack1 c (take (width c) l) :: unpack_fields f' (drop (width c) l)
  end.

(** [struct.unpack] demands a buffer of exactly the size of the format. *)
Definition unpack (f : list code) (l : list byte) : result (list pyval) :=
  if (length l =? calcsize f)%nat then Ok (unpack_fields f l) else Raise StructError.

End Struct.

(** ** Methods as state transformers that may raise

    An exception leaves the state as it was when it was raised: bytes written
    before a [raise] stay written. *)

Definition M (S A : Type) : Type := S -> result A * S.

Definition ret {S A} (a : A) : M S A := fun s => (Ok a, s).

Definition raise {S A} (e : exn) : M S A := fun s => (Raise e, s).

Definition bind {S A B} (m : M S A) (k : A -> M S B) : M S B :=
  fun s =>
    match m s with
    | (Ok a, s') => k a s'
    | (Raise e, s') => (Raise e, s')
    end.

Definition lift {S A} (r : result A) : M S A := fun s => (r, s).

Definition gets {S A} (f : S -> A) : M S A := fun s => (Ok (f s), s).

Definition modify {S} (f : S -> S) : M S unit := fun s => (Ok tt, f s).

Declare Scope py_scope.
Delimit Scope py_scope with py.
Notation "'let*' x ':=' m 'in' k" := (bind m (fun x => k))
  (at level 10, x pattern, m at level 100, k at level 200) : py_scope.
Notation "m '>>' k" := (bind m (fun _ => k))
  (at level 100, k at level 200, right associativity) : py_scope.

(** Subscripting: [l[i]] on a tuple and [d[k]] on a dict. *)
Definition item {S} (l : list pyval) (i : nat) : M S pyval :=
  match l !! i with
  | Some v => ret v
  | None => raise IndexError
  end.

Definition getitem {S} (d : gmap string pyval) (k : string) : M S pyval :=
  match d !! k with
  | Some v => ret v
  | None => raise (KeyError (VStr k))
  end.

Definition as_int {S} (v : pyval) : M S Z :=
  match v with
  | VInt z => ret z
  | _ => raise TypeError
  end.

Definition as_bytes {S} (v : pyval) : M S (list byte) :=
  match v with
  | VBytes l => ret l
  | _ => raise TypeError
  end.

(** ** Floats as rationals *)

Definition Qltb (a b : Q) : bool := negb (Qle_bool b a).

(** [int(q)]: truncation toward zero. *)
Definition py_int (q : Q) : Z := Z.quot (Qnum q) (Zpos (Qden q)).

(** [a / b] on floats. *)
Definition fdiv {S} (a b : Q) : M S Q :=
  if Qeq_bool b 0 then raise ZeroDivisionError else ret (a / b)%Q.

(** Rounding to the nearest integer, halves upward: [floor (q + 1/2)]. *)
Definition round_half_up (q : Q) : Z := Qfloor (q + (1 # 2))%Q.

(** ** String formatting *)

(** [format(z, '02x')]: lower-case hexadecimal, zero-padded to two columns,
    the sign counting as a column. *)
Definition fmt_02x (z : Z) : string :=
  match z with
  | Z0 => "00"
  | Zpos p =>
      let s := HexString.Raw.of_pos p "" in
      if (String.length s <? 2)%nat then String "0" s else s
  | Zneg p => String "-" (HexString.Raw.of_pos p "")
  end.

(** [str(z)] and ['%d' % z]. *)
Definition fmt_d (z : Z) : string := DecimalString.NilZero.string_of_int (Z.to_int z).

(** ** The transport *)

(** Modelled from the spec: the byte-stream transport (the pyftdi or pyserial
    port object, not part of the sources).  [read(n)] returns at most [n]
    bytes and fewer when fewer have arrived, [write] queues a chunk, [purge]
    discards the unread input.  [rx_later] schedules what the instrument
    delivers before each later read, so that short reads followed by late
    data are expressible. *)
Record Port : Type := {
  rx_buf : list byte;
  rx_later : list (list byte);
  tx : list (list byte)
}.

Definition port_read (n : nat) (p : Port) : list byte * Port :=
  let avail := rx_buf p ++ hd [] (rx_later p) in
  (take n avail,
   {| rx_buf := drop n avail; rx_later := tl (rx_later p); tx := tx p |}).

Definition port_write (d : list byte) (p : Port) : Port :=
  {| rx_buf := rx_buf p; rx_later := rx_later p; tx := tx p ++ [d] |}.

Definition port_purge (p : Port) : Port :=
  {| rx_buf := []; rx_later := rx_later p; tx := tx p |}.

(** All bytes handed to [write] so far, in order. *)
Definition sent (p : Port) : list byte := concat (tx p).

(** ** AptDevice *)

(** The attributes of an instance: [port] (with [_write], [_read] and [_flush]
    bound to it) exists until [close] deletes it.  [slept] logs the calls of
    [time.sleep]. *)
Record AptDevice : Type := {
  port : option Port;
  slept : list Q
}.

Module Apt.

Local Open Scope py_scope.

Definition _write (d : list byte) : M AptDevice unit :=
  fun s =>
    match port s with
    | Some p => (Ok tt, {| port := Some (port_write d p); slept := slept s |})
    | None => (Raise (AttributeError "_write"), s)
    end.

Definition _read (n : Z) : M AptDevice (list byte) :=
  fun s =>
    match port s with
    | Some p =>
        let (d, p') := port_read (Z.to_nat n) p in
        (Ok d, {| port := Some p'; slept := slept s |})
    | None => (Raise (AttributeError "_read"), s)
    end.

Definition _flush : M AptDevice unit :=
  fun s =>
    match port s with
    | Some p => (Ok tt, {| port := Some (port_purge p); slept := slept s |})
    | None => (Raise (AttributeError "_flush"), s)
    end.

Definition sleep (t : Q) : M AptDevice unit :=
  modify (fun s => {| port := port s; slept := slept s ++ [t] |}).

Definition close : M AptDevice unit :=
  modify (fun s => {| port := None; slept := slept s |}).

Definition is_None {A} (o : option A) : bool :=
  match o with None => true | Some _ => false end.

Definition len (d : list byte) : Z := Z.of_nat (length d).

Definition dest_default : Z := 0x50.
Definition src_default : Z := 0x01.

Definition _write_packet (cmd param1 param2 : Z) (data : option (list byte))
    (dest src : Z) : M AptDevice unit :=
  if is_None data then
    let* h := lift (Struct.pack [Struct.cH; Struct.cB; Struct.cB; Struct.cB; Struct.cB]
                      [VInt cmd; VInt param1; VInt param2; VInt dest; VInt src]) in
    _write h
  else if negb (is_None data) then
    let d := default [] data in
    let* h := lift (Struct.pack [Struct.cH; Struct.cH; Struct.cB; Struct.cB]
                      [VInt cmd; VInt (len d); VInt (Z.lor dest 0x80); VInt src]) in
    _write h >>
    _write d
  else
    raise (ValueError
      "_write_packet should specify either param1 and param2 or a data packet").

Definition _read_packet : M AptDevice (option (gmap string pyval)) :=
  let* header := _read 6 in
  match header with
  | [h0; h1; h2; h3; h4; h5] =>
      let* c := lift (Struct.unpack [Struct.cH] [h0; h1]) in
      let* cmd := item c 0 in
      let result : gmap string pyval :=
        <["id" := VBytes [h0]]> (<["source" := VInt (b2z h5)]> {["cmd" := cmd]}) in
      if negb (Z.land (b2z h4) 0x80 =? 0) then
        let result := <["dest" := VInt (Z.land (b2z h4) 0x7F)]> result in
        let* l := lift (Struct.unpack [Struct.cH] [h2; h3]) in
        let* packet_length := item l 0 in
        match packet_length with
        | VInt n =>
            let* d := _read n in
            ret (Some (<["data" := VBytes d]> result))
        | _ => raise StructError
        end
      else
        let result := <["dest" := VInt (b2z h4)]> result in
        let result := <["param1" := VInt (b2z h2)]> result in
        let result := <["param2" := VInt (b2z h3)]> result in
        ret (Some result)
  | _ => ret None
  end.

(** [packet.get('cmd', None) == cmd] *)
Definition cmd_is (packet : gmap string pyval) (cmd : Z) : bool :=
  match packet !! "cmd" with
  | Some (VInt c) => c =? cmd
  | _ => false
  end.

Definition timeout_msg (cmd attempts : Z) : string :=
  "Expected packet with command 0x" +:+ fmt_02x cmd +:+
  ", did not receive in " +:+ fmt_d attempts +:+ " attempts".

(** The body of [for n in range(attempts)], [n] iterations left; [fail] is
    what follows the loop. *)
Fixpoint poll (n : nat) (cmd : Z) (wait : Q) (fail : M AptDevice (gmap string pyval))
    : M AptDevice (gmap string pyval) :=
  match n with
  | O => fail
  | S n' =>
      let* packet := _read_packet in
      let next := (sleep wait >> poll n' cmd wait fail) in
      match packet with
      | Some d => if cmd_is d cmd then ret d else next
      | None => next
      end
  end.

Definition wait_default : Q := 5 # 100.

Definition _get_packet (cmd attempts : Z) (wait : Q) : M AptDevice (gmap string pyval) :=
  poll (Z.to_nat attempts) cmd wait (raise (ValueError (timeout_msg cmd attempts))).

Definition attempts_default : Z := 10.

Definition identify : M AptDevice unit :=
  _write_packet 0x0223 0 0 None dest_default src_default.

(** ['<L8sH4B48s12sHHH'] *)
Definition info_format : list Struct.code :=
  [Struct.cI; Struct.cs 8; Struct.cH; Struct.cB; Struct.cB; Struct.cB; Struct.cB;
   Struct.cs 48; Struct.cs 12; Struct.cH; Struct.cH; Struct.cH].

Definition info : M AptDevice (gmap string pyval) :=
  _write_packet 0x0005 0 0 None dest_default src_default >>
  let* packet := _get_packet 0x006 attempts_default wait_default in
  let* raw := getitem packet "data" in
  let* raw := as_bytes raw in
  let* data := lift (Struct.unpack info_format raw) in
  let* serial := item data 0 in
  let* model := item data 1 in
  let* type := item data 2 in
  let* notes := item data 7 in
  let* hw_version := item data 9 in
  let* mod_state := item data 10 in
  let* num_channels := item data 11 in
  ret (<["serial" := serial]> (<["model" := model]> (<["type" := type]>
      (<["firmware" := VTuple (take 4 (drop 3 data))]> (<["notes" := notes]>
      (<["hw_version" := hw_version]> (<["mod_state" := mod_state]>
      {["num_channels" := num_channels]}))))))).

End Apt.

(** ** TPZ001, the piezo driver *)

Record TPZ001 : Type := {
  tpz_base : AptDevice;
  max_volts : option Z
}.

Module Tpz.

Local Open Scope py_scope.

(** A method inherited from [AptDevice], run on the base attributes. *)
Definition super {A} (m : M AptDevice A) : M TPZ001 A :=
  fun s =>
    let (r, b) := m (tpz_base s) in
    (r, {| tpz_base := b; max_volts := max_volts s |}).

Definition _write_packet cmd param1 param2 data : M TPZ001 unit :=
  super (Apt._write_packet cmd param1 param2 data Apt.dest_default Apt.src_default).

Definition _get_packet cmd : M TPZ001 (gmap string pyval) :=
  super (Apt._get_packet cmd Apt.attempts_default Apt.wait_default).

Definition set_PI (P I : Z) : M TPZ001 unit :=
  super Apt.identify >>
  let* data := lift (Struct.pack [Struct.cH; Struct.cH; Struct.cH] [VInt 1; VInt P; VInt I]) in
  _write_packet 0x0655 0 0 (Some data).

Definition get_PI : M TPZ001 (pyval * pyval) :=
  _write_packet 0x065B 1 0 None >>
  let* packet := _get_packet 0x065C in
  let* raw := getitem packet "data" in
  let* raw := as_bytes raw in
  let* f := lift (Struct.unpack [Struct.cH; Struct.cH; Struct.cH] (take 6 raw)) in
  let* P_ := item f 1 in
  let* I_ := item f 2 in
  ret (P_, I_).

Definition set_control_mode (closed smooth : bool) : M TPZ001 unit :=
  let mode := if closed then 2 else 1 in
  let mode := if smooth then mode + 2 else mode in
  _write_packet 0x0640 1 mode None.

Definition V_lim_table : gmap Z pyval :=
  <[1 := VInt 75]> (<[2 := VInt 100]> {[3 := VInt 150]}).

Definition analog_in_table : gmap Z pyval :=
  <[1 := VStr "A"]> (<[2 := VStr "B"]> {[3 := VStr "SMA"]}).

Definition table_get {S} (t : gmap Z pyval) (k : pyval) : M S pyval :=
  let* i := as_int k in
  match t !! i with
  | Some v => ret v
  | None => raise (KeyError k)
  end.

Definition get_settings : M TPZ001 (gmap string pyval) :=
  _write_packet 0x07D5 1 0 None >>
  let* packet := _get_packet 0x07D6 in
  let* raw := getitem packet "data" in
  let* raw := as_bytes raw in
  let* f := lift (Struct.unpack [Struct.cH; Struct.cH; Struct.cH] (take 6 raw)) in
  let* V_lim := item f 1 in
  let* analog_in := item f 2 in
  let* v := table_get V_lim_table V_lim in
  let* a := table_get analog_in_table analog_in in
  ret (<["V_lim" := v]> {["analog_input" := a]}).

Definition range_msg (m : Z) : string :=
  "V must be between 0 and max_volts (" +:+ fmt_d m +:+ ")".

Definition set_volts (V : Q) : M TPZ001 unit :=
  let* cached := gets max_volts in
  (if Apt.is_None cached then
     let* settings := get_settings in
     let* lim := getitem settings "V_lim" in
     let* lim := as_int lim in
     modify (fun s => {| tpz_base := tpz_base s; max_volts := Some lim |})
   else ret tt) >>
  let* cached := gets max_volts in
  let m := default 0 cached in
  if Qltb V 0 || Qltb (inject_Z m) V then
    raise (ValueError (range_msg m))
  else
    let* r := fdiv V (inject_Z m) in
    let* data := lift (Struct.pack [Struct.cH; Struct.cH]
                         [VInt 1; VInt (py_int (r * 32767 + (1 # 2))%Q)]) in
    _write_packet 0x0643 0 0 (Some data).

Definition set_pos (pos : Q) : M TPZ001 unit :=
  if Qltb pos 0 || Qltb 100 pos then
    raise (ValueError "pos must be between 0 and 100")
  else
    let* data := lift (Struct.pack [Struct.cH; Struct.cH]
                         [VInt 1; VInt (py_int (pos / 100 * 65535 + (1 # 2))%Q)]) in
    _write_packet 0x0646 0 0 (Some data).

End Tpz.

(** ** KDC101, the motorized stage controller *)

Record KDC101 : Type := {
  kdc_base : AptDevice;
  _x_conv : Q;
  _v_conv : Q;
  _a_conv : Q;
  stdout : list Z
}.

Module Kdc.

Local Open Scope py_scope.
Local Open Scope Q_scope.

Definition DRIVER_T : Q := 2048 / 6000000.

Definition super {A} (m : M AptDevice A) : M KDC101 A :=
  fun s =>
    let (r, b) := m (kdc_base s) in
    (r, {| kdc_base := b; _x_conv := _x_conv s; _v_conv := _v_conv s;
           _a_conv := _a_conv s; stdout := stdout s |}).

Definition _write_packet cmd param1 param2 data : M KDC101 unit :=
  super (Apt._write_packet cmd param1 param2 data Apt.dest_default Apt.src_default).

Definition _get_packet cmd : M KDC101 (gmap string pyval) :=
  super (Apt._get_packet cmd Apt.attempts_default Apt.wait_default).

Definition print (d : Z) : M KDC101 unit :=
  modify (fun s => {| kdc_base := kdc_base s; _x_conv := _x_conv s; _v_conv := _v_conv s;
                      _a_conv := _a_conv s; stdout := (stdout s ++ [d])%list |}).

Definition set_counts_per_unit (counts : Q) : M KDC101 unit :=
  modify (fun s =>
    let x := counts in
    let v := counts * DRIVER_T * 65536 in
    let a := v * DRIVER_T in
    {| kdc_base := kdc_base s; _x_conv := x; _v_conv := v; _a_conv := a;
       stdout := stdout s |}).

Definition counts_per_unit_default : Q := 34304.

(** [__init__]: the scale factors are set first, then the base class opens
    the transport; [p] is the port that the discovery step hands over. *)
Definition __init__ (counts_per_unit : option Q) (p : Port) : KDC101 :=
  let c := default counts_per_unit_default counts_per_unit in
  {| kdc_base := {| port := Some (port_purge p); slept := [5 # 100; 5 # 100] |};
     _x_conv := c;
     _v_conv := c * DRIVER_T * 65536;
     _a_conv := c * DRIVER_T * 65536 * DRIVER_T;
     stdout := [] |}.

Definition move (distance : Q) (channel : Z) (absolute : bool) : M KDC101 unit :=
  let* x := gets _x_conv in
  let d := py_int (distance * x + (1 # 2)) in
  print d >>
  if absolute then
    let* data := lift (Struct.pack [Struct.cH; Struct.ci] [VInt channel; VInt d]) in
    _write_packet 0x0453 0 0 (Some data)
  else
    let* data := lift (Struct.pack [Struct.cH; Struct.ci] [VInt channel; VInt d]) in
    _write_packet 0x0448 0 0 (Some data).

(** [data[i] / conv] *)
Definition physical (data : list pyval) (i : nat) (conv : Q) : M KDC101 pyval :=
  let* raw := item data i in
  let* raw := as_int raw in
  let* q := fdiv (inject_Z raw) conv in
  ret (VFloat q).

Definition get_vel_params (channel : Z) : M KDC101 (gmap string pyval) :=
  super Apt._flush >>
  _write_packet 0x0414 channel 0 None >>
  let* packet := _get_packet 0x0415 in
  let* raw := getitem packet "data" in
  let* raw := as_bytes raw in
  let* data := lift (Struct.unpack [Struct.cH; Struct.ci; Struct.ci; Struct.ci] raw) in
  let* v := gets _v_conv in
  let* a := gets _a_conv in
  let* ch := item data 0 in
  let* min_vel := physical data 1 v in
  let* accel := physical data 2 a in
  let* max_vel := physical data 3 v in
  ret (<["channel" := ch]> (<["min_vel" := min_vel]> (<["accel" := accel]>
       {["max_vel" := max_vel]}))).

Definition set_vel_params (accel max_vel : Q) (channel : Z) (min_vel : Q) : M KDC101 unit :=
  let* v := gets _v_conv in
  let* a := gets _a_conv in
  let mv := py_int (min_vel * v + (1 # 2)) in
  let a_ := py_int (accel * a + (1 # 2)) in
  let Mv := py_int (max_vel * v + (1 # 2)) in
  let* data := lift (Struct.pack [Struct.cH; Struct.ci; Struct.ci; Struct.ci]
                       [VInt channel; VInt mv; VInt a_; VInt Mv]) in
  _write_packet 0x0413 0 0 (Some data).

Definition jog_mode_table : gmap Z pyval :=
  <[1%Z := VStr "continuous"]> {[2%Z := VStr "single step"]}.

Definition stop_mode_table : gmap Z pyval :=
  <[1%Z := VStr "immediate"]> {[2%Z := VStr "profiled"]}.

(** [table.get(k, k)] *)
Definition table_get_or_self (t : gmap Z pyval) (k : pyval) : pyval :=
  match k with
  | VInt i => default k (t !! i)
  | _ => k
  end.

Definition get_jog_params (channel : Z) : M KDC101 (gmap string pyval) :=
  super Apt._flush >>
  _write_packet 0x0417 channel 0 None >>
  let* packet := _get_packet 0x0418 in
  let* raw := getitem packet "data" in
  let* raw := as_bytes raw in
  let* data := lift (Struct.unpack [Struct.cH; Struct.cH; Struct.ci; Struct.ci; Struct.ci;
                                    Struct.ci; Struct.cH] raw) in
  let* x := gets _x_conv in
  let* v := gets _v_conv in
  let* a := gets _a_conv in
  let* ch := item data 0 in
  let* jog_mode := item data 1 in
  let* step_size := physical data 2 x in
  let* min_vel := physical data 3 v in
  let* accel := physical data 4 a in
  let* max_vel := physical data 5 v in
  let* stop_mode := item data 6 in
  ret (<["channel" := ch]> (<["jog_mode" := table_get_or_self jog_mode_table jog_mode]>
      (<["step_size" := step_size]> (<["min_vel" := min_vel]> (<["accel" := accel]>
      (<["max_vel" := max_vel]>
      {["stop_mode" := table_get_or_self stop_mode_table stop_mode]})))))).

Definition get_pos (channel : Z) : M KDC101 pyval :=
  super Apt._flush >>
  _write_packet 0x0411 channel 0 None >>
  let* packet := _get_packet 0x0412 in
  let* raw := getitem packet "data" in
  let* raw := as_bytes raw in
  let* data := lift (Struct.unpack [Struct.cH; Struct.ci] raw) in
  let* x := gets _x_conv in
  physical data 1 x.

End Kdc.

(** ** Frames on the wire *)

(** The header of a short-form frame, ['<H4B']. *)
Definition short_header (cmd param1 param2 dest src : Z) : list byte :=
  [z2b (cmd mod 256); z2b (cmd / 256); z2b param1; z2b param2; z2b dest; z2b src].

(** The header of a long-form frame, ['<2H2B']. *)
Definition long_header (cmd n dest src : Z) : list byte :=
  [z2b (cmd mod 256); z2b (cmd / 256); z2b (n mod 256); z2b (n / 256);
   z2b (Z.lor dest 0x80); z2b src].

(** The dict that [_read_packet] builds for a short-form frame. *)
Definition short_packet (cmd param1 param2 dest src : Z) : gmap string pyval :=
  <["param2" := VInt param2]> (<["param1" := VInt param1]> (<["dest" := VInt dest]>
  (<["id" := VBytes [z2b (cmd mod 256)]]> (<["source" := VInt src]>
  {["cmd" := VInt cmd]})))).

(** The dict that [_read_packet] builds for a long-form frame. *)
Definition long_packet (cmd : Z) (data : list byte) (dest src : Z) : gmap string pyval :=
  <["data" := VBytes data]> (<["dest" := VInt dest]>
  (<["id" := VBytes [z2b (cmd mod 256)]]> (<["source" := VInt src]>
  {["cmd" := VInt cmd]}))).

(** A device whose port holds [rx] unread, with [later] still to arrive. *)
Definition listening (rx : list byte) (later out : list (list byte)) (sl : list Q)
    : AptDevice :=
  {| port := Some {| rx_buf := rx; rx_later := later; tx := out |}; slept := sl |}.

(** ** What the transport yields *)

(** The packet that the next [_read_packet] decodes from a port, and the port
    it leaves.  (Reading an open port neither raises nor closes it, see
    [read_packet_open]; the last branch is never taken.) *)
Definition next_packet (p : Port) : option (gmap string pyval) * Port :=
  match Apt._read_packet {| port := Some p; slept := [] |} with
  | (Ok packet, {| port := Some p' |}) => (packet, p')
  | _ => (None, p)
  end.

(** The packets of the next [n] calls of [_read_packet], oldest first. *)
Fixpoint yields (n : nat) (p : Port) : list (option (gmap string pyval)) * Port :=
  match n with
  | O => ([], p)
  | S n' =>
      let (packet, p') := next_packet p in
      let (l, p'') := yields n' p' in
      (packet :: l, p'')
  end.

(** An attempt that [_get_packet] passes over: nothing decoded, or a packet
    with another command. *)
Definition passed_over (cmd : Z) (packet : option (gmap string pyval)) : Prop :=
  match packet with
  | Some d => Apt.cmd_is d cmd = false
  | None => True
  end.

(** ** A scripted transport for the scenarios *)

(** A move-complete message (command 0x0464, the one that the commented-out
    [wait_for_move] looks for), in short form, from the controller (0x50) to
    the host (0x01). *)
Definition echo_frame : list byte := short_header 0x0464 1 0 0x01 0x50.

(** A position report: command 0x0412, channel 1, position 34304. *)
Definition position_payload : list byte :=
  [Byte.x01; Byte.x00; Byte.x00; Byte.x86; Byte.x00; Byte.x00].

Definition position_frame : list byte :=
  long_header 0x0412 6 0x01 0x50 ++ position_payload.

(** Two echoes, then silence. *)
Definition silent_port : Port :=
  {| rx_buf := echo_frame ++ echo_frame; rx_later := []; tx := [] |}.

(** Five echoes in the buffer; the position report arrives later. *)
Definition busy_port : Port :=
  {| rx_buf := echo_frame ++ echo_frame ++ echo_frame ++ echo_frame ++ echo_frame;
     rx_later := [[]; []; []; []; position_frame]; tx := [] |}.

(** A settings report of the piezo driver: command 0x07D6, channel 1, voltage
    limit code 3, analog input code 1. *)
Definition settings_frame : list byte :=
  long_header 0x07D6 6 0x01 0x50
  ++ [Byte.x01; Byte.x00; Byte.x03; Byte.x00; Byte.x01; Byte.x00].

(** A port on which [frame] arrives in answer to the first read. *)
Definition answering (frame : list byte) : Port :=
  {| rx_buf := []; rx_later := [frame]; tx := [] |}.

(** ** The operations of a KDC101 instance *)

(** Every public method of [KDC101], own or inherited, with its arguments. *)
Inductive call : Type :=
| Call_set_counts_per_unit (counts : Q)
| Call_move (distance : Q) (channel : Z) (absolute : bool)
| Call_get_vel_params (channel : Z)
| Call_set_vel_params (accel max_vel : Q) (channel : Z) (min_vel : Q)
| Call_get_jog_params (channel : Z)
| Call_get_pos (channel : Z)
| Call_identify
| Call_info
| Call_close.

(** The instance after a call, whether it returned or raised. *)
Definition after (c : call) (s : KDC101) : KDC101 :=
  match c with
  | Call_set_counts_per_unit counts => snd (Kdc.set_counts_per_unit counts s)
  | Call_move distance channel absolute => snd (Kdc.move distance channel absolute s)
  | Call_get_vel_params channel => snd (Kdc.get_vel_params channel s)
  | Call_set_vel_params accel max_vel channel min_vel =>
      snd (Kdc.set_vel_params accel max_vel channel min_vel s)
  | Call_get_jog_params channel => snd (Kdc.get_jog_params channel s)
  | Call_get_pos channel => snd (Kdc.get_pos channel s)
  | Call_identify => snd (Kdc.super Apt.identify s)
  | Call_info => snd (Kdc.super Apt.info s)
  | Call_close => snd (Kdc.super Apt.close s)
  end.

(** The three conversion factors of an instance. *)
Definition scales (s : KDC101) : Q * Q * Q := (_x_conv s, _v_conv s, _a_conv s).

Definition keeps_scales {A} (m : M KDC101 A) : Prop :=
  forall s, scales (snd (m s)) = scales s.

(** ** Binary64 evaluation of the encode direction

    The same expression on IEEE binary64 numbers, to run the scenarios with
    the arithmetic of the interpreter. *)

Module Binary64.

(** [int(x)] on a float: truncation toward zero, an error on nan and on the
    infinities. *)
Definition to_int (x : float) : option Z :=
  match Prim2SF x with
  | S754_zero _ => Some 0
  | S754_finite s m e =>
      let a := if 0 <=? e then Z.pos m * 2 ^ e else Z.pos m / 2 ^ (- e) in
      Some (if s then - a else a)
  | _ => None
  end.

(** [int(x * conv + 0.5)] *)
Definition to_raw (x conv : float) : option Z :=
  to_int (PrimFloat.add (PrimFloat.mul x conv) 0.5%float).

End Binary64.

(** ** Frames *)

(** What one call of [_write_packet] puts on the wire: a short-form header, or
    a long-form header followed by its payload. *)
Inductive frame : Type :=
| Short (cmd param1 param2 dest src : Z)
| Long (cmd : Z) (data : list byte) (dest src : Z).

Definition encode (f : frame) : list byte :=
  match f with
  | Short cmd param1 param2 dest src => short_header cmd param1 param2 dest src
  | Long cmd data dest src => long_header cmd (Apt.len data) dest src ++ data
  end.

(** The dict that [_read_packet] returns for the frame. *)
Definition decoded (f : frame) : gmap string pyval :=
  match f with
  | Short cmd param1 param2 dest src => short_packet cmd param1 param2 dest src
  | Long cmd data dest src => long_packet cmd data (Z.land dest 0x7F) src
  end.

(** The arguments fit their fields, and a short-form destination leaves the
    flag bit clear. *)
Definition well_formed (f : frame) : Prop :=
  match f with
  | Short cmd param1 param2 dest src =>
      0 <= cmd < 65536 /\ 0 <= param1 < 256 /\ 0 <= param2 < 256
      /\ 0 <= dest < 128 /\ 0 <= src < 256
  | Long cmd data dest src =>
      0 <= cmd < 65536 /\ Apt.len data <= 65535 /\ 0 <= dest < 256 /\ 0 <= src < 256
  end.

(** The call of [_write_packet] that sends the frame. *)
Definition send (f : frame) : M AptDevice unit :=
  match f with
  | Short cmd param1 param2 dest src => Apt._write_packet cmd param1 param2 None dest src
  | Long cmd data dest src => Apt._write_packet cmd 0 0 (Some data) dest src
  end.

Fixpoint send_all (fs : list frame) : M AptDevice unit :=
  match fs with
  | [] => ret tt
  | f :: fs' => bind (send f) (fun _ => send_all fs')
  end.

(** A computation that reads the instance but leaves it as it is. *)
Definition leaves_state {S A} (m : M S A) : Prop := forall s, snd (m s) = s.

(** * Properties *)

(** ** Bytes and little-endian integers *)

Lemma b2z_range (b : byte) : 0 <= b2z b < 256.
Proof.
  unfold b2z. pose proof (Byte.to_N_bounded b). lia.
Qed.

Lemma z2b_b2z (b : byte) : z2b (b2z b) = b.
Proof.
  unfold z2b. rewrite Z.mod_small by apply b2z_range.
  unfold b2z. rewrite N2Z.id, Byte.of_to_N. reflexivity.
Qed.

Lemma b2z_z2b (z : Z) : 0 <= z < 256 -> b2z (z2b z) = z.
Proof.
  intros Hz. unfold z2b, b2z. rewrite Z.mod_small by lia.
  destruct (Byte.of_N (Z.to_N z)) as [b|] eqn:E.
  - apply Byte.to_of_N in E. rewrite E. lia.
  - exfalso. pose proof (Byte.to_of_N_option_map (Z.to_N z)) as H.
    rewrite E in H. simpl in H.
    destruct (N.leb_spec (Z.to_N z) 255); [discriminate | lia].
Qed.

Lemma length_le_bytes (w : nat) (z : Z) : length (le_bytes w z) = w.
Proof.
  revert z. induction w as [|w IH]; intros z; simpl; [reflexivity | now rewrite IH].
Qed.

Lemma le_int_le_bytes (w : nat) (z : Z) :
  le_int (le_bytes w z) = z mod 256 ^ Z.of_nat w.
Proof.
  revert z. induction w as [|w IH]; intros z.
  - simpl. now rewrite Z.mod_1_r.
  - cbn [le_bytes le_int]. rewrite IH, b2z_z2b by (apply Z.mod_pos_bound; lia).
    rewrite Nat2Z.inj_succ, Z.pow_succ_r by lia.
    rewrite Z.rem_mul_r by lia. reflexivity.
Qed.

Lemma le_int_range (l : list byte) : 0 <= le_int l < 256 ^ Z.of_nat (length l).
Proof.
  induction l as [|b l IH].
  - simpl. lia.
  - cbn [le_int length]. rewrite Nat2Z.inj_succ, Z.pow_succ_r by lia.
    pose proof (b2z_range b). lia.
Qed.

(** The flag bit of the destination byte. *)
Lemma flag_clear (d : Z) : 0 <= d < 128 -> Z.land d 0x80 = 0.
Proof.
  intros Hd. apply Z.bits_inj'. intros n Hn.
  rewrite Z.land_spec, Z.bits_0.
  destruct (Z.eq_dec n 7) as [->|Hne].
  - destruct (Z.eq_dec d 0) as [->|Hd0]; [reflexivity|].
    rewrite (Z.bits_above_log2 d 7); [reflexivity | lia |].
    apply Z.log2_lt_pow2; lia.
  - replace 0x80 with (2 ^ 7) by reflexivity.
    rewrite Z.pow2_bits_false by lia. apply andb_false_r.
Qed.

Lemma flag_set (d : Z) :
  128 <= d < 256 -> Z.land d 0x80 = 128 /\ Z.land d 0x7F = d - 128 /\ Z.lor d 0x80 = d.
Proof.
  intros Hd. rewrite <- (b2z_z2b d) by lia.
  destruct (z2b d) eqn:E; try (vm_compute; repeat split; reflexivity);
    exfalso; apply (f_equal b2z) in E; rewrite b2z_z2b in E by lia;
    vm_compute in E; lia.
Qed.

Lemma byte_cases (P : Z -> Prop) :
  (forall b : byte, P (b2z b)) -> forall d, 0 <= d < 256 -> P d.
Proof.
  intros H d Hd. rewrite <- (b2z_z2b d) by exact Hd. apply H.
Qed.

Lemma flag_forced (d : Z) :
  0 <= d < 256 ->
  0 <= Z.lor d 0x80 < 256 /\
  Z.land (Z.lor d 0x80) 0x80 = 128 /\
  Z.land (Z.lor d 0x80) 0x7F = Z.land d 0x7F.
Proof.
  revert d. apply byte_cases. intros b.
  destruct b; vm_compute; repeat split; congruence.
Qed.

(** ** Packing *)

Lemma pack1_int (c : Struct.code) (z : Z) :
  (forall n, c <> Struct.cs n) ->
  Struct.lo c <= z <= Struct.hi c ->
  Struct.pack1 c (VInt z) = Some (le_bytes (Struct.width c) z).
Proof.
  intros Hc [Hlo Hhi]. apply Z.leb_le in Hlo, Hhi.
  destruct c; try (now destruct (Hc n));
    cbn [Struct.pack1]; rewrite Hlo, Hhi; reflexivity.
Qed.

Lemma le_bytes_1 (z : Z) : 0 <= z < 256 -> le_bytes 1 z = [z2b z].
Proof.
  intros Hz. cbn [le_bytes]. now rewrite Z.mod_small by lia.
Qed.

Lemma le_bytes_2 (z : Z) :
  0 <= z < 65536 -> le_bytes 2 z = [z2b (z mod 256); z2b (z / 256)].
Proof.
  intros Hz. cbn [le_bytes].
  rewrite (Z.mod_small (z / 256)); [reflexivity|].
  split; [apply Z.div_pos; lia | apply Z.div_lt_upper_bound; lia].
Qed.

Lemma pack_short (cmd param1 param2 dest src : Z) :
  0 <= cmd < 65536 -> 0 <= param1 < 256 -> 0 <= param2 < 256 ->
  0 <= dest < 256 -> 0 <= src < 256 ->
  Struct.pack [Struct.cH; Struct.cB; Struct.cB; Struct.cB; Struct.cB]
    [VInt cmd; VInt param1; VInt param2; VInt dest; VInt src]
  = Ok (short_header cmd param1 param2 dest src).
Proof.
  intros Hc H1 H2 Hd Hs. unfold Struct.pack. cbn [Struct.pack_opt].
  rewrite !pack1_int by (try discriminate; cbn; lia).
  cbn [Struct.width]. rewrite le_bytes_2, !le_bytes_1 by lia. reflexivity.
Qed.

Lemma pack_long (cmd n dest src : Z) :
  0 <= cmd < 65536 -> 0 <= n < 65536 -> 0 <= dest < 256 -> 0 <= src < 256 ->
  Struct.pack [Struct.cH; Struct.cH; Struct.cB; Struct.cB]
    [VInt cmd; VInt n; VInt (Z.lor dest 0x80); VInt src]
  = Ok (long_header cmd n dest src).
Proof.
  intros Hc Hn Hd Hs. destruct (flag_forced dest Hd) as [Hf _].
  unfold Struct.pack. cbn [Struct.pack_opt].
  rewrite !pack1_int by (try discriminate; cbn; lia).
  cbn [Struct.width]. rewrite !le_bytes_2, !le_bytes_1 by lia. reflexivity.
Qed.

Lemma unpack_H (a b : byte) :
  Struct.unpack [Struct.cH] [a; b] = Ok [VInt (b2z a + 256 * b2z b)].
Proof.
  unfold Struct.unpack. cbn. do 3 f_equal. lia.
Qed.

Lemma le16 (z : Z) :
  0 <= z < 65536 -> b2z (z2b (z mod 256)) + 256 * b2z (z2b (z / 256)) = z.
Proof.
  intros Hz. rewrite !b2z_z2b.
  - pose proof (Z.div_mod z 256). lia.
  - split; [apply Z.div_pos; lia | apply Z.div_lt_upper_bound; lia].
  - apply Z.mod_pos_bound. lia.
Qed.

(** Every integer field unpacks to the value that was packed, the signed
    codes included. *)
Lemma unpack1_le_bytes (c : Struct.code) (z : Z) :
  (forall n, c <> Struct.cs n) ->
  Struct.lo c <= z <= Struct.hi c ->
  Struct.unpack1 c (le_bytes (Struct.width c) z) = VInt z.
Proof.
  intros Hc Hz. unfold Struct.unpack1.
  destruct c; try (now destruct (Hc n));
    rewrite le_int_le_bytes; cbn [Struct.signed Struct.width andb];
    cbn in Hz; f_equal.
  - apply Z.mod_small. cbn. lia.
  - apply Z.mod_small. cbn. lia.
  - change (256 ^ Z.of_nat 2) with 65536. change (2 ^ (8 * Z.of_nat 2 - 1)) with 32768.
    change (2 ^ (8 * Z.of_nat 2)) with 65536.
    destruct (Z.leb_spec 32768 (z mod 65536)) as [H|H];
      destruct (Z.lt_ge_cases z 0);
      rewrite ?(Z.mod_small z 65536) in * by lia; try lia;
      rewrite <- (Z.mod_add z 1 65536) in * by lia;
      rewrite (Z.mod_small (z + 1 * 65536)) in * by lia; lia.
  - apply Z.mod_small. cbn. lia.
  - change (256 ^ Z.of_nat 4) with 4294967296.
    change (2 ^ (8 * Z.of_nat 4 - 1)) with 2147483648.
    change (2 ^ (8 * Z.of_nat 4)) with 4294967296.
    destruct (Z.leb_spec 2147483648 (z mod 4294967296)) as [H|H];
      destruct (Z.lt_ge_cases z 0);
      rewrite ?(Z.mod_small z 4294967296) in * by lia; try lia;
      rewrite <- (Z.mod_add z 1 4294967296) in * by lia;
      rewrite (Z.mod_small (z + 1 * 4294967296)) in * by lia; lia.
Qed.

(** ** Running the monad *)

Lemma bind_ok {S A B} (m : M S A) (k : A -> M S B) (s s' : S) (a : A) :
  m s = (Ok a, s') -> bind m k s = k a s'.
Proof. intros H. unfold bind. now rewrite H. Qed.

Lemma bind_raise {S A B} (m : M S A) (k : A -> M S B) (s s' : S) (e : exn) :
  m s = (Raise e, s') -> bind m k s = (Raise e, s').
Proof. intros H. unfold bind. now rewrite H. Qed.

Lemma bind_lift {S A B} (a : A) (k : A -> M S B) (s : S) :
  bind (lift (Ok a)) k s = k a s.
Proof. reflexivity. Qed.

Lemma bind_ret {S A B} (a : A) (k : A -> M S B) (s : S) :
  bind (ret a) k s = k a s.
Proof. reflexivity. Qed.

(** ** Reading from an open port *)

Lemma read_open (n : Z) (p : Port) (sl : list Q) :
  Apt._read n {| port := Some p; slept := sl |} =
    (Ok (take (Z.to_nat n) (rx_buf p ++ hd [] (rx_later p))),
     {| port := Some {| rx_buf := drop (Z.to_nat n) (rx_buf p ++ hd [] (rx_later p));
                        rx_later := tl (rx_later p); tx := tx p |};
        slept := sl |}).
Proof. reflexivity. Qed.

Lemma write_open (d : list byte) (p : Port) (sl : list Q) :
  Apt._write d {| port := Some p; slept := sl |} =
    (Ok tt, {| port := Some (port_write d p); slept := sl |}).
Proof. reflexivity. Qed.

(** ** Decoding one packet *)

Section ReadPacket.

Variables (h0 h1 h2 h3 h4 h5 : byte) (rest : list byte).
Variables (later : list (list byte)) (out : list (list byte)) (sl : list Q).

Let dev : AptDevice :=
  {| port := Some {| rx_buf := h0 :: h1 :: h2 :: h3 :: h4 :: h5 :: rest;
                     rx_later := later; tx := out |};
     slept := sl |}.

Lemma read_packet_short :
  Z.land (b2z h4) 0x80 = 0 ->
  Apt._read_packet dev =
    (Ok (Some (<["param2" := VInt (b2z h3)]> (<["param1" := VInt (b2z h2)]>
              (<["dest" := VInt (b2z h4)]> (<["id" := VBytes [h0]]>
              (<["source" := VInt (b2z h5)]>
               {["cmd" := VInt (b2z h0 + 256 * b2z h1)]})))))),
     {| port := Some {| rx_buf := rest ++ hd [] later; rx_later := tl later; tx := out |};
        slept := sl |}).
Proof.
  intros Hflag. unfold Apt._read_packet, dev.
  erewrite bind_ok by apply read_open.
  cbn [rx_buf rx_later tx]. change (Z.to_nat 6) with 6%nat. cbn [app take drop]. rewrite take_0, drop_0.
  rewrite unpack_H. rewrite bind_lift. unfold item. cbn [lookup list_lookup].
  rewrite bind_ret, Hflag. reflexivity.
Qed.

Lemma read_packet_long :
  Z.land (b2z h4) 0x80 <> 0 ->
  let n := Z.to_nat (b2z h2 + 256 * b2z h3) in
  let avail := (rest ++ hd [] later) ++ hd [] (tl later) in
  Apt._read_packet dev =
    (Ok (Some (<["data" := VBytes (take n avail)]>
              (<["dest" := VInt (Z.land (b2z h4) 0x7F)]> (<["id" := VBytes [h0]]>
              (<["source" := VInt (b2z h5)]>
               {["cmd" := VInt (b2z h0 + 256 * b2z h1)]}))))),
     {| port := Some {| rx_buf := drop n avail; rx_later := tl (tl later); tx := out |};
        slept := sl |}).
Proof.
  intros Hflag n avail. unfold Apt._read_packet, dev.
  erewrite bind_ok by apply read_open.
  cbn [rx_buf rx_later tx]. change (Z.to_nat 6) with 6%nat. cbn [app take drop]. rewrite take_0, drop_0.
  rewrite unpack_H, bind_lift. unfold item. cbn [lookup list_lookup].
  rewrite bind_ret. apply Z.eqb_neq in Hflag. rewrite Hflag. cbn [negb].
  rewrite unpack_H, bind_lift. cbn [lookup list_lookup]. rewrite bind_ret.
  erewrite bind_ok by apply read_open. reflexivity.
Qed.

End ReadPacket.

(** ** Frames written and frames read *)

Lemma write_short_frame (cmd param1 param2 dest src : Z) (w : Port) (sl : list Q) :
  0 <= cmd < 65536 -> 0 <= param1 < 256 -> 0 <= param2 < 256 ->
  0 <= dest < 256 -> 0 <= src < 256 ->
  Apt._write_packet cmd param1 param2 None dest src {| port := Some w; slept := sl |}
  = (Ok tt, {| port := Some (port_write (short_header cmd param1 param2 dest src) w);
               slept := sl |}).
Proof.
  intros Hc H1 H2 Hd Hs. unfold Apt._write_packet. cbn [Apt.is_None].
  rewrite pack_short by lia. rewrite bind_lift. apply write_open.
Qed.

Lemma write_long_frame (cmd param1 param2 dest src : Z) (data : list byte)
    (w : Port) (sl : list Q) :
  0 <= cmd < 65536 -> 0 <= dest < 256 -> 0 <= src < 256 ->
  Apt.len data <= 65535 ->
  Apt._write_packet cmd param1 param2 (Some data) dest src {| port := Some w; slept := sl |}
  = (Ok tt,
     {| port := Some (port_write data
                        (port_write (long_header cmd (Apt.len data) dest src) w));
        slept := sl |}).
Proof.
  intros Hc Hd Hs Hn. unfold Apt._write_packet. cbn [Apt.is_None negb default from_option id].
  rewrite pack_long by (unfold Apt.len in *; lia). rewrite bind_lift.
  erewrite bind_ok by apply write_open. apply write_open.
Qed.

Lemma read_short_frame (cmd param1 param2 dest src : Z)
    (rest : list byte) (later out : list (list byte)) (sl : list Q) :
  0 <= cmd < 65536 -> 0 <= param1 < 256 -> 0 <= param2 < 256 ->
  0 <= dest < 128 -> 0 <= src < 256 ->
  Apt._read_packet (listening (short_header cmd param1 param2 dest src ++ rest) later out sl)
  = (Ok (Some (short_packet cmd param1 param2 dest src)),
     listening (rest ++ hd [] later) (tl later) out sl).
Proof.
  intros Hc H1 H2 Hd Hs. unfold short_header, listening. cbn [app].
  rewrite read_packet_short by (rewrite b2z_z2b by lia; apply flag_clear; lia).
  rewrite le16 by lia. rewrite !b2z_z2b by lia. reflexivity.
Qed.

Lemma read_long_frame (cmd dest src : Z) (data rest : list byte)
    (later out : list (list byte)) (sl : list Q) :
  0 <= cmd < 65536 -> 0 <= dest < 256 -> 0 <= src < 256 ->
  Apt.len data <= 65535 ->
  Apt._read_packet
    (listening (long_header cmd (Apt.len data) dest src ++ data ++ rest) later out sl)
  = (Ok (Some (long_packet cmd data (Z.land dest 0x7F) src)),
     listening ((rest ++ hd [] later) ++ hd [] (tl later)) (tl (tl later)) out sl).
Proof.
  intros Hc Hd Hs Hn. destruct (flag_forced dest Hd) as (Hr & Hbit & Hlow).
  unfold long_header, listening. cbn [app].
  rewrite read_packet_long by (rewrite b2z_z2b by lia; lia).
  rewrite !le16 by (unfold Apt.len in *; lia). rewrite !b2z_z2b by lia. rewrite Hlow.
  unfold Apt.len. rewrite Nat2Z.id, <- !app_assoc.
  rewrite take_app_length, drop_app_length. reflexivity.
Qed.

(** ** Round trips through the wire codec *)

(** C3: for every 16-bit command, byte param1, param2 and src, and every
    destination byte with the flag bit 0x80 clear (a valid short-form frame),
    [_write_packet] without payload writes the 6-byte header
    [short_header], and [_read_packet] on that header returns exactly the
    same command, param1, param2, dest and src. *)
Theorem short_form_roundtrip (cmd param1 param2 dest src : Z) (w : Port)
    (rest : list byte) (later out : list (list byte)) (sl sl' : list Q) :
  0 <= cmd < 65536 -> 0 <= param1 < 256 -> 0 <= param2 < 256 ->
  0 <= dest < 128 -> 0 <= src < 256 ->
  let header := short_header cmd param1 param2 dest src in
  Apt._write_packet cmd param1 param2 None dest src {| port := Some w; slept := sl |}
    = (Ok tt, {| port := Some (port_write header w); slept := sl |})
  /\ length header = 6%nat
  /\ Apt._read_packet (listening (header ++ rest) later out sl')
    = (Ok (Some (short_packet cmd param1 param2 dest src)),
       listening (rest ++ hd [] later) (tl later) out sl').
Proof.
  intros Hc H1 H2 Hd Hs header. split; [|split].
  - apply write_short_frame; lia.
  - reflexivity.
  - apply read_short_frame; lia.
Qed.

Lemma short_form_roundtrip_witness :
  Apt._read_packet (listening (short_header 0x0223 7 9 0x50 0x01 ++ []) [] [] [])
  = (Ok (Some (short_packet 0x0223 7 9 0x50 0x01)), listening [] [] [] []).
Proof.
  apply (short_form_roundtrip 0x0223 7 9 0x50 0x01
           {| rx_buf := []; rx_later := []; tx := [] |} [] [] [] [] []); lia.
Defined.

Lemma short_packet_dest (cmd param1 param2 dest src : Z) :
  short_packet cmd param1 param2 dest src !! "dest" = Some (VInt dest).
Proof.
  unfold short_packet. rewrite !lookup_insert_ne by discriminate. apply lookup_insert_eq.
Qed.

Lemma long_packet_dest (cmd : Z) (data : list byte) (dest src : Z) :
  long_packet cmd data dest src !! "dest" = Some (VInt dest).
Proof.
  unfold long_packet. rewrite !lookup_insert_ne by discriminate. apply lookup_insert_eq.
Qed.

(** C10: when the destination byte handed to the short-form encoder has bit
    0x80 set, [_read_packet] takes the 6-byte frame for a long-form header:
    the destination comes back without the high bit, there is no param1 or
    param2, and [param1 + 256 * param2] bytes are read as payload.  So the
    short-form round trip holds exactly when the destination is below 0x80. *)
Theorem short_form_flag_bit (cmd param1 param2 dest src : Z)
    (rest : list byte) (later out : list (list byte)) (sl : list Q) :
  0 <= cmd < 65536 -> 0 <= param1 < 256 -> 0 <= param2 < 256 ->
  0 <= dest < 256 -> 0 <= src < 256 ->
  let dev := listening (short_header cmd param1 param2 dest src ++ rest) later out sl in
  let n := Z.to_nat (param1 + 256 * param2) in
  let avail := (rest ++ hd [] later) ++ hd [] (tl later) in
  (128 <= dest ->
     Apt._read_packet dev
     = (Ok (Some (long_packet cmd (take n avail) (dest - 128) src)),
        listening (drop n avail) (tl (tl later)) out sl)
     /\ long_packet cmd (take n avail) (dest - 128) src !! "param1" = None
     /\ long_packet cmd (take n avail) (dest - 128) src !! "param2" = None)
  /\ (fst (Apt._read_packet dev) = Ok (Some (short_packet cmd param1 param2 dest src))
      <-> dest < 128).
Proof.
  intros Hc H1 H2 Hd Hs dev n avail.
  assert (Hlong : 128 <= dest ->
    Apt._read_packet dev
    = (Ok (Some (long_packet cmd (take n avail) (dest - 128) src)),
       listening (drop n avail) (tl (tl later)) out sl)).
  { intros Hflag. destruct (flag_set dest) as (Hbit & Hlow & _); [lia|].
    unfold dev, short_header, listening. cbn [app].
    rewrite read_packet_long by (rewrite b2z_z2b by lia; lia).
    rewrite le16 by lia. rewrite !b2z_z2b by lia. rewrite Hlow. reflexivity. }
  split.
  - intros Hflag. split; [now apply Hlong|].
    unfold long_packet. now rewrite !lookup_insert_ne by discriminate.
  - split.
    + intros Hshort. destruct (Z.lt_ge_cases dest 128) as [|Hflag]; [assumption|].
      rewrite (Hlong Hflag) in Hshort. cbn [fst] in Hshort.
      assert (E : long_packet cmd (take n avail) (dest - 128) src !! "dest"
                  = short_packet cmd param1 param2 dest src !! "dest")
        by congruence.
      rewrite long_packet_dest, short_packet_dest in E. inversion E. lia.
    + intros Hlt.
      unfold dev. rewrite read_short_frame by lia. reflexivity.
Qed.

Lemma short_form_flag_bit_witness :
  Apt._read_packet
    (listening (short_header 0x0223 2 0 0xD0 0x01 ++ [Byte.x07; Byte.x08; Byte.x09]) [] [] [])
  = (Ok (Some (long_packet 0x0223 [Byte.x07; Byte.x08] 0x50 0x01)),
     listening [Byte.x09] [] [] []).
Proof.
  destruct (short_form_flag_bit 0x0223 2 0 0xD0 0x01 [Byte.x07; Byte.x08; Byte.x09] [] [] [])
    as [H _]; try lia.
  apply H. lia.
Defined.

(** C4: for every payload of 0 to 65535 bytes and every 16-bit command and
    byte dest and src, [_write_packet] with that payload writes the 6-byte
    header (command and payload length as 16-bit little-endian integers,
    [dest | 0x80], src) and then the payload unmodified; [_read_packet] on
    these bytes decodes the header, reads the announced length and returns
    the original payload exactly. *)
Theorem long_form_roundtrip (cmd param1 param2 dest src : Z) (payload : list byte)
    (w : Port) (rest : list byte) (later out : list (list byte)) (sl sl' : list Q) :
  0 <= cmd < 65536 -> 0 <= dest < 256 -> 0 <= src < 256 ->
  Apt.len payload <= 65535 ->
  let header := long_header cmd (Apt.len payload) dest src in
  Apt._write_packet cmd param1 param2 (Some payload) dest src
      {| port := Some w; slept := sl |}
    = (Ok tt, {| port := Some (port_write payload (port_write header w)); slept := sl |})
  /\ header = le_bytes 2 cmd ++ le_bytes 2 (Apt.len payload)
              ++ [z2b (Z.lor dest 0x80); z2b src]
  /\ Z.testbit (Z.lor dest 0x80) 7 = true
  /\ Apt._read_packet (listening (header ++ payload ++ rest) later out sl')
    = (Ok (Some (long_packet cmd payload (Z.land dest 0x7F) src)),
       listening ((rest ++ hd [] later) ++ hd [] (tl later)) (tl (tl later)) out sl')
  /\ long_packet cmd payload (Z.land dest 0x7F) src !! "data" = Some (VBytes payload).
Proof.
  intros Hc Hd Hs Hn header. split; [|split; [|split; [|split]]].
  - apply write_long_frame; assumption.
  - unfold header, long_header. rewrite !le_bytes_2 by (unfold Apt.len in *; lia).
    reflexivity.
  - rewrite Z.lor_spec. apply orb_true_r.
  - apply read_long_frame; assumption.
  - apply lookup_insert_eq.
Qed.

Lemma long_form_roundtrip_witness :
  Apt._read_packet
    (listening (long_header 0x0643 2 0x50 0x01 ++ [Byte.x01; Byte.x00] ++ [Byte.x2a])
       [] [] [])
  = (Ok (Some (long_packet 0x0643 [Byte.x01; Byte.x00] 0x50 0x01)),
     listening [Byte.x2a] [] [] []).
Proof.
  apply (long_form_roundtrip 0x0643 0 0 0x50 0x01 [Byte.x01; Byte.x00]
           {| rx_buf := []; rx_later := []; tx := [] |} [Byte.x2a] [] [] [] []);
    unfold Apt.len; cbn [length]; lia.
Defined.

(** ** Sending an empty payload *)

(** C1, refuted as stated: on an open port, the call with an empty byte
    sequence as payload does not fail at all, so it is not a failure that
    leaves the transport untouched. *)
Lemma empty_payload_is_sent :
  let dev := {| port := Some {| rx_buf := []; rx_later := []; tx := [] |}; slept := [] |} in
  ~ (exists e dev',
       Apt._write_packet 0x0643 0 0 (Some []) 0x50 0x01 dev = (Raise e, dev')
       /\ option_map sent (port dev') = option_map sent (port dev)).
Proof.
  intros dev (e & dev' & H & _). vm_compute in H. discriminate H.
Qed.

(** The two guards of [_write_packet] are complementary: its last branch is
    never taken, whatever the arguments and the state. *)
Lemma write_packet_never_value_error (cmd param1 param2 dest src : Z)
    (data : option (list byte)) (dev : AptDevice) (msg : string) :
  fst (Apt._write_packet cmd param1 param2 data dest src dev) <> Raise (ValueError msg).
Proof.
  unfold Apt._write_packet, bind, lift, Apt._write, Struct.pack.
  destruct data as [d|]; cbn [Apt.is_None negb];
    (destruct (Struct.pack_opt _ _) as [h|]; [|cbn; congruence]);
    destruct (port dev); cbn; congruence.
Qed.

(** C1, amended: with an empty byte sequence as payload, [_write_packet] on an
    open port succeeds.  It writes the 6-byte long-form header (command,
    length 0, [dest | 0x80], src) and then the empty payload, so exactly
    these six bytes reach the transport. *)
Theorem empty_payload_long_form (cmd param1 param2 dest src : Z) (w : Port) (sl : list Q) :
  0 <= cmd < 65536 -> 0 <= dest < 256 -> 0 <= src < 256 ->
  let dev' := {| port := Some (port_write [] (port_write (long_header cmd 0 dest src) w));
                 slept := sl |} in
  Apt._write_packet cmd param1 param2 (Some []) dest src {| port := Some w; slept := sl |}
    = (Ok tt, dev')
  /\ option_map sent (port dev') = Some (sent w ++ long_header cmd 0 dest src)
  /\ length (long_header cmd 0 dest src) = 6%nat.
Proof.
  intros Hc Hd Hs dev'. split; [|split].
  - apply (write_long_frame cmd param1 param2 dest src []);
      unfold Apt.len; cbn [length]; lia.
  - cbn. unfold sent. cbn. rewrite !concat_app. cbn. now rewrite !app_nil_r.
  - reflexivity.
Qed.

Lemma empty_payload_long_form_witness :
  Apt._write_packet 0x0643 0 0 (Some []) 0x50 0x01
    {| port := Some {| rx_buf := []; rx_later := []; tx := [] |}; slept := [] |}
  = (Ok tt,
     {| port := Some {| rx_buf := []; rx_later := [];
                        tx := [long_header 0x0643 0 0x50 0x01; []] |};
        slept := [] |}).
Proof.
  apply (empty_payload_long_form 0x0643 0 0 0x50 0x01
           {| rx_buf := []; rx_later := []; tx := [] |} []); lia.
Defined.

(** ** Polling for a response *)

Lemma read_packet_total (p : Port) :
  exists packet p', forall sl,
    Apt._read_packet {| port := Some p; slept := sl |}
    = (Ok packet, {| port := Some p'; slept := sl |}).
Proof.
  destruct p as [rx later out].
  destruct (take 6 (rx ++ hd [] later))
    as [|h0 [|h1 [|h2 [|h3 [|h4 [|h5 [|h6 t]]]]]]] eqn:E;
    try (eexists; eexists; intros sl; unfold Apt._read_packet;
         erewrite bind_ok by apply read_open;
         cbn [rx_buf rx_later tx]; change (Z.to_nat 6) with 6%nat; rewrite E;
         reflexivity).
  destruct (Z.eq_dec (Z.land (b2z h4) 0x80) 0) as [Hflag|Hflag].
  - eexists; eexists; intros sl. unfold Apt._read_packet.
    erewrite bind_ok by apply read_open.
    cbn [rx_buf rx_later tx]. change (Z.to_nat 6) with 6%nat. rewrite E.
    rewrite unpack_H, bind_lift. unfold item. cbn [lookup list_lookup].
    rewrite bind_ret, Hflag. reflexivity.
  - apply Z.eqb_neq in Hflag.
    eexists; eexists; intros sl. unfold Apt._read_packet.
    erewrite bind_ok by apply read_open.
    cbn [rx_buf rx_later tx]. change (Z.to_nat 6) with 6%nat. rewrite E.
    rewrite unpack_H, bind_lift. unfold item. cbn [lookup list_lookup].
    rewrite bind_ret, Hflag. cbn [negb].
    rewrite unpack_H, bind_lift. cbn [lookup list_lookup]. rewrite bind_ret.
    erewrite bind_ok by apply read_open. reflexivity.
Qed.

Lemma read_packet_open (p : Port) (sl : list Q) :
  Apt._read_packet {| port := Some p; slept := sl |}
  = (Ok (fst (next_packet p)), {| port := Some (snd (next_packet p)); slept := sl |}).
Proof.
  destruct (read_packet_total p) as (packet & p' & H).
  unfold next_packet. rewrite (H []), (H sl). reflexivity.
Qed.

Lemma sleep_open (t : Q) (o : option Port) (sl : list Q) :
  Apt.sleep t {| port := o; slept := sl |} = (Ok tt, {| port := o; slept := sl ++ [t] |}).
Proof. reflexivity. Qed.

Section Poll.

Variables (cmd : Z) (wait : Q) (fail : M AptDevice (gmap string pyval)).

Lemma poll_miss (n : nat) : forall (p : Port) (sl : list Q),
  Forall (passed_over cmd) (fst (yields n p)) ->
  Apt.poll n cmd wait fail {| port := Some p; slept := sl |}
  = fail {| port := Some (snd (yields n p)); slept := sl ++ replicate n wait |}.
Proof.
  induction n as [|n IH]; intros p sl Hall.
  - cbn. now rewrite app_nil_r.
  - cbn [yields] in *. destruct (next_packet p) as [packet p'] eqn:E1.
    destruct (yields n p') as [l p''] eqn:E2. cbn [fst snd] in *.
    inversion Hall as [|? ? Hhd Htl]; subst.
    cbn [Apt.poll]. erewrite bind_ok by apply read_packet_open.
    rewrite E1. cbn [fst snd].
    assert (Hnext : bind (Apt.sleep wait) (fun _ => Apt.poll n cmd wait fail)
                      {| port := Some p'; slept := sl |}
                    = fail {| port := Some p''; slept := sl ++ replicate (S n) wait |}).
    { erewrite bind_ok by apply sleep_open.
      rewrite IH by (rewrite E2; exact Htl).
      rewrite E2. cbn [snd replicate]. now rewrite <- app_assoc. }
    destruct packet as [d|]; [|exact Hnext].
    cbn in Hhd. rewrite Hhd. exact Hnext.
Qed.

Lemma poll_hit (k n : nat) : forall (p : Port) (sl : list Q) (d : gmap string pyval),
  Forall (passed_over cmd) (fst (yields k p)) ->
  fst (next_packet (snd (yields k p))) = Some d ->
  Apt.cmd_is d cmd = true ->
  Apt.poll (k + S n) cmd wait fail {| port := Some p; slept := sl |}
  = (Ok d, {| port := Some (snd (next_packet (snd (yields k p))));
              slept := sl ++ replicate k wait |}).
Proof.
  induction k as [|k IH]; intros p sl d Hall Hd Hcmd.
  - cbn [yields fst snd Nat.add replicate] in *. rewrite app_nil_r.
    cbn [Apt.poll]. erewrite bind_ok by apply read_packet_open.
    rewrite Hd, Hcmd. reflexivity.
  - cbn [yields] in *. destruct (next_packet p) as [packet p'] eqn:E1.
    destruct (yields k p') as [l p''] eqn:E2. cbn [fst snd] in *.
    inversion Hall as [|? ? Hhd Htl]; subst.
    cbn [Nat.add Apt.poll]. erewrite bind_ok by apply read_packet_open.
    rewrite E1. cbn [fst snd].
    assert (Hnext : bind (Apt.sleep wait) (fun _ => Apt.poll (k + S n) cmd wait fail)
                      {| port := Some p'; slept := sl |}
                    = (Ok d, {| port := Some (snd (next_packet p''));
                                slept := sl ++ replicate (S k) wait |})).
    { erewrite bind_ok by apply sleep_open.
      rewrite (IH p' (sl ++ [wait]) d); rewrite ?E2; try assumption.
      cbn [snd replicate]. now rewrite <- app_assoc. }
    destruct packet as [d'|]; [|exact Hnext].
    cbn in Hhd. rewrite Hhd. exact Hnext.
Qed.

End Poll.

(** The hexadecimal numeral in the message reads back as the command. *)
Lemma fmt_02x_reads_back (z : Z) :
  0 <= z -> Z.of_N (HexString.Raw.to_N (fmt_02x z) 0) = z.
Proof.
  intros Hz. destruct z as [|p|p]; [reflexivity | | lia].
  unfold fmt_02x.
  destruct (String.length (HexString.Raw.of_pos p "") <? 2)%nat.
  - change (HexString.Raw.to_N (String "0" (HexString.Raw.of_pos p "")) 0)
      with (HexString.Raw.to_N (HexString.Raw.of_pos p "") 0).
    now rewrite HexString.Raw.to_N_of_pos.
  - now rewrite HexString.Raw.to_N_of_pos.
Qed.

(** C5: if none of the 10 attempts yields a packet with the expected command
    (each attempt decodes nothing or a packet with another command), then
    [_get_packet] with [attempts = 10] raises the [ValueError] whose message
    carries the expected command as a hexadecimal numeral that reads back as
    that command; ten packets have been consumed, ten sleeps were made, and
    the port is still open. *)
Theorem get_packet_times_out (cmd : Z) (wait : Q) (p : Port) (sl : list Q) :
  0 <= cmd < 65536 ->
  Forall (passed_over cmd) (fst (yields 10 p)) ->
  exists dev',
    Apt._get_packet cmd 10 wait {| port := Some p; slept := sl |}
    = (Raise (ValueError (Apt.timeout_msg cmd 10)), dev')
    /\ port dev' = Some (snd (yields 10 p))
    /\ slept dev' = sl ++ replicate 10 wait
    /\ Apt.timeout_msg cmd 10
       = "Expected packet with command 0x" +:+ fmt_02x cmd
         +:+ ", did not receive in 10 attempts"
    /\ Z.of_N (HexString.Raw.to_N (fmt_02x cmd) 0) = cmd.
Proof.
  intros Hc Hnone. eexists. split; [|split; [|split; [|split]]].
  - unfold Apt._get_packet. change (Z.to_nat 10) with 10%nat.
    rewrite poll_miss by exact Hnone. reflexivity.
  - reflexivity.
  - reflexivity.
  - reflexivity.
  - apply fmt_02x_reads_back. lia.
Qed.

(** C6: if the next six packets of the transport are five decodable packets
    with another command followed by one with the expected command, then
    [_get_packet] with [attempts = 10] returns that sixth packet; the port is
    left as after exactly these six reads, and exactly five sleeps, one per
    discarded packet, were made. *)
Theorem get_packet_skips_five (cmd : Z) (wait : Q) (p : Port) (sl : list Q)
    (q1 q2 q3 q4 q5 m : gmap string pyval) :
  fst (yields 6 p) = [Some q1; Some q2; Some q3; Some q4; Some q5; Some m] ->
  Apt.cmd_is q1 cmd = false -> Apt.cmd_is q2 cmd = false ->
  Apt.cmd_is q3 cmd = false -> Apt.cmd_is q4 cmd = false ->
  Apt.cmd_is q5 cmd = false ->
  Apt.cmd_is m cmd = true ->
  Apt._get_packet cmd 10 wait {| port := Some p; slept := sl |}
  = (Ok m, {| port := Some (snd (yields 6 p)); slept := sl ++ replicate 5 wait |}).
Proof.
  intros Hy H1 H2 H3 H4 H5 Hm.
  assert (Hsplit : yields 6 p
                   = (fst (yields 5 p) ++ [fst (next_packet (snd (yields 5 p)))],
                      snd (next_packet (snd (yields 5 p))))).
  { cbn [yields]. repeat (destruct (next_packet _) as [? ?]). reflexivity. }
  rewrite Hsplit in Hy |- *. cbn [fst snd] in Hy |- *.
  assert (Hlen : length (fst (yields 5 p)) = 5%nat).
  { cbn [yields]. repeat (destruct (next_packet _) as [? ?]). reflexivity. }
  destruct (fst (yields 5 p)) as [|a1 [|a2 [|a3 [|a4 [|a5 [|a6 t]]]]]] eqn:E5;
    try discriminate Hlen.
  cbn [app] in Hy. injection Hy as -> -> -> -> -> Hlast.
  unfold Apt._get_packet. change (Z.to_nat 10) with (5 + S 4)%nat.
  apply poll_hit.
  - rewrite E5. repeat constructor; assumption.
  - exact Hlast.
  - exact Hm.
Qed.

Lemma get_packet_times_out_witness :
  exists dev',
    Apt._get_packet 0x0412 10 Apt.wait_default {| port := Some silent_port; slept := [] |}
    = (Raise (ValueError (Apt.timeout_msg 0x0412 10)), dev')
    /\ port dev' = Some (snd (yields 10 silent_port))
    /\ slept dev' = [] ++ replicate 10 Apt.wait_default
    /\ Apt.timeout_msg 0x0412 10
       = "Expected packet with command 0x" +:+ fmt_02x 0x0412
         +:+ ", did not receive in 10 attempts"
    /\ Z.of_N (HexString.Raw.to_N (fmt_02x 0x0412) 0) = 0x0412.
Proof.
  apply (get_packet_times_out 0x0412 Apt.wait_default silent_port []).
  - lia.
  - vm_compute. repeat constructor.
Defined.

Lemma get_packet_skips_five_witness :
  Apt._get_packet 0x0412 10 Apt.wait_default {| port := Some busy_port; slept := [] |}
  = (Ok (long_packet 0x0412 position_payload 0x01 0x50),
     {| port := Some (snd (yields 6 busy_port));
        slept := [] ++ replicate 5 Apt.wait_default |}).
Proof.
  apply (get_packet_skips_five 0x0412 Apt.wait_default busy_port []
           (short_packet 0x0464 1 0 0x01 0x50) (short_packet 0x0464 1 0 0x01 0x50)
           (short_packet 0x0464 1 0 0x01 0x50) (short_packet 0x0464 1 0 0x01 0x50)
           (short_packet 0x0464 1 0 0x01 0x50)
           (long_packet 0x0412 position_payload 0x01 0x50));
    vm_compute; reflexivity.
Defined.

Example busy_port_drained :
  snd (yields 6 busy_port) = {| rx_buf := []; rx_later := []; tx := [] |}.
Proof. vm_compute. reflexivity. Qed.

Example silent_port_message :
  Apt.timeout_msg 0x0412 10
  = "Expected packet with command 0x412, did not receive in 10 attempts".
Proof. reflexivity. Qed.

(** ** The conversion factors of the stage *)

Lemma keeps_ret {A} (a : A) : keeps_scales (ret a).
Proof. intros s. reflexivity. Qed.

Lemma keeps_raise {A} (e : exn) : keeps_scales (@raise KDC101 A e).
Proof. intros s. reflexivity. Qed.

Lemma keeps_lift {A} (r : result A) : keeps_scales (lift r).
Proof. intros s. reflexivity. Qed.

Lemma keeps_gets {A} (f : KDC101 -> A) : keeps_scales (gets f).
Proof. intros s. reflexivity. Qed.

Lemma keeps_bind {A B} (m : M KDC101 A) (k : A -> M KDC101 B) :
  keeps_scales m -> (forall a, keeps_scales (k a)) -> keeps_scales (bind m k).
Proof.
  intros Hm Hk s. unfold bind. specialize (Hm s).
  destruct (m s) as [[a|e] s1]; cbn [snd] in *.
  - now rewrite Hk.
  - exact Hm.
Qed.

Lemma keeps_super {A} (m : M AptDevice A) : keeps_scales (Kdc.super m).
Proof.
  intros s. unfold Kdc.super. now destruct (m (kdc_base s)).
Qed.

Lemma keeps_print (d : Z) : keeps_scales (Kdc.print d).
Proof. intros s. reflexivity. Qed.

Lemma keeps_item (l : list pyval) (i : nat) : keeps_scales (item l i).
Proof. intros s. unfold item. now destruct (l !! i). Qed.

Lemma keeps_getitem (d : gmap string pyval) (k : string) : keeps_scales (getitem d k).
Proof. intros s. unfold getitem. now destruct (d !! k). Qed.

Lemma keeps_as_int (v : pyval) : keeps_scales (as_int v).
Proof. intros s. now destruct v. Qed.

Lemma keeps_as_bytes (v : pyval) : keeps_scales (as_bytes v).
Proof. intros s. now destruct v. Qed.

Lemma keeps_fdiv (a b : Q) : keeps_scales (fdiv a b).
Proof. intros s. unfold fdiv. now destruct (Qeq_bool b 0). Qed.

Create HintDb keeps.
#[local] Hint Resolve keeps_ret keeps_raise keeps_lift keeps_gets keeps_super
  keeps_print keeps_item keeps_getitem keeps_as_int keeps_as_bytes keeps_fdiv : keeps.

Ltac keeps_step :=
  first
    [ apply keeps_bind; [|intros ?]
    | solve [auto with keeps]
    | match goal with
      | |- keeps_scales (if ?b then _ else _) => destruct b
      end ].

Lemma keeps_physical (data : list pyval) (i : nat) (conv : Q) :
  keeps_scales (Kdc.physical data i conv).
Proof. unfold Kdc.physical. repeat keeps_step. Qed.

#[local] Hint Resolve keeps_physical : keeps.

Lemma keeps_write_packet cmd param1 param2 data :
  keeps_scales (Kdc._write_packet cmd param1 param2 data).
Proof. apply keeps_super. Qed.

Lemma keeps_get_packet cmd : keeps_scales (Kdc._get_packet cmd).
Proof. apply keeps_super. Qed.

#[local] Hint Resolve keeps_write_packet keeps_get_packet : keeps.

Lemma keeps_move distance channel absolute :
  keeps_scales (Kdc.move distance channel absolute).
Proof. unfold Kdc.move. repeat keeps_step. Qed.

Lemma keeps_get_vel_params channel : keeps_scales (Kdc.get_vel_params channel).
Proof. unfold Kdc.get_vel_params. repeat keeps_step. Qed.

Lemma keeps_set_vel_params accel max_vel channel min_vel :
  keeps_scales (Kdc.set_vel_params accel max_vel channel min_vel).
Proof. unfold Kdc.set_vel_params. repeat keeps_step. Qed.

Lemma keeps_get_jog_params channel : keeps_scales (Kdc.get_jog_params channel).
Proof. unfold Kdc.get_jog_params. repeat keeps_step. Qed.

Lemma keeps_get_pos channel : keeps_scales (Kdc.get_pos channel).
Proof. unfold Kdc.get_pos. repeat keeps_step. Qed.

(** C7: [set_counts_per_unit] sets the three factors together, with
    [_x_conv = counts], [_v_conv = _x_conv * T * 65536] and
    [_a_conv = _v_conv * T] for [T = 2048 / 6000000]; for positive [counts]
    the ratio [_v_conv / _x_conv] is [T * 65536] whatever [counts] is; the
    constructor sets them the same way, and every other method leaves all
    three as they are. *)
Theorem scales_jointly_derived (counts : Q) (s : KDC101) :
  (0 < counts)%Q ->
  let s' := after (Call_set_counts_per_unit counts) s in
  _x_conv s' = counts
  /\ _v_conv s' = (_x_conv s' * Kdc.DRIVER_T * 65536)%Q
  /\ _a_conv s' = (_v_conv s' * Kdc.DRIVER_T)%Q
  /\ Kdc.DRIVER_T = (2048 / 6000000)%Q
  /\ (_v_conv s' / _x_conv s' == Kdc.DRIVER_T * 65536)%Q
  /\ (forall p, scales (Kdc.__init__ (Some counts) p) = scales s')
  /\ (forall c s0, (forall k, c <> Call_set_counts_per_unit k) ->
        scales (after c s0) = scales s0).
Proof.
  intros Hpos s'. repeat split.
  - cbn. field. intros H0. rewrite H0 in Hpos. now apply Qlt_irrefl in Hpos.
  - intros c s0 Hc. destruct c; cbn [after].
    + now destruct (Hc counts0).
    + apply keeps_move.
    + apply keeps_get_vel_params.
    + apply keeps_set_vel_params.
    + apply keeps_get_jog_params.
    + apply keeps_get_pos.
    + apply keeps_super.
    + apply keeps_super.
    + apply keeps_super.
Qed.

Lemma scales_jointly_derived_witness :
  (_v_conv (after (Call_set_counts_per_unit 34304) (Kdc.__init__ None silent_port))
   / _x_conv (after (Call_set_counts_per_unit 34304) (Kdc.__init__ None silent_port))
   == Kdc.DRIVER_T * 65536)%Q.
Proof.
  apply (scales_jointly_derived 34304 (Kdc.__init__ None silent_port)).
  reflexivity.
Defined.

(** ** Rounding *)

Lemma py_int_nonneg (q : Q) : (0 <= q)%Q -> py_int q = Qfloor q.
Proof.
  destruct q as [n d]. unfold Qle, py_int, Qfloor. cbn [Qnum Qden]. intros H.
  apply Z.quot_div_nonneg; lia.
Qed.

(** On a non-negative product, [int(y + 0.5)] is rounding half up. *)
Lemma int_plus_half_nonneg (y : Q) :
  (0 <= y)%Q -> py_int (y + (1 # 2))%Q = round_half_up y.
Proof.
  intros Hy. unfold round_half_up. apply py_int_nonneg.
  apply Qle_trans with y; [exact Hy|].
  rewrite <- (Qplus_0_r y) at 1. apply Qplus_le_r. discriminate.
Qed.

Lemma round_half_up_bounds (y : Q) (n : Z) :
  (0 <= y)%Q -> (y <= inject_Z n)%Q -> 0 <= round_half_up y <= n.
Proof.
  intros H0 Hn. unfold round_half_up. split.
  - change 0 with (Qfloor 0). apply Qfloor_resp_le.
    apply Qle_trans with y; [exact H0|].
    rewrite <- (Qplus_0_r y) at 1. apply Qplus_le_r. discriminate.
  - assert (E : Qfloor (inject_Z n + (1 # 2)) = n).
    { unfold Qfloor, Qplus, inject_Z. cbn [Qnum Qden].
      symmetry. apply (Z.div_unique _ _ n 1); lia. }
    rewrite <- E at 1. apply Qfloor_resp_le. now apply Qplus_le_l.
Qed.

Lemma Qltb_false (a b : Q) : Qltb a b = false <-> (b <= a)%Q.
Proof.
  unfold Qltb. rewrite negb_false_iff. apply Qle_bool_iff.
Qed.

Lemma Qltb_true (a b : Q) : Qltb a b = true <-> (a < b)%Q.
Proof.
  unfold Qltb. rewrite negb_true_iff. split.
  - intros H. apply Qnot_le_lt. intros Hle. apply Qle_bool_iff in Hle. congruence.
  - intros H. destruct (Qle_bool b a) eqn:E; [|reflexivity].
    apply Qle_bool_iff in E. exfalso. exact (Qlt_not_le _ _ H E).
Qed.

Lemma bind_gets {S A B} (f : S -> A) (k : A -> M S B) (s : S) :
  bind (gets f) k s = k (f s) s.
Proof. reflexivity. Qed.

Lemma pack_HH (a b : Z) :
  0 <= a < 65536 -> 0 <= b < 65536 ->
  Struct.pack [Struct.cH; Struct.cH] [VInt a; VInt b]
  = Ok [z2b (a mod 256); z2b (a / 256); z2b (b mod 256); z2b (b / 256)].
Proof.
  intros Ha Hb. unfold Struct.pack. cbn [Struct.pack_opt].
  rewrite !pack1_int by (try discriminate; cbn; lia).
  cbn [Struct.width]. rewrite !le_bytes_2 by lia. reflexivity.
Qed.

(** ** The output voltage of the piezo driver *)

(** C9: with [max_volts] cached as [m], [set_volts V] for [V < 0] or [V > m]
    raises the [ValueError] of the range check and leaves the instance, and
    so the transport, exactly as it was; for [0 <= V <= m] (with [m]
    positive, as every entry of the voltage table is) it writes command
    0x0643 with the 4-byte payload made of channel 1 and
    [round_half_up (V / m * 32767)], which lies in [0, 32767]. *)
Theorem set_volts_range (V : Q) (m : Z) (w : Port) (sl : list Q) :
  let dev := {| tpz_base := {| port := Some w; slept := sl |}; max_volts := Some m |} in
  let raw := round_half_up (V / inject_Z m * 32767) in
  ((V < 0 \/ inject_Z m < V)%Q ->
     Tpz.set_volts V dev = (Raise (ValueError (Tpz.range_msg m)), dev))
  /\ (0 < m -> (0 <= V /\ V <= inject_Z m)%Q ->
      0 <= raw <= 32767
      /\ Tpz.set_volts V dev
         = (Ok tt,
            {| tpz_base :=
                 {| port := Some (port_write
                              [Byte.x01; Byte.x00; z2b (raw mod 256); z2b (raw / 256)]
                              (port_write (long_header 0x0643 4 0x50 0x01) w));
                    slept := sl |};
               max_volts := Some m |})).
Proof.
  intros dev raw. split.
  - intros Hout. unfold Tpz.set_volts, dev.
    rewrite bind_gets. cbn [max_volts Apt.is_None].
    rewrite bind_ret, bind_gets. cbn [max_volts default from_option id].
    assert (E : Qltb V 0 || Qltb (inject_Z m) V = true).
    { apply orb_true_iff. destruct Hout as [H|H]; [left|right]; now apply Qltb_true. }
    rewrite E. reflexivity.
  - intros Hm [H0 H1].
    assert (Hmq : (0 < inject_Z m)%Q) by (unfold Qlt; cbn; lia).
    assert (Hy0 : (0 <= V / inject_Z m * 32767)%Q).
    { apply Qmult_le_0_compat; [|discriminate].
      apply Qle_shift_div_l; [exact Hmq|]. now rewrite Qmult_0_l. }
    assert (Hy1 : (V / inject_Z m * 32767 <= inject_Z 32767)%Q).
    { rewrite <- (Qmult_1_l (inject_Z 32767)).
      apply Qmult_le_compat_r; [|discriminate].
      apply Qle_shift_div_r; [exact Hmq|]. now rewrite Qmult_1_l. }
    pose proof (round_half_up_bounds _ _ Hy0 Hy1) as Hraw. fold raw in Hraw.
    split; [exact Hraw|].
    unfold Tpz.set_volts, dev.
    rewrite bind_gets. cbn [max_volts Apt.is_None].
    rewrite bind_ret, bind_gets. cbn [max_volts default from_option id].
    assert (E : Qltb V 0 || Qltb (inject_Z m) V = false).
    { apply orb_false_iff. split; now apply Qltb_false. }
    rewrite E. unfold fdiv.
    assert (Ez : Qeq_bool (inject_Z m) 0 = false).
    { destruct (Qeq_bool (inject_Z m) 0) eqn:Eq; [|reflexivity].
      apply Qeq_bool_iff in Eq. rewrite Eq in Hmq. now apply Qlt_irrefl in Hmq. }
    rewrite Ez, bind_ret. rewrite int_plus_half_nonneg by exact Hy0. fold raw.
    rewrite pack_HH by lia. rewrite bind_lift.
    unfold Tpz._write_packet, Tpz.super. cbn [tpz_base max_volts].
    rewrite write_long_frame by (unfold Apt.dest_default, Apt.src_default, Apt.len;
                                 cbn [length]; lia).
    reflexivity.
Qed.

Lemma set_volts_range_witness :
  let dev := {| tpz_base := {| port := Some silent_port; slept := [] |};
                max_volts := Some 150 |} in
  Tpz.set_volts 200 dev
    = (Raise (ValueError "V must be between 0 and max_volts (150)"), dev)
  /\ Tpz.set_volts 75 dev
    = (Ok tt,
       {| tpz_base :=
            {| port := Some (port_write [Byte.x01; Byte.x00; Byte.x00; Byte.x40]
                               (port_write (long_header 0x0643 4 0x50 0x01) silent_port));
               slept := [] |};
          max_volts := Some 150 |}).
Proof.
  intros dev. split.
  - destruct (set_volts_range 200 150 silent_port []) as [H _].
    apply H. right. reflexivity.
  - destruct (set_volts_range 75 150 silent_port []) as [_ H].
    destruct H as [_ H]; [lia | split; discriminate |]. exact H.
Defined.

(** ** Moving the stage *)

(** C8: with [counts_per_unit = 34304], [move(1.0, channel=1, absolute=True)]
    writes the long-form header of command 0x0453 and then a 6-byte payload:
    the channel as a 16-bit integer followed by
    [round_half_up (1 * 34304) = 34304] as a signed little-endian 32-bit
    integer; with [absolute=False] the same payload goes out under command
    0x0448. *)
Theorem move_one_unit (base_port : Port) (sl : list Q) (x v a : Q) (out : list Z) :
  let s := after (Call_set_counts_per_unit 34304)
             {| kdc_base := {| port := Some base_port; slept := sl |};
                _x_conv := x; _v_conv := v; _a_conv := a; stdout := out |} in
  let payload := [Byte.x01; Byte.x00; Byte.x00; Byte.x86; Byte.x00; Byte.x00] in
  let sent_under cmd :=
    {| kdc_base :=
         {| port := Some (port_write payload
                            (port_write (long_header cmd 6 0x50 0x01) base_port));
            slept := sl |};
       _x_conv := _x_conv s; _v_conv := _v_conv s; _a_conv := _a_conv s;
       stdout := out ++ [34304] |} in
  Kdc.move 1 1 true s = (Ok tt, sent_under 0x0453)
  /\ Kdc.move 1 1 false s = (Ok tt, sent_under 0x0448)
  /\ payload = le_bytes 2 1 ++ le_bytes 4 34304
  /\ Struct.unpack [Struct.cH; Struct.ci] payload = Ok [VInt 1; VInt 34304]
  /\ round_half_up (1 * 34304) = 34304
  /\ long_header 0x0453 6 0x50 0x01
     = [Byte.x53; Byte.x04; Byte.x06; Byte.x00; Byte.xd0; Byte.x01]
  /\ long_header 0x0448 6 0x50 0x01
     = [Byte.x48; Byte.x04; Byte.x06; Byte.x00; Byte.xd0; Byte.x01].
Proof.
  intros s payload sent_under.
  assert (Hx : _x_conv s = 34304%Q) by reflexivity.
  split; [|split; [|split; [|split; [|split; [|split]]]]].
  - unfold Kdc.move. rewrite bind_gets, Hx. vm_compute. reflexivity.
  - unfold Kdc.move. rewrite bind_gets, Hx. vm_compute. reflexivity.
  - vm_compute. reflexivity.
  - vm_compute. reflexivity.
  - vm_compute. reflexivity.
  - vm_compute. reflexivity.
  - vm_compute. reflexivity.
Qed.

Lemma py_int_nonpos (q : Q) : (q <= 0)%Q -> py_int q = Qceiling q.
Proof.
  destruct q as [n d]. unfold Qle, py_int, Qceiling, Qfloor, Qopp. cbn [Qnum Qden].
  intros H. rewrite <- (Z.opp_involutive n) at 1.
  rewrite Z.quot_opp_l by lia. f_equal. apply Z.quot_div_nonneg; lia.
Qed.

(** Below zero, [int(y + 0.5)] is the ceiling of [y + 1/2], not its floor. *)
Lemma int_plus_half_negative (y : Q) :
  (y + (1 # 2) <= 0)%Q ->
  py_int (y + (1 # 2))%Q = Qceiling (y + (1 # 2))
  /\ round_half_up y = Qfloor (y + (1 # 2)).
Proof.
  intros H. split; [now apply py_int_nonpos | reflexivity].
Qed.

(** C2, the encode direction on a negative distance: with
    [counts_per_unit = 34304], [move(-1.0)] computes [int(-34304 + 0.5)],
    which is -34303, prints it and packs it into the payload, while rounding
    half up gives [round_half_up (-1 * 34304) = -34304].  The binary64
    evaluation of the same expression agrees with the rational one. *)
Theorem move_negative_distance :
  let s := Kdc.__init__ (Some 34304%Q) silent_port in
  let payload := [Byte.x01; Byte.x00; Byte.x01; Byte.x7a; Byte.xff; Byte.xff] in
  Kdc.move (-1) 1 false s
    = (Ok tt,
       {| kdc_base :=
            {| port := Some (port_write payload
                               (port_write (long_header 0x0448 6 0x50 0x01)
                                  (port_purge silent_port)));
               slept := slept (kdc_base s) |};
          _x_conv := _x_conv s; _v_conv := _v_conv s; _a_conv := _a_conv s;
          stdout := [-34303] |})
  /\ Struct.unpack [Struct.cH; Struct.ci] payload = Ok [VInt 1; VInt (-34303)]
  /\ py_int (-1 * 34304 + (1 # 2))%Q = -34303
  /\ round_half_up (-1 * 34304) = -34304
  /\ Binary64.to_raw (-1)%float 34304%float = Some (-34303).
Proof.
  intros s payload. split; [|split; [|split; [|split]]].
  - unfold Kdc.move. rewrite bind_gets. vm_compute. reflexivity.
  - vm_compute. reflexivity.
  - vm_compute. reflexivity.
  - vm_compute. reflexivity.
  - vm_compute. reflexivity.
Qed.

Example binary64_move_one_unit :
  Binary64.to_raw 1%float 34304%float = Some 34304.
Proof. vm_compute. reflexivity. Qed.

(** ** Scenarios run on the model *)

(** [get_pos] purges, queries with 0x0411 and converts the reported 34304
    counts to one unit. *)
Example get_pos_one_unit :
  exists q s',
    Kdc.get_pos 1 (Kdc.__init__ None (answering position_frame)) = (Ok (VFloat q), s')
    /\ (q == 1)%Q
    /\ option_map tx (port (kdc_base s')) = Some [short_header 0x0411 1 0 0x50 0x01].
Proof.
  eexists. eexists. split; [vm_compute; reflexivity|]. split; reflexivity.
Qed.

(** Without a cached limit, [set_volts] first asks for the settings (0x07D5),
    caches the limit of the table, here 150, and then writes the voltage. *)
Example set_volts_loads_limit :
  Tpz.set_volts 75 {| tpz_base := {| port := Some (answering settings_frame); slept := [] |};
                      max_volts := None |}
  = (Ok tt,
     {| tpz_base :=
          {| port := Some {| rx_buf := []; rx_later := [];
                             tx := [short_header 0x07D5 1 0 0x50 0x01;
                                    long_header 0x0643 4 0x50 0x01;
                                    [Byte.x01; Byte.x00; Byte.x00; Byte.x40]] |};
             slept := [] |};
        max_volts := Some 150 |}).
Proof. vm_compute. reflexivity. Qed.

(** A voltage-limit code outside the table is a [KeyError]. *)
Example get_settings_unknown_code :
  fst (Tpz.get_settings
         {| tpz_base :=
              {| port := Some (answering
                          (long_header 0x07D6 6 0x01 0x50
                           ++ [Byte.x01; Byte.x00; Byte.x04; Byte.x00; Byte.x01; Byte.x00]));
                 slept := [] |};
            max_volts := None |})
  = Raise (KeyError (VInt 4)).
Proof. vm_compute. reflexivity. Qed.

(** * Further properties *)

From Stdlib Require Import Lqa Qabs.
Local Open Scope Z_scope.

(** ** More on decoding *)

(** X1: when fewer than six bytes are available, [_read_packet] returns [None];
    the bytes it did get are consumed and lost. *)
Theorem read_packet_short_read (p : Port) (sl : list Q) :
  (length (rx_buf p ++ hd [] (rx_later p)) < 6)%nat ->
  Apt._read_packet {| port := Some p; slept := sl |}
  = (Ok None,
     {| port := Some {| rx_buf := []; rx_later := tl (rx_later p); tx := tx p |};
        slept := sl |}).
Proof.
  intros Hlen. unfold Apt._read_packet.
  erewrite bind_ok by apply read_open.
  change (Z.to_nat 6) with 6%nat.
  rewrite take_ge, drop_ge by lia.
  destruct (rx_buf p ++ hd [] (rx_later p))
    as [|h0 [|h1 [|h2 [|h3 [|h4 [|h5 t]]]]]]; try reflexivity.
  cbn [length] in Hlen. lia.
Qed.

Lemma read_packet_short_read_witness :
  Apt._read_packet {| port := Some {| rx_buf := [Byte.x12; Byte.x04; Byte.x06];
                                      rx_later := []; tx := [] |}; slept := [] |}
  = (Ok None, {| port := Some {| rx_buf := []; rx_later := []; tx := [] |}; slept := [] |}).
Proof.
  apply (read_packet_short_read {| rx_buf := [Byte.x12; Byte.x04; Byte.x06];
                                   rx_later := []; tx := [] |} []).
  cbn. lia.
Defined.

(** X2: a long-form header announces [n] payload bytes, but [_read_packet]
    returns whatever the one read delivers: the payload has
    [min n available] bytes, and no error is raised when it is short. *)
Theorem read_packet_truncated (cmd dest src n : Z) (rest : list byte)
    (later out : list (list byte)) (sl : list Q) :
  0 <= cmd < 65536 -> 0 <= dest < 256 -> 0 <= src < 256 -> 0 <= n < 65536 ->
  let avail := (rest ++ hd [] later) ++ hd [] (tl later) in
  exists data dev',
    Apt._read_packet (listening (long_header cmd n dest src ++ rest) later out sl)
    = (Ok (Some (long_packet cmd data (Z.land dest 0x7F) src)), dev')
    /\ data = take (Z.to_nat n) avail
    /\ length data = Nat.min (Z.to_nat n) (length avail)
    /\ port dev' = Some {| rx_buf := drop (Z.to_nat n) avail;
                           rx_later := tl (tl later); tx := out |}.
Proof.
  intros Hc Hd Hs Hn avail. destruct (flag_forced dest Hd) as (Hr & Hbit & Hlow).
  eexists. eexists. split.
  { unfold long_header, listening. cbn [app].
    rewrite read_packet_long by (rewrite b2z_z2b by lia; lia).
    rewrite !le16 by lia. rewrite !b2z_z2b by lia. rewrite Hlow. reflexivity. }
  split; [reflexivity|]. split; [apply length_take | reflexivity].
Qed.

Lemma read_packet_truncated_witness :
  exists data dev',
    Apt._read_packet
      (listening (long_header 0x0412 6 0x01 0x50 ++ [Byte.x01; Byte.x00]) [] [] [])
    = (Ok (Some (long_packet 0x0412 data (Z.land 0x01 0x7F) 0x50)), dev')
    /\ data = take (Z.to_nat 6) [Byte.x01; Byte.x00]
    /\ length data = Nat.min (Z.to_nat 6) 2
    /\ port dev' = Some {| rx_buf := []; rx_later := []; tx := [] |}.
Proof.
  apply (read_packet_truncated 0x0412 0x01 0x50 6 [Byte.x01; Byte.x00] [] [] []); lia.
Defined.

(** ** Streams of frames *)

Lemma cmd_is_short_packet (cmd param1 param2 dest src c : Z) :
  Apt.cmd_is (short_packet cmd param1 param2 dest src) c = (cmd =? c).
Proof.
  unfold Apt.cmd_is, short_packet.
  rewrite !lookup_insert_ne by discriminate. now rewrite lookup_singleton_eq.
Qed.

Lemma cmd_is_long_packet (cmd : Z) (data : list byte) (dest src c : Z) :
  Apt.cmd_is (long_packet cmd data dest src) c = (cmd =? c).
Proof.
  unfold Apt.cmd_is, long_packet.
  rewrite !lookup_insert_ne by discriminate. now rewrite lookup_singleton_eq.
Qed.

Lemma next_packet_frame (f : frame) (rest : list byte) (later out : list (list byte)) :
  well_formed f ->
  next_packet {| rx_buf := encode f ++ rest; rx_later := later; tx := out |}
  = (Some (decoded f),
     match f with
     | Short _ _ _ _ _ =>
         {| rx_buf := rest ++ hd [] later; rx_later := tl later; tx := out |}
     | Long _ _ _ _ =>
         {| rx_buf := (rest ++ hd [] later) ++ hd [] (tl later);
            rx_later := tl (tl later); tx := out |}
     end).
Proof.
  intros Hwf. unfold next_packet. destruct f as [cmd p1 p2 dest src|cmd data dest src];
    cbn [well_formed encode decoded] in *.
  - destruct Hwf as (Hc & H1 & H2 & Hd & Hs).
    pose proof (read_short_frame cmd p1 p2 dest src rest later out [] Hc H1 H2 Hd Hs) as H.
    unfold listening in H. rewrite H. reflexivity.
  - destruct Hwf as (Hc & Hn & Hd & Hs).
    pose proof (read_long_frame cmd dest src data rest later out [] Hc Hd Hs Hn) as H.
    unfold listening in H. rewrite <- app_assoc. rewrite H. reflexivity.
Qed.

(** Frames queued back to back in the input buffer are decoded one per call,
    in order, and what follows them stays in the buffer. *)
Lemma yields_frames (fs : list frame) (rest : list byte) (out : list (list byte)) :
  Forall well_formed fs ->
  yields (length fs)
    {| rx_buf := concat (map encode fs) ++ rest; rx_later := []; tx := out |}
  = (map (fun f => Some (decoded f)) fs,
     {| rx_buf := rest; rx_later := []; tx := out |}).
Proof.
  induction fs as [|f fs IH]; intros Hall; [reflexivity|].
  inversion Hall as [|? ? Hf Hfs]; subst.
  cbn [length yields map concat]. rewrite <- app_assoc.
  rewrite next_packet_frame by exact Hf.
  assert (E : (match f with
               | Short _ _ _ _ _ =>
                   {| rx_buf := (concat (map encode fs) ++ rest) ++ hd [] [];
                      rx_later := tl []; tx := out |}
               | Long _ _ _ _ =>
                   {| rx_buf := ((concat (map encode fs) ++ rest) ++ hd [] []) ++ hd [] (tl []);
                      rx_later := tl (tl []); tx := out |}
               end)
              = {| rx_buf := concat (map encode fs) ++ rest; rx_later := []; tx := out |}).
  { destruct f; cbn [hd tl]; now rewrite ?app_nil_r. }
  rewrite E, (IH Hfs). reflexivity.
Qed.

Lemma sent_port_write (d : list byte) (p : Port) : sent (port_write d p) = sent p ++ d.
Proof.
  unfold sent, port_write. cbn [tx]. rewrite concat_app. cbn. now rewrite app_nil_r.
Qed.

Lemma send_frame (f : frame) (w : Port) (sl : list Q) :
  well_formed f ->
  exists w',
    send f {| port := Some w; slept := sl |} = (Ok tt, {| port := Some w'; slept := sl |})
    /\ sent w' = sent w ++ encode f
    /\ rx_buf w' = rx_buf w /\ rx_later w' = rx_later w.
Proof.
  intros Hwf. destruct f as [cmd p1 p2 dest src|cmd data dest src];
    cbn [well_formed send encode] in *.
  - destruct Hwf as (Hc & H1 & H2 & Hd & Hs). eexists. split.
    { apply write_short_frame; lia. }
    split; [apply sent_port_write | split; reflexivity].
  - destruct Hwf as (Hc & Hn & Hd & Hs). eexists. split.
    { apply write_long_frame; assumption. }
    split; [|split; reflexivity].
    rewrite !sent_port_write. now rewrite app_assoc.
Qed.

Lemma send_all_sent (fs : list frame) : forall (w : Port) (sl : list Q),
  Forall well_formed fs ->
  exists w',
    send_all fs {| port := Some w; slept := sl |}
    = (Ok tt, {| port := Some w'; slept := sl |})
    /\ sent w' = sent w ++ concat (map encode fs)
    /\ rx_buf w' = rx_buf w /\ rx_later w' = rx_later w.
Proof.
  induction fs as [|f fs IH]; intros w sl Hall.
  - exists w. cbn. now rewrite app_nil_r.
  - inversion Hall as [|? ? Hf Hfs]; subst.
    destruct (send_frame f w sl Hf) as (w1 & E1 & S1 & B1 & L1).
    destruct (IH w1 sl Hfs) as (w2 & E2 & S2 & B2 & L2).
    exists w2. split; [|split; [|split; congruence]].
    + cbn [send_all]. erewrite bind_ok by exact E1. exact E2.
    + rewrite S2, S1. cbn [map concat]. now rewrite app_assoc.
Qed.

(** X3: whatever sequence of well-formed frames one instance sends, an
    instance that finds these bytes in its input buffer decodes the same
    frames, in the same order, one per call of [_read_packet]. *)
Theorem wire_loopback (fs : list frame) (sl : list Q) (out : list (list byte)) :
  Forall well_formed fs ->
  exists w',
    send_all fs {| port := Some {| rx_buf := []; rx_later := []; tx := [] |}; slept := sl |}
    = (Ok tt, {| port := Some w'; slept := sl |})
    /\ yields (length fs) {| rx_buf := sent w'; rx_later := []; tx := out |}
       = (map (fun f => Some (decoded f)) fs,
          {| rx_buf := []; rx_later := []; tx := out |}).
Proof.
  intros Hall.
  destruct (send_all_sent fs {| rx_buf := []; rx_later := []; tx := [] |} sl Hall)
    as (w' & E & S & _ & _).
  exists w'. split; [exact E|].
  rewrite S. change (sent {| rx_buf := []; rx_later := []; tx := [] |}) with (@nil byte).
  cbn [app]. rewrite <- (app_nil_r (concat (map encode fs))).
  now apply yields_frames.
Qed.

Lemma wire_loopback_witness :
  exists w',
    send_all [Short 0x0411 1 0 0x50 0x01; Long 0x0453 position_payload 0x50 0x01]
      {| port := Some {| rx_buf := []; rx_later := []; tx := [] |}; slept := [] |}
    = (Ok tt, {| port := Some w'; slept := [] |})
    /\ yields 2 {| rx_buf := sent w'; rx_later := []; tx := [] |}
       = ([Some (short_packet 0x0411 1 0 0x50 0x01);
           Some (long_packet 0x0453 position_payload 0x50 0x01)],
          {| rx_buf := []; rx_later := []; tx := [] |}).
Proof.
  apply (wire_loopback [Short 0x0411 1 0 0x50 0x01; Long 0x0453 position_payload 0x50 0x01]
           [] []).
  apply List.Forall_cons; [cbn [well_formed]; lia|].
  apply List.Forall_cons; [|apply List.Forall_nil].
  cbn [well_formed]. unfold Apt.len, position_payload. cbn [length]. lia.
Defined.

(** ** More on polling *)

(** X4: [_get_packet] gives up after [attempts] reads that yield nothing or
    another command, whatever [attempts] is: it raises the [ValueError] that
    names the command and the number of attempts, having slept once per
    attempt; with [attempts <= 0] it raises at once, without reading,
    sleeping or needing an open port. *)
Theorem get_packet_gives_up (cmd attempts : Z) (wait : Q) (p : Port) (sl : list Q) :
  Forall (passed_over cmd) (fst (yields (Z.to_nat attempts) p)) ->
  Apt._get_packet cmd attempts wait {| port := Some p; slept := sl |}
  = (Raise (ValueError (Apt.timeout_msg cmd attempts)),
     {| port := Some (snd (yields (Z.to_nat attempts) p));
        slept := sl ++ replicate (Z.to_nat attempts) wait |})
  /\ (attempts <= 0 ->
      forall dev, Apt._get_packet cmd attempts wait dev
                  = (Raise (ValueError (Apt.timeout_msg cmd attempts)), dev)).
Proof.
  intros Hnone. split.
  - unfold Apt._get_packet. now rewrite poll_miss.
  - intros Hle dev. unfold Apt._get_packet.
    replace (Z.to_nat attempts) with 0%nat by lia. reflexivity.
Qed.

Lemma get_packet_gives_up_witness :
  Apt._get_packet 0x0412 3 Apt.wait_default {| port := Some silent_port; slept := [] |}
  = (Raise (ValueError (Apt.timeout_msg 0x0412 3)),
     {| port := Some (snd (yields 3 silent_port));
        slept := [] ++ replicate 3 Apt.wait_default |}).
Proof.
  apply (get_packet_gives_up 0x0412 3 Apt.wait_default silent_port []).
  vm_compute. repeat constructor.
Defined.

(** X5: [_get_packet] returns the first packet with the expected command among
    the first [attempts] reads: the [k] reads before it, empty or with
    another command, are dropped with one sleep each, and nothing behind the
    returned packet is read. *)
Theorem get_packet_first_match (cmd attempts : Z) (wait : Q) (k : nat)
    (p : Port) (sl : list Q) (d : gmap string pyval) :
  (k < Z.to_nat attempts)%nat ->
  Forall (passed_over cmd) (fst (yields k p)) ->
  fst (next_packet (snd (yields k p))) = Some d ->
  Apt.cmd_is d cmd = true ->
  Apt._get_packet cmd attempts wait {| port := Some p; slept := sl |}
  = (Ok d, {| port := Some (snd (next_packet (snd (yields k p))));
              slept := sl ++ replicate k wait |}).
Proof.
  intros Hk Hall Hd Hcmd. unfold Apt._get_packet.
  replace (Z.to_nat attempts) with (k + S (Z.to_nat attempts - S k))%nat by lia.
  now apply poll_hit.
Qed.

Lemma get_packet_first_match_witness :
  Apt._get_packet 0x0412 10 Apt.wait_default {| port := Some busy_port; slept := [] |}
  = (Ok (long_packet 0x0412 position_payload 0x01 0x50),
     {| port := Some (snd (next_packet (snd (yields 5 busy_port))));
        slept := [] ++ replicate 5 Apt.wait_default |}).
Proof.
  apply (get_packet_first_match 0x0412 10 Apt.wait_default 5 busy_port []).
  - vm_compute. lia.
  - vm_compute. repeat constructor.
  - vm_compute. reflexivity.
  - vm_compute. reflexivity.
Defined.

(** ** Arguments that do not fit the header *)

Lemma pack1_out_of_range (c : Struct.code) (z : Z) :
  (forall n, c <> Struct.cs n) ->
  ~ (Struct.lo c <= z <= Struct.hi c) ->
  Struct.pack1 c (VInt z) = None.
Proof.
  intros Hc Hz.
  assert (E : (Struct.lo c <=? z) && (z <=? Struct.hi c) = false).
  { apply andb_false_iff.
    destruct (Z.leb_spec (Struct.lo c) z); [|now left].
    destruct (Z.leb_spec z (Struct.hi c)); [|now right]. lia. }
  destruct c; try (now destruct (Hc n)); cbn [Struct.pack1]; now rewrite E.
Qed.

(** X6: a payload of more than 65535 bytes, or a command that is not a 16-bit
    number, makes [_write_packet] raise [struct.error] while the header is
    packed: nothing is written, not even the header. *)
Theorem write_packet_rejects (cmd param1 param2 dest src : Z) (data : option (list byte))
    (w : Port) (sl : list Q) :
  (exists d, data = Some d /\ 65535 < Apt.len d) \/ ~ (0 <= cmd < 65536) ->
  Apt._write_packet cmd param1 param2 data dest src {| port := Some w; slept := sl |}
  = (Raise StructError, {| port := Some w; slept := sl |}).
Proof.
  intros H. unfold Apt._write_packet, Struct.pack.
  assert (Hdec : 0 <= cmd < 65536 \/ ~ (0 <= cmd < 65536)) by lia. destruct Hdec as [Hc|Hc].
  - destruct H as [(d & -> & Hlen)|H]; [|contradiction].
    cbn [Apt.is_None negb default from_option id Struct.pack_opt].
    rewrite (pack1_out_of_range Struct.cH (Apt.len d)) by (try discriminate; cbn; lia).
    destruct (Struct.pack1 Struct.cH (VInt cmd)); reflexivity.
  - destruct data as [d|]; cbn [Apt.is_None negb default from_option id Struct.pack_opt];
      rewrite (pack1_out_of_range Struct.cH cmd) by (try discriminate; cbn; lia);
      reflexivity.
Qed.

Lemma write_packet_rejects_witness :
  Apt._write_packet 0x0643 0 0 (Some (replicate (Z.to_nat 65536) Byte.x00)) 0x50 0x01
    {| port := Some silent_port; slept := [] |}
  = (Raise StructError, {| port := Some silent_port; slept := [] |}).
Proof.
  apply (write_packet_rejects 0x0643 0 0 0x50 0x01
           (Some (replicate (Z.to_nat 65536) Byte.x00)) silent_port []).
  left. eexists. split; [reflexivity|].
  unfold Apt.len. rewrite length_replicate. lia.
Defined.

(** ** After [close] *)

(** X7: once [close] has run, the instance has no port: [_read_packet],
    [_get_packet] (with at least one attempt) and [identify] raise
    [AttributeError] without reading, writing or sleeping, and a second
    [close] changes nothing. *)
Theorem closed_device_is_inert (dev : AptDevice) (cmd attempts : Z) (wait : Q) :
  0 < attempts ->
  let dev' := snd (Apt.close dev) in
  port dev' = None
  /\ slept dev' = slept dev
  /\ Apt._read_packet dev' = (Raise (AttributeError "_read"), dev')
  /\ Apt._get_packet cmd attempts wait dev' = (Raise (AttributeError "_read"), dev')
  /\ Apt.identify dev' = (Raise (AttributeError "_write"), dev')
  /\ Apt.close dev' = (Ok tt, dev').
Proof.
  intros Hpos dev'. split; [reflexivity|]. split; [reflexivity|].
  split; [reflexivity|]. split; [|split; reflexivity].
  unfold Apt._get_packet.
  destruct (Z.to_nat attempts) as [|n] eqn:E; [lia|]. reflexivity.
Qed.

Lemma closed_device_is_inert_witness :
  Apt._get_packet 0x0412 10 Apt.wait_default
    (snd (Apt.close {| port := Some busy_port; slept := [] |}))
  = (Raise (AttributeError "_read"), {| port := None; slept := [] |}).
Proof.
  apply (closed_device_is_inert {| port := Some busy_port; slept := [] |} 0x0412 10
           Apt.wait_default).
  lia.
Defined.

(** ** The piezo driver *)

Lemma tpz_super {A} (m : M AptDevice A) (b b' : AptDevice) (mv : option Z) (r : result A) :
  m b = (r, b') ->
  Tpz.super m {| tpz_base := b; max_volts := mv |}
  = (r, {| tpz_base := b'; max_volts := mv |}).
Proof. intros H. unfold Tpz.super. cbn [tpz_base max_volts]. now rewrite H. Qed.

(** X8: [set_pos] checks the percentage before anything else: outside
    [0, 100] it raises [ValueError] and the instance and its transport stay
    as they were; inside it writes command 0x0646 with channel 1 and
    [round_half_up (pos / 100 * 65535)], a value in [0, 65535]. *)
Theorem set_pos_range (pos : Q) (w : Port) (sl : list Q) (mv : option Z) :
  let dev := {| tpz_base := {| port := Some w; slept := sl |}; max_volts := mv |} in
  let raw := round_half_up (pos / 100 * 65535) in
  ((pos < 0 \/ 100 < pos)%Q ->
     Tpz.set_pos pos dev = (Raise (ValueError "pos must be between 0 and 100"), dev))
  /\ ((0 <= pos /\ pos <= 100)%Q ->
      0 <= raw <= 65535
      /\ Tpz.set_pos pos dev
         = (Ok tt,
            {| tpz_base :=
                 {| port := Some (port_write
                              [Byte.x01; Byte.x00; z2b (raw mod 256); z2b (raw / 256)]
                              (port_write (long_header 0x0646 4 0x50 0x01) w));
                    slept := sl |};
               max_volts := mv |})).
Proof.
  intros dev raw. split.
  - intros Hout. unfold Tpz.set_pos.
    assert (E : Qltb pos 0 || Qltb 100 pos = true).
    { apply orb_true_iff. destruct Hout as [H|H]; [left|right]; now apply Qltb_true. }
    now rewrite E.
  - intros [H0 H1].
    assert (Hy0 : (0 <= pos / 100 * 65535)%Q).
    { apply Qmult_le_0_compat; [|discriminate].
      apply Qle_shift_div_l; [reflexivity|]. now rewrite Qmult_0_l. }
    assert (Hy1 : (pos / 100 * 65535 <= inject_Z 65535)%Q).
    { rewrite <- (Qmult_1_l (inject_Z 65535)).
      apply Qmult_le_compat_r; [|discriminate].
      apply Qle_shift_div_r; [reflexivity|]. now rewrite Qmult_1_l. }
    pose proof (round_half_up_bounds _ _ Hy0 Hy1) as Hraw. fold raw in Hraw.
    split; [exact Hraw|].
    unfold Tpz.set_pos.
    assert (E : Qltb pos 0 || Qltb 100 pos = false).
    { apply orb_false_iff. split; now apply Qltb_false. }
    rewrite E. rewrite int_plus_half_nonneg by exact Hy0. fold raw.
    rewrite pack_HH by lia. rewrite bind_lift.
    unfold Tpz._write_packet, dev. apply tpz_super.
    apply write_long_frame;
      unfold Apt.dest_default, Apt.src_default, Apt.len; cbn [length]; lia.
Qed.

Lemma set_pos_range_witness :
  let dev := {| tpz_base := {| port := Some silent_port; slept := [] |};
                max_volts := None |} in
  Tpz.set_pos 101 dev = (Raise (ValueError "pos must be between 0 and 100"), dev)
  /\ Tpz.set_pos 100 dev
    = (Ok tt,
       {| tpz_base :=
            {| port := Some (port_write [Byte.x01; Byte.x00; Byte.xff; Byte.xff]
                               (port_write (long_header 0x0646 4 0x50 0x01) silent_port));
               slept := [] |};
          max_volts := None |}).
Proof.
  intros dev. split.
  - destruct (set_pos_range 101 silent_port [] None) as [H _].
    apply H. right. reflexivity.
  - destruct (set_pos_range 100 silent_port [] None) as [_ H].
    destruct H as [_ H]; [split; discriminate|]. exact H.
Defined.

(** ** Packing and unpacking whole formats *)

Lemma pack1_int_inv (c : Struct.code) (v : pyval) (b : list byte) :
  (forall n, c <> Struct.cs n) ->
  Struct.pack1 c v = Some b ->
  exists z, v = VInt z /\ Struct.lo c <= z <= Struct.hi c
            /\ b = le_bytes (Struct.width c) z.
Proof.
  intros Hc H.
  destruct c; try (now destruct (Hc n)); destruct v as [z| | | |];
    cbn [Struct.pack1] in H; try discriminate;
    match type of H with
    | (if ?cond then _ else _) = _ => destruct cond eqn:E; [|discriminate H]
    end;
    apply andb_true_iff in E; destruct E as [E1 E2]; apply Z.leb_le in E1, E2;
    injection H as <-; exists z; auto.
Qed.

Lemma length_pack_opt (f : list Struct.code) : forall (vs : list pyval) (b : list byte),
  Forall (fun c => forall n, c <> Struct.cs n) f ->
  Struct.pack_opt f vs = Some b -> length b = Struct.calcsize f.
Proof.
  induction f as [|c f IH]; intros vs b Hf H.
  - destruct vs; [|discriminate]. now injection H as <-.
  - destruct vs as [|v vs]; [discriminate|]. cbn [Struct.pack_opt] in H.
    inversion Hf as [|? ? Hc Hf']; subst.
    destruct (Struct.pack1 c v) as [b1|] eqn:E1; [|discriminate].
    destruct (Struct.pack_opt f vs) as [b2|] eqn:E2; [|discriminate].
    injection H as <-.
    destruct (pack1_int_inv c v b1 Hc E1) as (z & _ & _ & ->).
    rewrite length_app, length_le_bytes. cbn [Struct.calcsize foldr].
    f_equal. now apply (IH vs).
Qed.

Lemma unpack_fields_pack_opt (f : list Struct.code) :
  forall (vs : list pyval) (b : list byte),
  Forall (fun c => forall n, c <> Struct.cs n) f ->
  Struct.pack_opt f vs = Some b -> Struct.unpack_fields f b = vs.
Proof.
  induction f as [|c f IH]; intros vs b Hf H.
  - destruct vs; [reflexivity|discriminate].
  - destruct vs as [|v vs]; [discriminate|]. cbn [Struct.pack_opt] in H.
    inversion Hf as [|? ? Hc Hf']; subst.
    destruct (Struct.pack1 c v) as [b1|] eqn:E1; [|discriminate].
    destruct (Struct.pack_opt f vs) as [b2|] eqn:E2; [|discriminate].
    injection H as <-.
    destruct (pack1_int_inv c v b1 Hc E1) as (z & -> & Hz & ->).
    cbn [Struct.unpack_fields].
    rewrite take_app_length', drop_app_length' by (now rewrite length_le_bytes).
    rewrite unpack1_le_bytes by assumption. f_equal. now apply IH.
Qed.

(** Whatever [struct.pack] accepts for a format of integer codes,
    [struct.unpack] with the same format gives back. *)
Lemma unpack_pack (f : list Struct.code) (vs : list pyval) (b : list byte) :
  Forall (fun c => forall n, c <> Struct.cs n) f ->
  Struct.pack f vs = Ok b -> Struct.unpack f b = Ok vs.
Proof.
  intros Hf H. unfold Struct.pack in H.
  destruct (Struct.pack_opt f vs) as [b'|] eqn:E; [|discriminate].
  injection H as ->. unfold Struct.unpack.
  rewrite (length_pack_opt f vs b Hf E), Nat.eqb_refl.
  now rewrite (unpack_fields_pack_opt f vs b Hf E).
Qed.

Lemma pack_total (f : list Struct.code) (vs : list pyval) :
  exists r, Struct.pack f vs = r /\ (r = Raise StructError \/ exists b, r = Ok b).
Proof.
  unfold Struct.pack. destruct (Struct.pack_opt f vs); eauto.
Qed.

(** ** Query and reply *)

Lemma getitem_long_data {S} (cmd : Z) (data : list byte) (dest src : Z) (s : S) :
  getitem (long_packet cmd data dest src) "data" s = (Ok (VBytes data), s).
Proof.
  unfold getitem, long_packet. now rewrite lookup_insert_eq.
Qed.

Lemma getitem_short_data {S} (cmd param1 param2 dest src : Z) (s : S) :
  getitem (short_packet cmd param1 param2 dest src) "data" s
  = (Raise (KeyError (VStr "data")), s).
Proof.
  unfold getitem, short_packet.
  rewrite !lookup_insert_ne by discriminate. now rewrite lookup_singleton_ne by discriminate.
Qed.

(** A reply that is waiting in the buffer is returned by the first attempt. *)
Lemma get_packet_reply (f : frame) (cmd : Z) (wait : Q) (rest : list byte)
    (later out : list (list byte)) (sl : list Q) :
  well_formed f ->
  Apt.cmd_is (decoded f) cmd = true ->
  Apt._get_packet cmd Apt.attempts_default wait
    {| port := Some {| rx_buf := encode f ++ rest; rx_later := later; tx := out |};
       slept := sl |}
  = (Ok (decoded f),
     {| port := Some (snd (next_packet
                        {| rx_buf := encode f ++ rest; rx_later := later; tx := out |}));
        slept := sl |}).
Proof.
  intros Hwf Hcmd. unfold Apt._get_packet, Apt.attempts_default.
  change (Z.to_nat 10) with (0 + 10)%nat.
  rewrite (poll_hit cmd wait _ 0 9 _ sl (decoded f)).
  - cbn [yields snd replicate]. now rewrite app_nil_r.
  - constructor.
  - cbn [yields snd]. now rewrite next_packet_frame.
  - exact Hcmd.
Qed.

(** What arrives before the first read is read like what was buffered. *)
Lemma read_arrival (n : Z) (x : list byte) (l out : list (list byte)) (sl : list Q) :
  Apt._read n (listening [] (x :: l) out sl) = Apt._read n (listening x ([] :: l) out sl).
Proof.
  unfold Apt._read, listening, port_read. cbn [port rx_buf rx_later tx hd tl app slept].
  now rewrite app_nil_r.
Qed.

Lemma next_packet_arrival (x : list byte) (l out : list (list byte)) :
  next_packet {| rx_buf := []; rx_later := x :: l; tx := out |}
  = next_packet {| rx_buf := x; rx_later := [] :: l; tx := out |}.
Proof.
  assert (E : Apt._read_packet {| port := Some {| rx_buf := []; rx_later := x :: l; tx := out |};
                                  slept := [] |}
              = Apt._read_packet {| port := Some {| rx_buf := x; rx_later := [] :: l; tx := out |};
                                    slept := [] |}).
  { unfold Apt._read_packet, bind.
    pose proof (read_arrival 6 x l out []) as H. unfold listening in H.
    rewrite H. reflexivity. }
  rewrite !read_packet_open in E. injection E as E1 E2.
  rewrite (surjective_pairing (next_packet _)), E1, E2.
  now rewrite <- surjective_pairing.
Qed.

Lemma bind_bind {S A B C} (m : M S A) (f : A -> M S B) (g : B -> M S C) (s : S) :
  bind (bind m f) g s = bind m (fun a => bind (f a) g) s.
Proof. unfold bind. destruct (m s) as [[a|e] s']; reflexivity. Qed.

Lemma int_codes_HHH :
  Forall (fun c => forall n, c <> Struct.cs n) [Struct.cH; Struct.cH; Struct.cH].
Proof. repeat apply List.Forall_cons; try apply List.Forall_nil; discriminate. Qed.

(** [get_settings], step by step, on a reply that is waiting. *)
Lemma get_settings_run (ch vcode acode dest src : Z) (fields extra rest : list byte)
    (later out : list (list byte)) (sl : list Q) (mv : option Z) :
  Struct.pack [Struct.cH; Struct.cH; Struct.cH] [VInt ch; VInt vcode; VInt acode]
    = Ok fields ->
  Apt.len (fields ++ extra) <= 65535 -> 0 <= dest < 256 -> 0 <= src < 256 ->
  Tpz.get_settings
    {| tpz_base :=
         {| port := Some {| rx_buf := encode (Long 0x07D6 (fields ++ extra) dest src) ++ rest;
                            rx_later := later; tx := out |};
            slept := sl |};
       max_volts := mv |}
  = (match Tpz.V_lim_table !! vcode, Tpz.analog_in_table !! acode with
     | Some v, Some a => Ok (<["V_lim" := v]> {["analog_input" := a]})
     | Some _, None => Raise (KeyError (VInt acode))
     | None, _ => Raise (KeyError (VInt vcode))
     end,
     {| tpz_base :=
          {| port := Some {| rx_buf := (rest ++ hd [] later) ++ hd [] (tl later);
                             rx_later := tl (tl later);
                             tx := out ++ [short_header 0x07D5 1 0 0x50 0x01] |};
             slept := sl |};
        max_volts := mv |}).
Proof.
  intros Hpack Hlen Hd Hs. unfold Tpz.get_settings.
  erewrite bind_ok; cycle 1.
  { unfold Tpz._write_packet. apply tpz_super. apply write_short_frame;
      unfold Apt.dest_default, Apt.src_default; lia. }
  unfold port_write. cbn [rx_buf rx_later tx].
  erewrite bind_ok; cycle 1.
  { unfold Tpz._get_packet. apply tpz_super.
    apply (get_packet_reply (Long 0x07D6 (fields ++ extra) dest src)).
    - cbn [well_formed]. lia.
    - cbn [decoded]. rewrite cmd_is_long_packet. reflexivity. }
  rewrite next_packet_frame by (cbn [well_formed]; lia). cbn [snd decoded].
  erewrite bind_ok by apply getitem_long_data.
  cbn [as_bytes]. rewrite bind_ret.
  assert (Hsix : length fields = 6%nat).
  { unfold Struct.pack in Hpack.
    destruct (Struct.pack_opt _ _) as [b|] eqn:E; [|discriminate].
    injection Hpack as ->. exact (length_pack_opt _ _ _ int_codes_HHH E). }
  rewrite take_app_length' by (symmetry; exact Hsix).
  rewrite (unpack_pack _ _ _ int_codes_HHH Hpack), bind_lift.
  unfold item. cbn [lookup list_lookup]. rewrite !bind_ret.
  unfold Tpz.table_get. cbn [as_int]. rewrite bind_bind, bind_ret.
  destruct (Tpz.V_lim_table !! vcode) as [v|]; [|reflexivity].
  rewrite bind_ret, bind_bind, bind_ret.
  destruct (Tpz.analog_in_table !! acode) as [a|]; reflexivity.
Qed.

Lemma V_lim_lookup (k : Z) :
  Tpz.V_lim_table !! k
  = if k =? 1 then Some (VInt 75) else if k =? 2 then Some (VInt 100)
    else if k =? 3 then Some (VInt 150) else None.
Proof.
  unfold Tpz.V_lim_table.
  destruct (Z.eqb_spec k 1) as [->|H1]; [now rewrite lookup_insert_eq|].
  rewrite lookup_insert_ne by congruence.
  destruct (Z.eqb_spec k 2) as [->|H2]; [now rewrite lookup_insert_eq|].
  rewrite lookup_insert_ne by congruence.
  destruct (Z.eqb_spec k 3) as [->|H3]; [now rewrite lookup_singleton_eq|].
  now rewrite lookup_singleton_ne by congruence.
Qed.

Lemma analog_in_lookup (k : Z) :
  Tpz.analog_in_table !! k
  = if k =? 1 then Some (VStr "A") else if k =? 2 then Some (VStr "B")
    else if k =? 3 then Some (VStr "SMA") else None.
Proof.
  unfold Tpz.analog_in_table.
  destruct (Z.eqb_spec k 1) as [->|H1]; [now rewrite lookup_insert_eq|].
  rewrite lookup_insert_ne by congruence.
  destruct (Z.eqb_spec k 2) as [->|H2]; [now rewrite lookup_insert_eq|].
  rewrite lookup_insert_ne by congruence.
  destruct (Z.eqb_spec k 3) as [->|H3]; [now rewrite lookup_singleton_eq|].
  now rewrite lookup_singleton_ne by congruence.
Qed.

(** X9: [get_settings] sends the query 0x07D5 and decodes the first six bytes
    of the reply 0x07D6 (anything behind them is ignored).  A voltage-limit
    code other than 1, 2, 3 raises [KeyError] with that code, and so does,
    after it, an analog-input code other than 1, 2, 3; nothing is defaulted.
    The query has been written in every case. *)
Theorem get_settings_strict (ch vcode acode dest src : Z) (fields extra rest : list byte)
    (later out : list (list byte)) (sl : list Q) (mv : option Z) :
  Struct.pack [Struct.cH; Struct.cH; Struct.cH] [VInt ch; VInt vcode; VInt acode]
    = Ok fields ->
  Apt.len (fields ++ extra) <= 65535 -> 0 <= dest < 256 -> 0 <= src < 256 ->
  let r := Tpz.get_settings
    {| tpz_base :=
         {| port := Some {| rx_buf := encode (Long 0x07D6 (fields ++ extra) dest src) ++ rest;
                            rx_later := later; tx := out |};
            slept := sl |};
       max_volts := mv |} in
  option_map tx (port (tpz_base (snd r))) = Some (out ++ [short_header 0x07D5 1 0 0x50 0x01])
  /\ max_volts (snd r) = mv
  /\ (~ (1 <= vcode <= 3) -> fst r = Raise (KeyError (VInt vcode)))
  /\ (1 <= vcode <= 3 -> ~ (1 <= acode <= 3) -> fst r = Raise (KeyError (VInt acode)))
  /\ (1 <= vcode <= 3 -> 1 <= acode <= 3 ->
      fst r = Ok (<["V_lim" := VInt (if vcode =? 1 then 75 else if vcode =? 2 then 100
                                     else 150)]>
                  {["analog_input" := VStr (if acode =? 1 then "A"
                                            else if acode =? 2 then "B" else "SMA")]})).
Proof.
  intros Hpack Hlen Hd Hs r. unfold r.
  rewrite (get_settings_run ch vcode acode dest src fields extra rest later out sl mv)
    by assumption.
  cbn [fst snd tpz_base port max_volts option_map tx].
  rewrite V_lim_lookup, analog_in_lookup.
  split; [reflexivity|]. split; [reflexivity|]. split; [|split].
  - intros Hv.
    destruct (Z.eqb_spec vcode 1); [lia|]. destruct (Z.eqb_spec vcode 2); [lia|].
    destruct (Z.eqb_spec vcode 3); [lia|]. reflexivity.
  - intros Hv Ha.
    destruct (Z.eqb_spec acode 1); [lia|]. destruct (Z.eqb_spec acode 2); [lia|].
    destruct (Z.eqb_spec acode 3); [lia|].
    destruct (Z.eqb_spec vcode 1); [reflexivity|].
    destruct (Z.eqb_spec vcode 2); [reflexivity|].
    destruct (Z.eqb_spec vcode 3); [reflexivity|lia].
  - intros Hv Ha.
    destruct (Z.eqb_spec vcode 1); [|destruct (Z.eqb_spec vcode 2);
                                       [|destruct (Z.eqb_spec vcode 3); [|lia]]];
    (destruct (Z.eqb_spec acode 1); [|destruct (Z.eqb_spec acode 2);
                                        [|destruct (Z.eqb_spec acode 3); [|lia]]]);
    reflexivity.
Qed.

Lemma get_settings_strict_witness :
  fst (Tpz.get_settings
         {| tpz_base :=
              {| port := Some {| rx_buf :=
                                   encode (Long 0x07D6
                                     ([Byte.x01; Byte.x00; Byte.x04; Byte.x00; Byte.x01; Byte.x00]
                                      ++ [Byte.x2a]) 0x01 0x50) ++ [];
                                 rx_later := []; tx := [] |};
                 slept := [] |};
            max_volts := None |})
  = Raise (KeyError (VInt 4)).
Proof.
  destruct (get_settings_strict 1 4 1 0x01 0x50
              [Byte.x01; Byte.x00; Byte.x04; Byte.x00; Byte.x01; Byte.x00] [Byte.x2a] []
              [] [] [] None) as (_ & _ & H & _).
  - reflexivity.
  - unfold Apt.len. cbn [length app]. lia.
  - lia.
  - lia.
  - apply H. lia.
Defined.

(** With the limit cached, [set_volts] goes straight to the range check. *)
Lemma set_volts_cached (V : Q) (m : Z) (w : Port) (sl : list Q) :
  let dev := {| tpz_base := {| port := Some w; slept := sl |}; max_volts := Some m |} in
  let raw := round_half_up (V / inject_Z m * 32767) in
  ((V < 0 \/ inject_Z m < V)%Q ->
     Tpz.set_volts V dev = (Raise (ValueError (Tpz.range_msg m)), dev))
  /\ (0 < m -> (0 <= V /\ V <= inject_Z m)%Q ->
      Tpz.set_volts V dev
      = (Ok tt,
         {| tpz_base :=
              {| port := Some (port_write
                           [Byte.x01; Byte.x00; z2b (raw mod 256); z2b (raw / 256)]
                           (port_write (long_header 0x0643 4 0x50 0x01) w));
                 slept := sl |};
            max_volts := Some m |})).
Proof.
  intros dev raw. split.
  - intros Hout. unfold Tpz.set_volts, dev.
    rewrite bind_gets. cbn [max_volts Apt.is_None].
    rewrite bind_ret, bind_gets. cbn [max_volts default from_option id].
    assert (E : Qltb V 0 || Qltb (inject_Z m) V = true).
    { apply orb_true_iff. destruct Hout as [H|H]; [left|right]; now apply Qltb_true. }
    rewrite E. reflexivity.
  - intros Hm [H0 H1].
    assert (Hmq : (0 < inject_Z m)%Q) by (unfold Qlt; cbn; lia).
    assert (Hy0 : (0 <= V / inject_Z m * 32767)%Q).
    { apply Qmult_le_0_compat; [|discriminate].
      apply Qle_shift_div_l; [exact Hmq|]. now rewrite Qmult_0_l. }
    assert (Hy1 : (V / inject_Z m * 32767 <= inject_Z 32767)%Q).
    { rewrite <- (Qmult_1_l (inject_Z 32767)).
      apply Qmult_le_compat_r; [|discriminate].
      apply Qle_shift_div_r; [exact Hmq|]. now rewrite Qmult_1_l. }
    pose proof (round_half_up_bounds _ _ Hy0 Hy1) as Hraw. fold raw in Hraw.
    unfold Tpz.set_volts, dev.
    rewrite bind_gets. cbn [max_volts Apt.is_None].
    rewrite bind_ret, bind_gets. cbn [max_volts default from_option id].
    assert (E : Qltb V 0 || Qltb (inject_Z m) V = false).
    { apply orb_false_iff. split; now apply Qltb_false. }
    rewrite E. unfold fdiv.
    assert (Ez : Qeq_bool (inject_Z m) 0 = false).
    { destruct (Qeq_bool (inject_Z m) 0) eqn:Eq; [|reflexivity].
      apply Qeq_bool_iff in Eq. rewrite Eq in Hmq. now apply Qlt_irrefl in Hmq. }
    rewrite Ez, bind_ret. rewrite int_plus_half_nonneg by exact Hy0. fold raw.
    rewrite pack_HH by lia. rewrite bind_lift.
    unfold Tpz._write_packet. apply tpz_super.
    apply write_long_frame;
      unfold Apt.dest_default, Apt.src_default, Apt.len; cbn [length]; lia.
Qed.

(** Without a cached limit, [set_volts] runs [get_settings], keeps its
    [V_lim] and goes on as with that limit cached. *)
Lemma set_volts_loads (V : Q) (b b1 : AptDevice) (settings : gmap string pyval) (lim : Z) :
  Tpz.get_settings {| tpz_base := b; max_volts := None |}
    = (Ok settings, {| tpz_base := b1; max_volts := None |}) ->
  settings !! "V_lim" = Some (VInt lim) ->
  Tpz.set_volts V {| tpz_base := b; max_volts := None |}
  = Tpz.set_volts V {| tpz_base := b1; max_volts := Some lim |}.
Proof.
  intros Hget Hlim. unfold Tpz.set_volts.
  rewrite !bind_gets. cbn [max_volts Apt.is_None].
  rewrite bind_bind. erewrite bind_ok by exact Hget.
  rewrite bind_bind. unfold getitem at 1. rewrite Hlim, bind_ret.
  rewrite bind_bind. cbn [as_int]. rewrite bind_ret.
  rewrite bind_ret. reflexivity.
Qed.

(** X10: without a cached limit, [set_volts] first runs the settings query, so
    the query 0x07D5 is written even when the voltage is then rejected; the
    limit of the reply is cached whether the call returns or raises.  A
    voltage outside [0, limit] raises [ValueError] after that one write; a
    voltage inside is written as command 0x0643 behind the query. *)
Theorem set_volts_first_call (V : Q) (ch vcode acode dest src : Z)
    (fields extra rest : list byte) (later out : list (list byte)) (sl : list Q) :
  Struct.pack [Struct.cH; Struct.cH; Struct.cH] [VInt ch; VInt vcode; VInt acode]
    = Ok fields ->
  Apt.len (fields ++ extra) <= 65535 -> 0 <= dest < 256 -> 0 <= src < 256 ->
  1 <= vcode <= 3 -> 1 <= acode <= 3 ->
  let lim := if vcode =? 1 then 75 else if vcode =? 2 then 100 else 150 in
  let raw := round_half_up (V / inject_Z lim * 32767) in
  let query := short_header 0x07D5 1 0 0x50 0x01 in
  let r := Tpz.set_volts V
    {| tpz_base :=
         {| port := Some {| rx_buf := encode (Long 0x07D6 (fields ++ extra) dest src) ++ rest;
                            rx_later := later; tx := out |};
            slept := sl |};
       max_volts := None |} in
  ((V < 0 \/ inject_Z lim < V)%Q ->
     fst r = Raise (ValueError (Tpz.range_msg lim))
     /\ max_volts (snd r) = Some lim
     /\ option_map tx (port (tpz_base (snd r))) = Some (out ++ [query]))
  /\ ((0 <= V /\ V <= inject_Z lim)%Q ->
     fst r = Ok tt
     /\ max_volts (snd r) = Some lim
     /\ option_map tx (port (tpz_base (snd r)))
        = Some (((out ++ [query]) ++ [long_header 0x0643 4 0x50 0x01])
                ++ [[Byte.x01; Byte.x00; z2b (raw mod 256); z2b (raw / 256)]])).
Proof.
  intros Hpack Hlen Hd Hs Hv Ha lim raw query r.
  pose proof (get_settings_run ch vcode acode dest src fields extra rest later out sl None
                Hpack Hlen Hd Hs) as Hrun.
  assert (Hl : Tpz.V_lim_table !! vcode = Some (VInt lim)).
  { rewrite V_lim_lookup. unfold lim.
    destruct (Z.eqb_spec vcode 1); [reflexivity|].
    destruct (Z.eqb_spec vcode 2); [reflexivity|].
    destruct (Z.eqb_spec vcode 3); [reflexivity|lia]. }
  assert (Hi : exists a, Tpz.analog_in_table !! acode = Some a).
  { rewrite analog_in_lookup.
    destruct (Z.eqb_spec acode 1); [eauto|].
    destruct (Z.eqb_spec acode 2); [eauto|].
    destruct (Z.eqb_spec acode 3); [eauto|lia]. }
  destruct Hi as [a Hi]. rewrite Hl, Hi in Hrun.
  assert (Hlim : 0 < lim).
  { unfold lim. destruct (vcode =? 1); [lia|]. destruct (vcode =? 2); lia. }
  unfold r. erewrite set_volts_loads; [|exact Hrun|apply lookup_insert_eq].
  match goal with
  | |- context [Tpz.set_volts V {| tpz_base := {| port := Some ?w; slept := _ |};
                                   max_volts := _ |}] =>
      destruct (set_volts_cached V lim w sl) as [Hout Hin]
  end.
  split.
  - intros HV. rewrite (Hout HV). cbn. auto.
  - intros HV. rewrite (Hin Hlim HV). cbn [fst snd max_volts tpz_base port option_map].
    unfold port_write. cbn [tx]. auto.
Qed.

Lemma set_volts_first_call_witness :
  let r := Tpz.set_volts 200
    {| tpz_base :=
         {| port := Some {| rx_buf := encode (Long 0x07D6
                                        ([Byte.x01; Byte.x00; Byte.x03; Byte.x00;
                                          Byte.x01; Byte.x00] ++ []) 0x01 0x50) ++ [];
                            rx_later := []; tx := [] |};
            slept := [] |};
       max_volts := None |} in
  fst r = Raise (ValueError "V must be between 0 and max_volts (150)")
  /\ max_volts (snd r) = Some 150
  /\ option_map tx (port (tpz_base (snd r))) = Some ([] ++ [short_header 0x07D5 1 0 0x50 0x01]).
Proof.
  destruct (set_volts_first_call 200 1 3 1 0x01 0x50
              [Byte.x01; Byte.x00; Byte.x03; Byte.x00; Byte.x01; Byte.x00] [] [] [] [] [])
    as [H _]; try lia.
  - reflexivity.
  - unfold Apt.len. cbn [length app]. lia.
  - apply H. right. reflexivity.
Defined.

(** X11: [set_PI] flashes the front panel first: the [identify] frame 0x0223 is
    written in every case.  Gains that fit 16 bits follow as command 0x0655
    with the payload (1, P, I); a gain that does not fit raises
    [struct.error] when the [identify] frame is already out, and no gain is
    sent. *)
Theorem set_PI_effect (P I : Z) (w : Port) (sl : list Q) (mv : option Z) :
  let dev := {| tpz_base := {| port := Some w; slept := sl |}; max_volts := mv |} in
  let flash := short_header 0x0223 0 0 0x50 0x01 in
  (0 <= P < 65536 /\ 0 <= I < 65536 ->
     exists payload,
       Struct.pack [Struct.cH; Struct.cH; Struct.cH] [VInt 1; VInt P; VInt I] = Ok payload
       /\ Tpz.set_PI P I dev
          = (Ok tt,
             {| tpz_base :=
                  {| port := Some (port_write payload
                               (port_write (long_header 0x0655 6 0x50 0x01)
                                  (port_write flash w)));
                     slept := sl |};
                max_volts := mv |}))
  /\ (~ (0 <= P < 65536 /\ 0 <= I < 65536) ->
      Tpz.set_PI P I dev
      = (Raise StructError,
         {| tpz_base := {| port := Some (port_write flash w); slept := sl |};
            max_volts := mv |})).
Proof.
  intros dev flash.
  assert (Hid : Tpz.super Apt.identify dev
                = (Ok tt, {| tpz_base := {| port := Some (port_write flash w); slept := sl |};
                             max_volts := mv |})).
  { apply tpz_super. unfold Apt.identify. apply write_short_frame;
      unfold Apt.dest_default, Apt.src_default; lia. }
  split.
  - intros [HP HI]. eexists. split.
    + unfold Struct.pack. cbn [Struct.pack_opt].
      rewrite !pack1_int by (try discriminate; cbn; lia). reflexivity.
    + unfold Tpz.set_PI. erewrite bind_ok by exact Hid.
      unfold Struct.pack. cbn [Struct.pack_opt].
      rewrite !pack1_int by (try discriminate; cbn; lia). rewrite bind_lift.
      unfold Tpz._write_packet. apply tpz_super.
      apply write_long_frame;
        unfold Apt.dest_default, Apt.src_default, Apt.len;
        rewrite ?length_app, ?length_le_bytes; cbn [Struct.width length]; lia.
  - intros Hbad. unfold Tpz.set_PI. erewrite bind_ok by exact Hid.
    unfold Struct.pack. cbn [Struct.pack_opt].
    rewrite (pack1_int Struct.cH 1) by (try discriminate; cbn; lia).
    assert (HP : 0 <= P < 65536 \/ ~ (0 <= P < 65536)) by lia.
    destruct HP as [HP|HP].
    + rewrite (pack1_int Struct.cH P) by (try discriminate; cbn; lia).
      rewrite (pack1_out_of_range Struct.cH I) by (try discriminate; cbn; lia).
      reflexivity.
    + rewrite (pack1_out_of_range Struct.cH P) by (try discriminate; cbn; lia).
      reflexivity.
Qed.

Lemma set_PI_effect_witness :
  Tpz.set_PI 100 65536
    {| tpz_base := {| port := Some silent_port; slept := [] |}; max_volts := None |}
  = (Raise StructError,
     {| tpz_base := {| port := Some (port_write (short_header 0x0223 0 0 0x50 0x01)
                                      silent_port);
                       slept := [] |};
        max_volts := None |}).
Proof.
  destruct (set_PI_effect 100 65536 silent_port [] None) as [_ H].
  apply H. lia.
Defined.

Lemma tpz_query (f : frame) (qcmd param1 param2 rcmd : Z) (rest : list byte)
    (later out : list (list byte)) (sl : list Q) (mv : option Z)
    {A} (k : gmap string pyval -> M TPZ001 A) :
  0 <= qcmd < 65536 -> 0 <= param1 < 256 -> 0 <= param2 < 256 ->
  well_formed f -> Apt.cmd_is (decoded f) rcmd = true ->
  bind (Tpz._write_packet qcmd param1 param2 None)
       (fun _ => bind (Tpz._get_packet rcmd) k)
    {| tpz_base := {| port := Some {| rx_buf := encode f ++ rest; rx_later := later;
                                      tx := out |};
                      slept := sl |};
       max_volts := mv |}
  = k (decoded f)
      {| tpz_base :=
           {| port := Some (snd (next_packet
                              {| rx_buf := encode f ++ rest; rx_later := later;
                                 tx := out ++ [short_header qcmd param1 param2 0x50 0x01] |}));
              slept := sl |};
         max_volts := mv |}.
Proof.
  intros Hq H1 H2 Hwf Hcmd.
  erewrite bind_ok; cycle 1.
  { unfold Tpz._write_packet. apply tpz_super. apply write_short_frame;
      unfold Apt.dest_default, Apt.src_default; lia. }
  unfold port_write. cbn [rx_buf rx_later tx].
  erewrite bind_ok; cycle 1.
  { unfold Tpz._get_packet. apply tpz_super. now apply (get_packet_reply f). }
  reflexivity.
Qed.

(** X12: [get_PI] sends the query 0x065B and reads the gains from the first six
    bytes of the payload of the reply 0x065C, whatever channel the reply
    names: it returns the P and I that were packed there, so the gains that
    [set_PI] packs come back unchanged when the instrument reports them.  A
    reply in short form has no payload and raises [KeyError] for ['data'];
    a payload of fewer than six bytes raises [struct.error]. *)
Theorem get_PI_reads (ch P I dest src : Z) (rest : list byte)
    (later out : list (list byte)) (sl : list Q) (mv : option Z) :
  0 <= dest < 128 -> 0 <= src < 256 ->
  let on reply :=
    {| tpz_base := {| port := Some {| rx_buf := encode reply ++ rest; rx_later := later;
                                      tx := out |};
                      slept := sl |};
       max_volts := mv |} in
  (forall fields extra,
     Struct.pack [Struct.cH; Struct.cH; Struct.cH] [VInt ch; VInt P; VInt I] = Ok fields ->
     Apt.len (fields ++ extra) <= 65535 ->
     fst (Tpz.get_PI (on (Long 0x065C (fields ++ extra) dest src))) = Ok (VInt P, VInt I))
  /\ (forall param1 param2,
        0 <= param1 < 256 -> 0 <= param2 < 256 ->
        fst (Tpz.get_PI (on (Short 0x065C param1 param2 dest src)))
        = Raise (KeyError (VStr "data")))
  /\ (forall data,
        (length data < 6)%nat ->
        fst (Tpz.get_PI (on (Long 0x065C data dest src))) = Raise StructError).
Proof.
  intros Hd Hs on. split; [|split].
  - intros fields extra Hpack Hlen. unfold Tpz.get_PI, on.
    rewrite (tpz_query (Long 0x065C (fields ++ extra) dest src));
      try lia; [|cbn [well_formed]; lia|cbn [decoded]; now rewrite cmd_is_long_packet].
    cbn [decoded]. erewrite bind_ok by apply getitem_long_data.
    cbn [as_bytes]. rewrite bind_ret.
    assert (Hsix : length fields = 6%nat).
    { unfold Struct.pack in Hpack.
      destruct (Struct.pack_opt _ _) as [b|] eqn:E; [|discriminate].
      injection Hpack as ->. exact (length_pack_opt _ _ _ int_codes_HHH E). }
    rewrite take_app_length' by (symmetry; exact Hsix).
    rewrite (unpack_pack _ _ _ int_codes_HHH Hpack), bind_lift.
    reflexivity.
  - intros p1 p2 H1 H2. unfold Tpz.get_PI, on.
    rewrite (tpz_query (Short 0x065C p1 p2 dest src));
      try lia; [|cbn [well_formed]; lia|cbn [decoded]; now rewrite cmd_is_short_packet].
    cbn [decoded]. erewrite bind_raise by apply getitem_short_data. reflexivity.
  - intros data Hlen. unfold Tpz.get_PI, on.
    rewrite (tpz_query (Long 0x065C data dest src));
      try lia; [|cbn [well_formed]; unfold Apt.len; lia
                |cbn [decoded]; now rewrite cmd_is_long_packet].
    cbn [decoded]. erewrite bind_ok by apply getitem_long_data.
    cbn [as_bytes]. rewrite bind_ret.
    rewrite take_ge by lia. unfold Struct.unpack.
    replace (length data =? Struct.calcsize [Struct.cH; Struct.cH; Struct.cH])%nat
      with false by (symmetry; apply Nat.eqb_neq; cbn; lia).
    reflexivity.
Qed.

Lemma get_PI_reads_witness :
  fst (Tpz.get_PI
         {| tpz_base :=
              {| port := Some {| rx_buf :=
                                   encode (Long 0x065C
                                     ([Byte.x01; Byte.x00; Byte.x64; Byte.x00; Byte.x14; Byte.x00]
                                      ++ []) 0x01 0x50) ++ [];
                                 rx_later := []; tx := [] |};
                 slept := [] |};
            max_volts := None |})
  = Ok (VInt 100, VInt 20).
Proof.
  destruct (get_PI_reads 1 100 20 0x01 0x50 [] [] [] [] None) as [H _]; try lia.
  apply (H [Byte.x01; Byte.x00; Byte.x64; Byte.x00; Byte.x14; Byte.x00] []).
  - reflexivity.
  - unfold Apt.len. cbn [length app]. lia.
Defined.

(** ** The stage controller *)

Lemma kdc_super {A} (m : M AptDevice A) (b b' : AptDevice) (x v a : Q) (o : list Z)
    (r : result A) :
  m b = (r, b') ->
  Kdc.super m {| kdc_base := b; _x_conv := x; _v_conv := v; _a_conv := a; stdout := o |}
  = (r, {| kdc_base := b'; _x_conv := x; _v_conv := v; _a_conv := a; stdout := o |}).
Proof.
  intros H. unfold Kdc.super. cbn [kdc_base _x_conv _v_conv _a_conv stdout]. now rewrite H.
Qed.

(** Reading a packet leaves the log of written chunks alone. *)
Lemma next_packet_tx (p : Port) : tx (snd (next_packet p)) = tx p.
Proof.
  assert (H : exists packet p', tx p' = tx p /\
                Apt._read_packet {| port := Some p; slept := [] |}
                = (Ok packet, {| port := Some p'; slept := [] |})).
  { destruct p as [rx later out]. cbn [tx].
    destruct (take 6 (rx ++ hd [] later))
      as [|h0 [|h1 [|h2 [|h3 [|h4 [|h5 [|h6 t]]]]]]] eqn:E;
      try (eexists; eexists; split; [|unfold Apt._read_packet;
           erewrite bind_ok by apply read_open;
           cbn [rx_buf rx_later tx]; change (Z.to_nat 6) with 6%nat; rewrite E;
           reflexivity]; reflexivity).
    destruct (Z.eq_dec (Z.land (b2z h4) 0x80) 0) as [Hflag|Hflag].
    - eexists; eexists; split; [|unfold Apt._read_packet;
        erewrite bind_ok by apply read_open;
        cbn [rx_buf rx_later tx]; change (Z.to_nat 6) with 6%nat; rewrite E;
        rewrite unpack_H, bind_lift; unfold item; cbn [lookup list_lookup];
        rewrite bind_ret, Hflag; reflexivity]; reflexivity.
    - apply Z.eqb_neq in Hflag.
      eexists; eexists; split; [|unfold Apt._read_packet;
        erewrite bind_ok by apply read_open;
        cbn [rx_buf rx_later tx]; change (Z.to_nat 6) with 6%nat; rewrite E;
        rewrite unpack_H, bind_lift; unfold item; cbn [lookup list_lookup];
        rewrite bind_ret, Hflag; cbn [negb];
        rewrite unpack_H, bind_lift; cbn [lookup list_lookup]; rewrite bind_ret;
        erewrite bind_ok by apply read_open; reflexivity]; reflexivity. }
  destruct H as (packet & p' & Htx & H). unfold next_packet. rewrite H. exact Htx.
Qed.

(** A reply that arrives before the first read is returned by the first
    attempt. *)
Lemma get_packet_arrival (f : frame) (cmd : Z) (wait : Q) (rest : list byte)
    (later out : list (list byte)) (sl : list Q) :
  well_formed f ->
  Apt.cmd_is (decoded f) cmd = true ->
  exists p',
    Apt._get_packet cmd Apt.attempts_default wait
      {| port := Some {| rx_buf := []; rx_later := (encode f ++ rest) :: later; tx := out |};
         slept := sl |}
    = (Ok (decoded f), {| port := Some p'; slept := sl |})
    /\ tx p' = out.
Proof.
  intros Hwf Hcmd. eexists. split.
  - unfold Apt._get_packet, Apt.attempts_default.
    change (Z.to_nat 10) with (0 + 10)%nat.
    rewrite (poll_hit cmd wait _ 0 9 _ sl (decoded f)).
    + cbn [yields snd replicate]. rewrite app_nil_r. reflexivity.
    + constructor.
    + cbn [yields snd]. rewrite next_packet_arrival. now rewrite next_packet_frame.
    + exact Hcmd.
  - cbn [yields snd]. now rewrite next_packet_tx.
Qed.

(** The common opening of the getters of the stage: purge, query, wait for
    the reply. *)
Lemma kdc_query (f : frame) (qcmd param1 rcmd : Z) (stale rest : list byte)
    (later out : list (list byte)) (sl : list Q) (x v a : Q) (o : list Z)
    {A} (k : gmap string pyval -> M KDC101 A) :
  0 <= qcmd < 65536 -> 0 <= param1 < 256 ->
  well_formed f -> Apt.cmd_is (decoded f) rcmd = true ->
  exists p',
    tx p' = out ++ [short_header qcmd param1 0 0x50 0x01]
    /\ bind (Kdc.super Apt._flush)
         (fun _ => bind (Kdc._write_packet qcmd param1 0 None)
                     (fun _ => bind (Kdc._get_packet rcmd) k))
         {| kdc_base :=
              {| port := Some {| rx_buf := stale; rx_later := (encode f ++ rest) :: later;
                                 tx := out |};
                 slept := sl |};
            _x_conv := x; _v_conv := v; _a_conv := a; stdout := o |}
       = k (decoded f)
           {| kdc_base := {| port := Some p'; slept := sl |};
              _x_conv := x; _v_conv := v; _a_conv := a; stdout := o |}.
Proof.
  intros Hq H1 Hwf Hcmd.
  destruct (get_packet_arrival f rcmd Apt.wait_default rest later
              (out ++ [short_header qcmd param1 0 0x50 0x01]) sl Hwf Hcmd)
    as (p' & Hget & Htx).
  exists p'. split; [exact Htx|].
  erewrite bind_ok; cycle 1.
  { apply kdc_super. reflexivity. }
  unfold port_purge. cbn [rx_buf rx_later tx].
  erewrite bind_ok; cycle 1.
  { unfold Kdc._write_packet. apply kdc_super. apply write_short_frame;
      unfold Apt.dest_default, Apt.src_default; lia. }
  unfold port_write. cbn [rx_buf rx_later tx].
  erewrite bind_ok; cycle 1.
  { unfold Kdc._get_packet. apply kdc_super. exact Hget. }
  reflexivity.
Qed.

Lemma leaves_ret {S A} (a : A) : leaves_state (@ret S A a).
Proof. intros s. reflexivity. Qed.

Lemma leaves_raise {S A} (e : exn) : leaves_state (@raise S A e).
Proof. intros s. reflexivity. Qed.

Lemma leaves_lift {S A} (r : result A) : leaves_state (@lift S A r).
Proof. intros s. reflexivity. Qed.

Lemma leaves_gets {S A} (f : S -> A) : leaves_state (gets f).
Proof. intros s. reflexivity. Qed.

Lemma leaves_bind {S A B} (m : M S A) (k : A -> M S B) :
  leaves_state m -> (forall a, leaves_state (k a)) -> leaves_state (bind m k).
Proof.
  intros Hm Hk s. unfold bind. specialize (Hm s).
  destruct (m s) as [[a|e] s1]; cbn [snd] in *; subst s1; [apply Hk | reflexivity].
Qed.

Lemma leaves_item {S} (l : list pyval) (i : nat) : leaves_state (@item S l i).
Proof. intros s. unfold item. now destruct (l !! i). Qed.

Lemma leaves_as_int {S} (v : pyval) : leaves_state (@as_int S v).
Proof. intros s. now destruct v. Qed.

Lemma leaves_fdiv {S} (a b : Q) : leaves_state (@fdiv S a b).
Proof. intros s. unfold fdiv. now destruct (Qeq_bool b 0). Qed.

Lemma leaves_physical (data : list pyval) (i : nat) (conv : Q) :
  leaves_state (Kdc.physical data i conv).
Proof.
  unfold Kdc.physical.
  apply leaves_bind; [apply leaves_item|intros raw].
  apply leaves_bind; [apply leaves_as_int|intros z].
  apply leaves_bind; [apply leaves_fdiv|intros q]. apply leaves_ret.
Qed.

Lemma fdiv_nonzero {S} (n d : Q) (s : S) :
  ~ (d == 0)%Q -> fdiv n d s = (Ok (n / d)%Q, s).
Proof.
  intros H. unfold fdiv. destruct (Qeq_bool d 0) eqn:E; [|reflexivity].
  apply Qeq_bool_iff in E. contradiction.
Qed.

Lemma fdiv_zero {S} (n d : Q) (s : S) :
  (d == 0)%Q -> fdiv n d s = (Raise ZeroDivisionError, s).
Proof.
  intros H. unfold fdiv. apply Qeq_bool_iff in H. now rewrite H.
Qed.

Lemma int_codes_Hi :
  Forall (fun c => forall n, c <> Struct.cs n) [Struct.cH; Struct.ci].
Proof. repeat apply List.Forall_cons; try apply List.Forall_nil; discriminate. Qed.

(** The outcomes of [get_pos] on a reply 0x0412 that arrives after the query. *)
Lemma get_pos_cases (channel dest src : Z) (stale rest : list byte)
    (later out : list (list byte)) (sl : list Q) (x v a : Q) (o : list Z) :
  0 <= channel < 256 -> 0 <= dest < 256 -> 0 <= src < 256 ->
  let on data :=
    {| kdc_base :=
         {| port := Some {| rx_buf := stale;
                            rx_later := (encode (Long 0x0412 data dest src) ++ rest) :: later;
                            tx := out |};
            slept := sl |};
       _x_conv := x; _v_conv := v; _a_conv := a; stdout := o |} in
  (forall data, Apt.len data <= 65535 ->
     let r := Kdc.get_pos channel (on data) in
     option_map tx (port (kdc_base (snd r)))
       = Some (out ++ [short_header 0x0411 channel 0 0x50 0x01])
     /\ scales (snd r) = (x, v, a) /\ stdout (snd r) = o)
  /\ (forall ch raw fields,
        Struct.pack [Struct.cH; Struct.ci] [VInt ch; VInt raw] = Ok fields ->
        (~ (x == 0)%Q ->
           fst (Kdc.get_pos channel (on fields)) = Ok (VFloat (inject_Z raw / x)))
        /\ ((x == 0)%Q ->
           fst (Kdc.get_pos channel (on fields)) = Raise ZeroDivisionError))
  /\ (forall data, Apt.len data <= 65535 -> length data <> 6%nat ->
        fst (Kdc.get_pos channel (on data)) = Raise StructError).
Proof.
  intros Hch Hd Hs on.
  assert (Hrun : forall data, Apt.len data <= 65535 ->
            exists p',
              tx p' = out ++ [short_header 0x0411 channel 0 0x50 0x01]
              /\ Kdc.get_pos channel (on data)
                 = (bind (lift (Struct.unpack [Struct.cH; Struct.ci] data))
                      (fun data => bind (gets _x_conv) (fun x => Kdc.physical data 1 x)))
                     {| kdc_base := {| port := Some p'; slept := sl |};
                        _x_conv := x; _v_conv := v; _a_conv := a; stdout := o |}).
  { intros data Hlen.
    destruct (kdc_query (Long 0x0412 data dest src) 0x0411 channel 0x0412 stale rest later
                out sl x v a o
                (fun packet =>
                   bind (getitem packet "data") (fun raw =>
                   bind (as_bytes raw) (fun raw =>
                   bind (lift (Struct.unpack [Struct.cH; Struct.ci] raw)) (fun data =>
                   bind (gets _x_conv) (fun x => Kdc.physical data 1 x))))))
      as (p' & Htx & Hq); try lia.
    { cbn [well_formed]. lia. }
    { cbn [decoded]. now rewrite cmd_is_long_packet. }
    exists p'. split; [exact Htx|].
    unfold Kdc.get_pos, on. rewrite Hq. cbn [decoded].
    erewrite bind_ok by apply getitem_long_data.
    cbn [as_bytes]. now rewrite bind_ret. }
  split; [|split].
  - intros data Hlen r. destruct (Hrun data Hlen) as (p' & Htx & E). unfold r. rewrite E.
    rewrite leaves_bind;
      [|apply leaves_lift
       |intros l; apply leaves_bind; [apply leaves_gets|intros q; apply leaves_physical]].
    cbn [kdc_base port option_map scales _x_conv _v_conv _a_conv stdout].
    now rewrite Htx.
  - intros ch raw fields Hpack.
    assert (Hlen : Apt.len fields <= 65535).
    { unfold Struct.pack in Hpack.
      destruct (Struct.pack_opt _ _) as [b|] eqn:E; [|discriminate].
      injection Hpack as ->. unfold Apt.len.
      rewrite (length_pack_opt _ _ _ int_codes_Hi E). cbn. lia. }
    destruct (Hrun fields Hlen) as (p' & _ & E). rewrite E.
    rewrite (unpack_pack _ _ _ int_codes_Hi Hpack), bind_lift, bind_gets.
    cbn [_x_conv]. unfold Kdc.physical, item. cbn [lookup list_lookup].
    rewrite bind_ret. cbn [as_int]. rewrite bind_ret.
    split; intros Hx.
    + erewrite bind_ok by (now apply fdiv_nonzero). reflexivity.
    + erewrite bind_raise by (now apply fdiv_zero). reflexivity.
  - intros data Hlen Hsix. destruct (Hrun data Hlen) as (p' & _ & E). rewrite E.
    unfold Struct.unpack.
    replace (length data =? Struct.calcsize [Struct.cH; Struct.ci])%nat with false
      by (symmetry; apply Nat.eqb_neq; cbn; lia).
    reflexivity.
Qed.

(** X13: [get_pos] discards whatever input is pending, sends the query 0x0411
    for the channel and converts the signed 32-bit position of the reply
    0x0412 with [raw / _x_conv]; the conversion factors are untouched.  With
    [_x_conv] zero the division raises [ZeroDivisionError] after the reply
    has been consumed; a payload that is not exactly six bytes long raises
    [struct.error]. *)
Theorem get_pos_reads (channel dest src : Z) (stale rest : list byte)
    (later out : list (list byte)) (sl : list Q) (x v a : Q) (o : list Z) :
  0 <= channel < 256 -> 0 <= dest < 256 -> 0 <= src < 256 ->
  let on data :=
    {| kdc_base :=
         {| port := Some {| rx_buf := stale;
                            rx_later := (encode (Long 0x0412 data dest src) ++ rest) :: later;
                            tx := out |};
            slept := sl |};
       _x_conv := x; _v_conv := v; _a_conv := a; stdout := o |} in
  (forall data, Apt.len data <= 65535 ->
     let r := Kdc.get_pos channel (on data) in
     option_map tx (port (kdc_base (snd r)))
       = Some (out ++ [short_header 0x0411 channel 0 0x50 0x01])
     /\ scales (snd r) = (x, v, a) /\ stdout (snd r) = o)
  /\ (forall ch raw fields,
        Struct.pack [Struct.cH; Struct.ci] [VInt ch; VInt raw] = Ok fields ->
        (~ (x == 0)%Q ->
           fst (Kdc.get_pos channel (on fields)) = Ok (VFloat (inject_Z raw / x)))
        /\ ((x == 0)%Q ->
           fst (Kdc.get_pos channel (on fields)) = Raise ZeroDivisionError))
  /\ (forall data, Apt.len data <= 65535 -> length data <> 6%nat ->
        fst (Kdc.get_pos channel (on data)) = Raise StructError).
Proof.
  intros Hch Hd Hs. exact (get_pos_cases channel dest src stale rest later out sl x v a o
                             Hch Hd Hs).
Qed.

Lemma get_pos_reads_witness :
  fst (Kdc.get_pos 1
         {| kdc_base :=
              {| port := Some {| rx_buf := echo_frame;
                                 rx_later :=
                                   [encode (Long 0x0412
                                      [Byte.x01; Byte.x00; Byte.x01; Byte.x7a; Byte.xff; Byte.xff]
                                      0x01 0x50) ++ []];
                                 tx := [] |};
                 slept := [] |};
            _x_conv := 34304; _v_conv := 0; _a_conv := 0; stdout := [] |})
  = Ok (VFloat (inject_Z (-34303) / 34304)).
Proof.
  destruct (get_pos_reads 1 0x01 0x50 echo_frame [] [] [] [] 34304 0 0 [])
    as (_ & H & _); try lia.
  destruct (H 1 (-34303) [Byte.x01; Byte.x00; Byte.x01; Byte.x7a; Byte.xff; Byte.xff])
    as [H1 _]; [reflexivity|].
  apply H1. intros E. discriminate E.
Defined.

(** X14: [move] computes [d = int(distance * _x_conv + 0.5)] and prints it.  When
    the channel fits 16 bits and [d] fits a signed 32-bit integer, it writes
    one long-form frame, command 0x0453 if [absolute] and 0x0448 otherwise,
    whose 6-byte payload unpacks to (channel, d).  Otherwise [struct.error]
    is raised: [d] has been printed, but nothing is written.  For a
    non-negative product [d] is the product rounded half up. *)
Theorem move_writes (distance : Q) (channel : Z) (absolute : bool)
    (w : Port) (sl : list Q) (x v a : Q) (o : list Z) :
  let s := {| kdc_base := {| port := Some w; slept := sl |};
              _x_conv := x; _v_conv := v; _a_conv := a; stdout := o |} in
  let d := py_int (distance * x + (1 # 2))%Q in
  let cmd := if absolute then 0x0453 else 0x0448 in
  let fits := 0 <= channel < 65536 /\ - 2 ^ 31 <= d <= 2 ^ 31 - 1 in
  (fits ->
     exists payload,
       Struct.unpack [Struct.cH; Struct.ci] payload = Ok [VInt channel; VInt d]
       /\ Kdc.move distance channel absolute s
          = (Ok tt,
             {| kdc_base :=
                  {| port := Some (port_write payload
                               (port_write (long_header cmd 6 0x50 0x01) w));
                     slept := sl |};
                _x_conv := x; _v_conv := v; _a_conv := a; stdout := o ++ [d] |}))
  /\ (~ fits ->
      Kdc.move distance channel absolute s
      = (Raise StructError,
         {| kdc_base := {| port := Some w; slept := sl |};
            _x_conv := x; _v_conv := v; _a_conv := a; stdout := o ++ [d] |}))
  /\ ((0 <= distance * x)%Q -> d = round_half_up (distance * x)).
Proof.
  intros s d cmd fits. split; [|split].
  - intros [Hch Hd].
    assert (Hpack : Struct.pack [Struct.cH; Struct.ci] [VInt channel; VInt d]
                    = Ok (le_bytes 2 channel ++ le_bytes 4 d ++ [])).
    { unfold Struct.pack. cbn [Struct.pack_opt].
      rewrite !pack1_int by (try discriminate; cbn; lia). reflexivity. }
    eexists. split; [exact (unpack_pack _ _ _ int_codes_Hi Hpack)|].
    unfold Kdc.move, s. rewrite bind_gets. cbn [_x_conv]. fold d.
    erewrite bind_ok by reflexivity.
    destruct absolute; rewrite Hpack, bind_lift;
      unfold Kdc._write_packet; apply kdc_super;
      apply write_long_frame;
      unfold Apt.dest_default, Apt.src_default, Apt.len;
      rewrite ?length_app, ?length_le_bytes; cbn [length]; lia.
  - intros Hbad.
    assert (Hpack : Struct.pack [Struct.cH; Struct.ci] [VInt channel; VInt d]
                    = Raise StructError).
    { unfold Struct.pack. cbn [Struct.pack_opt].
      assert (Hc : 0 <= channel < 65536 \/ ~ (0 <= channel < 65536)) by lia.
      destruct Hc as [Hc|Hc].
      - rewrite (pack1_int Struct.cH channel) by (try discriminate; cbn; lia).
        rewrite (pack1_out_of_range Struct.ci d)
          by (try discriminate; cbn; unfold fits in Hbad; lia).
        reflexivity.
      - rewrite (pack1_out_of_range Struct.cH channel) by (try discriminate; cbn; lia).
        reflexivity. }
    unfold Kdc.move, s. rewrite bind_gets. cbn [_x_conv]. fold d.
    erewrite bind_ok by reflexivity.
    destruct absolute; rewrite Hpack; reflexivity.
  - intros Hpos. unfold d. now apply int_plus_half_nonneg.
Qed.

Lemma move_writes_witness :
  Kdc.move 3000000 1 false (Kdc.__init__ None silent_port)
  = (Raise StructError,
     {| kdc_base := {| port := Some (port_purge silent_port);
                       slept := [5 # 100; 5 # 100] |};
        _x_conv := 34304;
        _v_conv := 34304 * Kdc.DRIVER_T * 65536;
        _a_conv := 34304 * Kdc.DRIVER_T * 65536 * Kdc.DRIVER_T;
        stdout := [] ++ [py_int (3000000 * 34304 + (1 # 2))%Q] |}).
Proof.
  destruct (move_writes 3000000 1 false (port_purge silent_port) [5 # 100; 5 # 100]
              34304 (34304 * Kdc.DRIVER_T * 65536)%Q
              (34304 * Kdc.DRIVER_T * 65536 * Kdc.DRIVER_T)%Q [])
    as (_ & H & _).
  apply H. vm_compute. intros [_ [_ Hle]]. apply Hle. reflexivity.
Defined.

(** ** Accuracy of the conversion *)

(** For a non-negative product the raw value is within half a count of it. *)
Lemma raw_within_half (t c : Q) :
  (0 < c)%Q -> (0 <= t)%Q ->
  (Qabs (inject_Z (py_int (t * c + (1 # 2))) / c - t) <= 1 / (2 * c))%Q.
Proof.
  intros Hc Ht.
  assert (Hy : (0 <= t * c)%Q) by (apply Qmult_le_0_compat; [exact Ht | now apply Qlt_le_weak]).
  rewrite int_plus_half_nonneg by exact Hy. unfold round_half_up.
  pose proof (Qfloor_le (t * c + (1 # 2))) as F1.
  pose proof (Qlt_floor (t * c + (1 # 2))) as F2.
  rewrite inject_Z_plus in F2. change (inject_Z 1) with 1%Q in F2.
  set (D := inject_Z (Qfloor (t * c + (1 # 2)))) in *. clearbody D.
  assert (Hne : ~ (c == 0)%Q) by (intros E; rewrite E in Hc; now apply Qlt_irrefl in Hc).
  assert (E1 : (D / c - t == (D - t * c) / c)%Q) by (field; exact Hne).
  assert (E2 : (1 / (2 * c) == (1 # 2) / c)%Q) by (field; exact Hne).
  rewrite E1, E2. clear E1 E2 Hy.
  set (y := (t * c)%Q) in *. clearbody y.
  apply Qabs_Qle_condition. split.
  - apply Qle_shift_div_l; [exact Hc|].
    assert (E3 : (- ((1 # 2) / c) * c == - (1 # 2))%Q) by (field; exact Hne).
    rewrite E3. lra.
  - apply Qle_shift_div_r; [exact Hc|].
    assert (E3 : ((1 # 2) / c * c == 1 # 2)%Q) by (field; exact Hne).
    rewrite E3. lra.
Qed.

(** X15: when the instrument reports the raw position that [move] packs for a
    non-negative target (with a positive [_x_conv]), [get_pos] returns the
    target to within half a count, [1 / (2 * _x_conv)]. *)
Theorem get_pos_after_move (target c : Q) (channel ch dest src : Z) (payload : list byte)
    (stale rest : list byte) (later out : list (list byte)) (sl : list Q)
    (v a : Q) (o : list Z) :
  (0 < c)%Q -> (0 <= target)%Q ->
  0 <= channel < 256 -> 0 <= dest < 256 -> 0 <= src < 256 ->
  Struct.pack [Struct.cH; Struct.ci] [VInt ch; VInt (py_int (target * c + (1 # 2))%Q)]
    = Ok payload ->
  exists q,
    fst (Kdc.get_pos channel
           {| kdc_base :=
                {| port := Some {| rx_buf := stale;
                                   rx_later :=
                                     (encode (Long 0x0412 payload dest src) ++ rest) :: later;
                                   tx := out |};
                   slept := sl |};
              _x_conv := c; _v_conv := v; _a_conv := a; stdout := o |})
    = Ok (VFloat q)
    /\ (Qabs (q - target) <= 1 / (2 * c))%Q.
Proof.
  intros Hc Ht Hch Hd Hs Hpack.
  destruct (get_pos_cases channel dest src stale rest later out sl c v a o Hch Hd Hs)
    as (_ & H & _).
  destruct (H ch _ payload Hpack) as [Hok _].
  eexists. split.
  - apply Hok. intros E. rewrite E in Hc. now apply Qlt_irrefl in Hc.
  - now apply raw_within_half.
Qed.

Lemma get_pos_after_move_witness :
  exists q,
    fst (Kdc.get_pos 1
           {| kdc_base :=
                {| port := Some {| rx_buf := [];
                                   rx_later :=
                                     [encode (Long 0x0412
                                        [Byte.x01; Byte.x00; Byte.x02; Byte.x00; Byte.x00; Byte.x00]
                                        0x01 0x50) ++ []];
                                   tx := [] |};
                   slept := [] |};
              _x_conv := 3; _v_conv := 0; _a_conv := 0; stdout := [] |})
    = Ok (VFloat q)
    /\ (Qabs (q - (1 # 2)) <= 1 / (2 * 3))%Q.
Proof.
  apply (get_pos_after_move (1 # 2) 3 1 1 0x01 0x50
           [Byte.x01; Byte.x00; Byte.x02; Byte.x00; Byte.x00; Byte.x00] [] [] [] [] [] 0 0 []);
    try lia; reflexivity || discriminate.
Defined.

(** ** Velocity parameters *)

Lemma int_codes_Hiii :
  Forall (fun c => forall n, c <> Struct.cs n) [Struct.cH; Struct.ci; Struct.ci; Struct.ci].
Proof. repeat apply List.Forall_cons; try apply List.Forall_nil; discriminate. Qed.

(** X16: [set_vel_params] converts the three values with
    [int(value * scale + 0.5)], the velocities with [_v_conv] and the
    acceleration with [_a_conv], and writes them in one long-form frame
    0x0413 whose 14-byte payload unpacks to (channel, min_vel, accel,
    max_vel) in that order.  If the channel does not fit 16 bits or a raw
    value does not fit a signed 32-bit integer, [struct.error] is raised and
    nothing is written. *)
Theorem set_vel_params_writes (accel max_vel min_vel : Q) (channel : Z)
    (w : Port) (sl : list Q) (x v a : Q) (o : list Z) :
  let s := {| kdc_base := {| port := Some w; slept := sl |};
              _x_conv := x; _v_conv := v; _a_conv := a; stdout := o |} in
  let mv := py_int (min_vel * v + (1 # 2))%Q in
  let ac := py_int (accel * a + (1 # 2))%Q in
  let Mv := py_int (max_vel * v + (1 # 2))%Q in
  let int32 z := - 2 ^ 31 <= z <= 2 ^ 31 - 1 in
  let fits := 0 <= channel < 65536 /\ int32 mv /\ int32 ac /\ int32 Mv in
  (fits ->
     exists payload,
       Struct.unpack [Struct.cH; Struct.ci; Struct.ci; Struct.ci] payload
         = Ok [VInt channel; VInt mv; VInt ac; VInt Mv]
       /\ length payload = 14%nat
       /\ Kdc.set_vel_params accel max_vel channel min_vel s
          = (Ok tt,
             {| kdc_base :=
                  {| port := Some (port_write payload
                               (port_write (long_header 0x0413 14 0x50 0x01) w));
                     slept := sl |};
                _x_conv := x; _v_conv := v; _a_conv := a; stdout := o |}))
  /\ (~ fits -> Kdc.set_vel_params accel max_vel channel min_vel s = (Raise StructError, s)).
Proof.
  intros s mv ac Mv int32 fits. split.
  - intros (Hch & Hmv & Hac & HMv). unfold int32 in *.
    assert (Hpack : Struct.pack [Struct.cH; Struct.ci; Struct.ci; Struct.ci]
                      [VInt channel; VInt mv; VInt ac; VInt Mv]
                    = Ok (le_bytes 2 channel ++ le_bytes 4 mv ++ le_bytes 4 ac
                          ++ le_bytes 4 Mv ++ [])).
    { unfold Struct.pack. cbn [Struct.pack_opt].
      rewrite !pack1_int by (try discriminate; cbn; lia). reflexivity. }
    eexists. split; [exact (unpack_pack _ _ _ int_codes_Hiii Hpack)|].
    split; [rewrite !length_app, !length_le_bytes; reflexivity|].
    unfold Kdc.set_vel_params, s. rewrite !bind_gets. cbn [_v_conv _a_conv].
    fold mv ac Mv. rewrite Hpack, bind_lift.
    unfold Kdc._write_packet. apply kdc_super.
    apply write_long_frame;
      unfold Apt.dest_default, Apt.src_default, Apt.len;
      rewrite ?length_app, ?length_le_bytes; cbn [length]; lia.
  - intros Hbad. unfold fits, int32 in Hbad.
    assert (Hpack : Struct.pack [Struct.cH; Struct.ci; Struct.ci; Struct.ci]
                      [VInt channel; VInt mv; VInt ac; VInt Mv]
                    = Raise StructError).
    { unfold Struct.pack. cbn [Struct.pack_opt].
      assert (H1 : 0 <= channel < 65536 \/ ~ (0 <= channel < 65536)) by lia.
      destruct H1 as [H1|H1];
        [rewrite (pack1_int Struct.cH channel) by (try discriminate; cbn; lia)
        |rewrite (pack1_out_of_range Struct.cH channel) by (try discriminate; cbn; lia);
         reflexivity].
      assert (H2 : - 2 ^ 31 <= mv <= 2 ^ 31 - 1 \/ ~ (- 2 ^ 31 <= mv <= 2 ^ 31 - 1)) by lia.
      destruct H2 as [H2|H2];
        [rewrite (pack1_int Struct.ci mv) by (try discriminate; cbn; lia)
        |rewrite (pack1_out_of_range Struct.ci mv) by (try discriminate; cbn; lia);
         reflexivity].
      assert (H3 : - 2 ^ 31 <= ac <= 2 ^ 31 - 1 \/ ~ (- 2 ^ 31 <= ac <= 2 ^ 31 - 1)) by lia.
      destruct H3 as [H3|H3];
        [rewrite (pack1_int Struct.ci ac) by (try discriminate; cbn; lia)
        |rewrite (pack1_out_of_range Struct.ci ac) by (try discriminate; cbn; lia);
         reflexivity].
      rewrite (pack1_out_of_range Struct.ci Mv) by (try discriminate; cbn; lia).
      reflexivity. }
    unfold Kdc.set_vel_params, s. rewrite !bind_gets. cbn [_v_conv _a_conv].
    fold mv ac Mv. rewrite Hpack. reflexivity.
Qed.

Lemma set_vel_params_writes_witness :
  let s := Kdc.__init__ None silent_port in
  Kdc.set_vel_params 5 100000 1 0 s = (Raise StructError, s).
Proof.
  intros s.
  destruct (set_vel_params_writes 5 100000 0 1 (port_purge silent_port) [5 # 100; 5 # 100]
              34304 (34304 * Kdc.DRIVER_T * 65536)%Q
              (34304 * Kdc.DRIVER_T * 65536 * Kdc.DRIVER_T)%Q [])
    as (_ & H).
  apply H. vm_compute. intros (_ & _ & _ & _ & Hle). apply Hle. reflexivity.
Defined.

(** X17: [get_vel_params] discards pending input, sends the query 0x0414 and
    converts the reply 0x0415: the two velocities are divided by [_v_conv],
    the acceleration by [_a_conv], and the channel is reported as received.
    If one of the two factors is zero, [ZeroDivisionError] is raised. *)
Theorem get_vel_params_reads (channel ch mv ac Mv dest src : Z) (fields : list byte)
    (stale rest : list byte) (later out : list (list byte)) (sl : list Q)
    (x v a : Q) (o : list Z) :
  0 <= channel < 256 -> 0 <= dest < 256 -> 0 <= src < 256 ->
  Struct.pack [Struct.cH; Struct.ci; Struct.ci; Struct.ci]
    [VInt ch; VInt mv; VInt ac; VInt Mv] = Ok fields ->
  let r := Kdc.get_vel_params channel
    {| kdc_base :=
         {| port := Some {| rx_buf := stale;
                            rx_later := (encode (Long 0x0415 fields dest src) ++ rest) :: later;
                            tx := out |};
            slept := sl |};
       _x_conv := x; _v_conv := v; _a_conv := a; stdout := o |} in
  option_map tx (port (kdc_base (snd r)))
    = Some (out ++ [short_header 0x0414 channel 0 0x50 0x01])
  /\ (~ (v == 0)%Q -> ~ (a == 0)%Q ->
      fst r = Ok (<["channel" := VInt ch]>
                  (<["min_vel" := VFloat (inject_Z mv / v)]>
                  (<["accel" := VFloat (inject_Z ac / a)]>
                   {["max_vel" := VFloat (inject_Z Mv / v)]}))))
  /\ ((v == 0)%Q \/ (a == 0)%Q -> fst r = Raise ZeroDivisionError).
Proof.
  intros Hch Hd Hs Hpack r.
  assert (Hlen : Apt.len fields <= 65535).
  { unfold Struct.pack in Hpack.
    destruct (Struct.pack_opt _ _) as [b|] eqn:E; [|discriminate].
    injection Hpack as ->. unfold Apt.len.
    rewrite (length_pack_opt _ _ _ int_codes_Hiii E). cbn. lia. }
  destruct (kdc_query (A := gmap string pyval)
              (Long 0x0415 fields dest src) 0x0414 channel 0x0415 stale rest later
              out sl x v a o
              (fun packet =>
                 bind (getitem packet "data") (fun raw =>
                 bind (as_bytes raw) (fun raw =>
                 bind (lift (Struct.unpack [Struct.cH; Struct.ci; Struct.ci; Struct.ci] raw))
                   (fun data =>
                 bind (gets _v_conv) (fun v =>
                 bind (gets _a_conv) (fun a =>
                 bind (item data 0) (fun ch =>
                 bind (Kdc.physical data 1 v) (fun min_vel =>
                 bind (Kdc.physical data 2 a) (fun accel =>
                 bind (Kdc.physical data 3 v) (fun max_vel =>
                 ret (<["channel" := ch]> (<["min_vel" := min_vel]> (<["accel" := accel]>
                      {["max_vel" := max_vel]}))))))))))))))
    as (p' & Htx & Hq); try lia.
  { cbn [well_formed]. lia. }
  { cbn [decoded]. now rewrite cmd_is_long_packet. }
  set (fs := [VInt ch; VInt mv; VInt ac; VInt Mv]) in *.
  assert (E : r = (bind (gets _v_conv) (fun v1 =>
                   bind (gets _a_conv) (fun a1 =>
                   bind (item fs 0) (fun c1 =>
                   bind (Kdc.physical fs 1 v1) (fun min_vel =>
                   bind (Kdc.physical fs 2 a1) (fun accel =>
                   bind (Kdc.physical fs 3 v1) (fun max_vel =>
                   ret ((<["channel" := c1]> (<["min_vel" := min_vel]> (<["accel" := accel]>
                        {["max_vel" := max_vel]}))) : gmap string pyval)))))))
                    {| kdc_base := {| port := Some p'; slept := sl |};
                       _x_conv := x; _v_conv := v; _a_conv := a; stdout := o |})).
  { unfold r, Kdc.get_vel_params. rewrite Hq. cbn [decoded].
    erewrite bind_ok by apply getitem_long_data.
    cbn [as_bytes]. rewrite bind_ret.
    rewrite (unpack_pack _ _ _ int_codes_Hiii Hpack), bind_lift. reflexivity. }
  rewrite E. rewrite !bind_gets. cbn [_v_conv _a_conv].
  unfold Kdc.physical, item, fs. cbn [lookup list_lookup]. rewrite bind_ret.
  assert (Hphys : forall (z : Z) (d : Q) (s : KDC101),
            bind (ret (VInt z)) (fun raw => bind (as_int raw) (fun raw =>
              bind (fdiv (inject_Z raw) d) (fun q => ret (VFloat q)))) s
            = if Qeq_bool d 0 then (Raise ZeroDivisionError, s)
              else (Ok (VFloat (inject_Z z / d)), s)).
  { intros z d s. rewrite bind_ret. cbn [as_int]. rewrite bind_ret.
    unfold fdiv, bind. destruct (Qeq_bool d 0); reflexivity. }
  split; [|split].
  - unfold bind at 1. rewrite Hphys.
    destruct (Qeq_bool v 0);
      [cbn [fst snd kdc_base port option_map]; now rewrite Htx|].
    unfold bind at 1. rewrite Hphys.
    destruct (Qeq_bool a 0);
      [cbn [fst snd kdc_base port option_map]; now rewrite Htx|].
    unfold bind at 1. rewrite Hphys.
    destruct (Qeq_bool v 0);
      cbn [fst snd kdc_base port option_map ret]; now rewrite Htx.
  - intros Hv Ha.
    assert (Ev : Qeq_bool v 0 = false).
    { destruct (Qeq_bool v 0) eqn:Eq; [|reflexivity]. apply Qeq_bool_iff in Eq. contradiction. }
    assert (Ea : Qeq_bool a 0 = false).
    { destruct (Qeq_bool a 0) eqn:Eq; [|reflexivity]. apply Qeq_bool_iff in Eq. contradiction. }
    unfold bind at 1. rewrite Hphys, Ev.
    unfold bind at 1. rewrite Hphys, Ea.
    unfold bind at 1. rewrite Hphys, Ev. reflexivity.
  - intros Hz.
    unfold bind at 1. rewrite Hphys.
    destruct (Qeq_bool v 0) eqn:Ev; [reflexivity|].
    unfold bind at 1. rewrite Hphys.
    destruct (Qeq_bool a 0) eqn:Ea; [reflexivity|].
    exfalso. destruct Hz as [Hz|Hz]; apply Qeq_bool_iff in Hz; congruence.
Qed.

Lemma get_vel_params_reads_witness :
  fst (Kdc.get_vel_params 1
         {| kdc_base :=
              {| port := Some {| rx_buf := echo_frame;
                                 rx_later :=
                                   [encode (Long 0x0415
                                      [Byte.x01; Byte.x00;
                                       Byte.x00; Byte.x00; Byte.x00; Byte.x00;
                                       Byte.x0a; Byte.x00; Byte.x00; Byte.x00;
                                       Byte.x14; Byte.x00; Byte.x00; Byte.x00]
                                      0x01 0x50) ++ []];
                                 tx := [] |};
                 slept := [] |};
            _x_conv := 1; _v_conv := 0; _a_conv := 5; stdout := [] |})
  = Raise ZeroDivisionError.
Proof.
  destruct (get_vel_params_reads 1 1 0 10 20 0x01 0x50
              [Byte.x01; Byte.x00;
               Byte.x00; Byte.x00; Byte.x00; Byte.x00;
               Byte.x0a; Byte.x00; Byte.x00; Byte.x00;
               Byte.x14; Byte.x00; Byte.x00; Byte.x00]
              echo_frame [] [] [] [] 1 0 5 [])
    as (_ & _ & H); try lia.
  - reflexivity.
  - apply H. left. reflexivity.
Defined.

(** ** Jog parameters *)

Lemma physical_int (fs : list pyval) (i : nat) (z : Z) (d : Q) (s : KDC101) :
  fs !! i = Some (VInt z) -> ~ (d == 0)%Q ->
  Kdc.physical fs i d s = (Ok (VFloat (inject_Z z / d)), s).
Proof.
  intros Hi Hd. unfold Kdc.physical, item. rewrite Hi, bind_ret. cbn [as_int].
  rewrite bind_ret. erewrite bind_ok by (now apply fdiv_nonzero). reflexivity.
Qed.

Lemma int_codes_jog :
  Forall (fun c => forall n, c <> Struct.cs n)
    [Struct.cH; Struct.cH; Struct.ci; Struct.ci; Struct.ci; Struct.ci; Struct.cH].
Proof. repeat apply List.Forall_cons; try apply List.Forall_nil; discriminate. Qed.

Lemma jog_mode_lookup (k : Z) :
  Kdc.table_get_or_self Kdc.jog_mode_table (VInt k)
  = if k =? 1 then VStr "continuous" else if k =? 2 then VStr "single step" else VInt k.
Proof.
  unfold Kdc.table_get_or_self, Kdc.jog_mode_table.
  destruct (Z.eqb_spec k 1) as [->|H1]; [now rewrite lookup_insert_eq|].
  rewrite lookup_insert_ne by congruence.
  destruct (Z.eqb_spec k 2) as [->|H2]; [now rewrite lookup_singleton_eq|].
  now rewrite lookup_singleton_ne by congruence.
Qed.

Lemma stop_mode_lookup (k : Z) :
  Kdc.table_get_or_self Kdc.stop_mode_table (VInt k)
  = if k =? 1 then VStr "immediate" else if k =? 2 then VStr "profiled" else VInt k.
Proof.
  unfold Kdc.table_get_or_self, Kdc.stop_mode_table.
  destruct (Z.eqb_spec k 1) as [->|H1]; [now rewrite lookup_insert_eq|].
  rewrite lookup_insert_ne by congruence.
  destruct (Z.eqb_spec k 2) as [->|H2]; [now rewrite lookup_singleton_eq|].
  now rewrite lookup_singleton_ne by congruence.
Qed.

(** X18: [get_jog_params] (with non-zero conversion factors) decodes the reply
    0x0418 field by field: the step size is divided by [_x_conv], the
    velocities by [_v_conv], the acceleration by [_a_conv].  The jog mode
    and the stop mode are named for the codes 1 and 2; any other code is
    returned as the number itself, never as an error. *)
Theorem get_jog_params_reads (channel ch jm step mv ac Mv sm dest src : Z)
    (fields : list byte) (stale rest : list byte) (later out : list (list byte))
    (sl : list Q) (x v a : Q) (o : list Z) :
  0 <= channel < 256 -> 0 <= dest < 256 -> 0 <= src < 256 ->
  ~ (x == 0)%Q -> ~ (v == 0)%Q -> ~ (a == 0)%Q ->
  Struct.pack [Struct.cH; Struct.cH; Struct.ci; Struct.ci; Struct.ci; Struct.ci; Struct.cH]
    [VInt ch; VInt jm; VInt step; VInt mv; VInt ac; VInt Mv; VInt sm] = Ok fields ->
  fst (Kdc.get_jog_params channel
         {| kdc_base :=
              {| port := Some {| rx_buf := stale;
                                 rx_later :=
                                   (encode (Long 0x0418 fields dest src) ++ rest) :: later;
                                 tx := out |};
                 slept := sl |};
            _x_conv := x; _v_conv := v; _a_conv := a; stdout := o |})
  = Ok (<["channel" := VInt ch]>
        (<["jog_mode" := if jm =? 1 then VStr "continuous"
                         else if jm =? 2 then VStr "single step" else VInt jm]>
        (<["step_size" := VFloat (inject_Z step / x)]>
        (<["min_vel" := VFloat (inject_Z mv / v)]>
        (<["accel" := VFloat (inject_Z ac / a)]>
        (<["max_vel" := VFloat (inject_Z Mv / v)]>
         {["stop_mode" := if sm =? 1 then VStr "immediate"
                          else if sm =? 2 then VStr "profiled" else VInt sm]})))))).
Proof.
  intros Hch Hd Hs Hx Hv Ha Hpack.
  assert (Hlen : Apt.len fields <= 65535).
  { unfold Struct.pack in Hpack.
    destruct (Struct.pack_opt _ _) as [b|] eqn:E; [|discriminate].
    injection Hpack as ->. unfold Apt.len.
    rewrite (length_pack_opt _ _ _ int_codes_jog E). cbn. lia. }
  unfold Kdc.get_jog_params.
  match goal with
  | |- fst (bind _ (fun _ => bind _ (fun _ => bind _ ?k)) _) = _ =>
      destruct (kdc_query (A := gmap string pyval)
                  (Long 0x0418 fields dest src) 0x0417 channel 0x0418 stale rest later
                  out sl x v a o k)
        as (p' & Htx & Hq); try lia
  end.
  { cbn [well_formed]. lia. }
  { cbn [decoded]. now rewrite cmd_is_long_packet. }
  rewrite Hq. cbn [decoded].
  erewrite bind_ok by apply getitem_long_data.
  cbn [as_bytes]. rewrite bind_ret.
  rewrite (unpack_pack _ _ _ int_codes_jog Hpack), bind_lift.
  rewrite !bind_gets. cbn [_x_conv _v_conv _a_conv].
  unfold item at 1 2. cbn [lookup list_lookup]. rewrite !bind_ret.
  erewrite bind_ok by (now apply physical_int).
  erewrite bind_ok by (now apply physical_int).
  erewrite bind_ok by (now apply physical_int).
  erewrite bind_ok by (now apply physical_int).
  unfold item. cbn [lookup list_lookup]. rewrite bind_ret.
  rewrite jog_mode_lookup, stop_mode_lookup. reflexivity.
Qed.

Lemma get_jog_params_reads_witness :
  fst (Kdc.get_jog_params 1
         {| kdc_base :=
              {| port := Some {| rx_buf := [];
                                 rx_later :=
                                   [encode (Long 0x0418
                                      [Byte.x01; Byte.x00; Byte.x07; Byte.x00;
                                       Byte.x02; Byte.x00; Byte.x00; Byte.x00;
                                       Byte.x00; Byte.x00; Byte.x00; Byte.x00;
                                       Byte.x0a; Byte.x00; Byte.x00; Byte.x00;
                                       Byte.x14; Byte.x00; Byte.x00; Byte.x00;
                                       Byte.x02; Byte.x00]
                                      0x01 0x50) ++ []];
                                 tx := [] |};
                 slept := [] |};
            _x_conv := 2; _v_conv := 5; _a_conv := 5; stdout := [] |})
  = Ok (<["channel" := VInt 1]>
        (<["jog_mode" := VInt 7]>
        (<["step_size" := VFloat (inject_Z 2 / 2)]>
        (<["min_vel" := VFloat (inject_Z 0 / 5)]>
        (<["accel" := VFloat (inject_Z 10 / 5)]>
        (<["max_vel" := VFloat (inject_Z 20 / 5)]>
         {["stop_mode" := VStr "profiled"]})))))).
Proof.
  apply (get_jog_params_reads 1 1 7 2 0 10 20 2 0x01 0x50
           [Byte.x01; Byte.x00; Byte.x07; Byte.x00;
            Byte.x02; Byte.x00; Byte.x00; Byte.x00;
            Byte.x00; Byte.x00; Byte.x00; Byte.x00;
            Byte.x0a; Byte.x00; Byte.x00; Byte.x00;
            Byte.x14; Byte.x00; Byte.x00; Byte.x00;
            Byte.x02; Byte.x00] [] [] [] [] [] 2 5 5 []);
    try lia; try reflexivity; intros E; discriminate E.
Defined.

(** ** The information record *)

Lemma unpack_fields_app (c : Struct.code) (f : list Struct.code) (b r : list byte) :
  length b = Struct.width c ->
  Struct.unpack_fields (c :: f) (b ++ r) = Struct.unpack1 c b :: Struct.unpack_fields f r.
Proof.
  intros H. cbn [Struct.unpack_fields].
  now rewrite take_app_length', drop_app_length' by (symmetry; exact H).
Qed.

Lemma unpack1_byte (b : byte) : Struct.unpack1 Struct.cB [b] = VInt (b2z b).
Proof. unfold Struct.unpack1. cbn. f_equal. lia. Qed.

(** X19: [info] sends the request 0x0005 and splits the 84-byte payload of the
    reply 0x0006 at fixed offsets: serial number (4 bytes), model (8), type
    (2), firmware (4 single bytes), notes (48), 12 bytes that are dropped,
    hardware version, modification state and number of channels (2 bytes
    each).  A payload of any other size raises [struct.error]. *)
Theorem info_reads (serial type hw ms nch dest src : Z) (f0 f1 f2 f3 : byte)
    (model notes pad rest : list byte) (later out : list (list byte)) (sl : list Q) :
  0 <= serial < 2 ^ 32 -> 0 <= type < 65536 -> 0 <= hw < 65536 ->
  0 <= ms < 65536 -> 0 <= nch < 65536 -> 0 <= dest < 256 -> 0 <= src < 256 ->
  length model = 8%nat -> length notes = 48%nat -> length pad = 12%nat ->
  let on data :=
    {| port := Some {| rx_buf := encode (Long 0x0006 data dest src) ++ rest;
                       rx_later := later; tx := out |};
       slept := sl |} in
  let payload := le_bytes 4 serial ++ model ++ le_bytes 2 type ++ [f0; f1; f2; f3]
                 ++ notes ++ pad ++ le_bytes 2 hw ++ le_bytes 2 ms ++ le_bytes 2 nch in
  fst (Apt.info (on payload))
    = Ok (<["serial" := VInt serial]> (<["model" := VBytes model]>
         (<["type" := VInt type]>
         (<["firmware" := VTuple [VInt (b2z f0); VInt (b2z f1); VInt (b2z f2);
                                  VInt (b2z f3)]]>
         (<["notes" := VBytes notes]> (<["hw_version" := VInt hw]>
         (<["mod_state" := VInt ms]> {["num_channels" := VInt nch]})))))))
  /\ option_map tx (port (snd (Apt.info (on payload))))
     = Some (out ++ [short_header 0x0005 0 0 0x50 0x01])
  /\ (forall data, Apt.len data <= 65535 -> length data <> 84%nat ->
        fst (Apt.info (on data)) = Raise StructError).
Proof.
  intros Hser Hty Hhw Hms Hnch Hd Hs Hmodel Hnotes Hpad on payload.
  assert (Hrun : forall data, Apt.len data <= 65535 ->
            exists p', tx p' = out ++ [short_header 0x0005 0 0 0x50 0x01] /\
              forall A (k : gmap string pyval -> M AptDevice A),
                bind (Apt._write_packet 0x0005 0 0 None Apt.dest_default Apt.src_default)
                  (fun _ => bind (Apt._get_packet 0x006 Apt.attempts_default Apt.wait_default) k)
                  (on data)
                = k (long_packet 0x0006 data (Z.land dest 0x7F) src)
                    {| port := Some p'; slept := sl |}).
  { intros data Hlen. eexists. split; cycle 1.
    - intros A k. unfold on.
      erewrite bind_ok by (apply write_short_frame;
                           unfold Apt.dest_default, Apt.src_default; lia).
      unfold port_write. cbn [rx_buf rx_later tx].
      erewrite bind_ok; cycle 1.
      { apply (get_packet_reply (Long 0x0006 data dest src)).
        - cbn [well_formed]. lia.
        - cbn [decoded]. now rewrite cmd_is_long_packet. }
      reflexivity.
    - now rewrite next_packet_tx. }
  assert (Hlenp : length payload = 84%nat).
  { unfold payload. rewrite !length_app, !length_le_bytes, Hmodel, Hnotes, Hpad.
    reflexivity. }
  assert (Hunpack : Struct.unpack Apt.info_format payload
                    = Ok [VInt serial; VBytes model; VInt type; VInt (b2z f0);
                          VInt (b2z f1); VInt (b2z f2); VInt (b2z f3); VBytes notes;
                          VBytes pad; VInt hw; VInt ms; VInt nch]).
  { unfold Struct.unpack. rewrite Hlenp. change (84 =? Struct.calcsize Apt.info_format)%nat
      with true. cbv iota. f_equal.
    unfold payload, Apt.info_format.
    rewrite (unpack_fields_app Struct.cI) by apply length_le_bytes.
    rewrite (unpack_fields_app (Struct.cs 8)) by exact Hmodel.
    rewrite (unpack_fields_app Struct.cH) by apply length_le_bytes.
    change [f0; f1; f2; f3] with ([f0] ++ [f1] ++ [f2] ++ [f3]).
    rewrite <- !app_assoc.
    rewrite !(unpack_fields_app Struct.cB) by reflexivity.
    rewrite (unpack_fields_app (Struct.cs 48)) by exact Hnotes.
    rewrite (unpack_fields_app (Struct.cs 12)) by exact Hpad.
    rewrite !(unpack_fields_app Struct.cH) by apply length_le_bytes.
    rewrite <- (app_nil_r (le_bytes 2 nch)).
    rewrite (unpack_fields_app Struct.cH) by apply length_le_bytes.
    rewrite !unpack1_byte.
    change 2%nat with (Struct.width Struct.cH).
    change 4%nat with (Struct.width Struct.cI).
    rewrite !unpack1_le_bytes by (try discriminate; cbn; lia).
    reflexivity. }
  assert (Hle : Apt.len payload <= 65535) by (unfold Apt.len; rewrite Hlenp; lia).
  split; [|split].
  - destruct (Hrun payload Hle) as (p' & _ & Hq). unfold Apt.info. rewrite Hq.
    erewrite bind_ok by apply getitem_long_data.
    cbn [as_bytes]. rewrite bind_ret, Hunpack, bind_lift.
    reflexivity.
  - destruct (Hrun payload Hle) as (p' & Htx & Hq). unfold Apt.info. rewrite Hq.
    erewrite bind_ok by apply getitem_long_data.
    cbn [as_bytes]. rewrite bind_ret, Hunpack, bind_lift.
    cbn. now rewrite Htx.
  - intros data Hlen Hne. destruct (Hrun data Hlen) as (p' & _ & Hq).
    unfold Apt.info. rewrite Hq.
    erewrite bind_ok by apply getitem_long_data.
    cbn [as_bytes]. rewrite bind_ret. unfold Struct.unpack.
    replace (length data =? Struct.calcsize Apt.info_format)%nat with false
      by (symmetry; apply Nat.eqb_neq; cbn; lia).
    reflexivity.
Qed.

Lemma info_reads_witness :
  fst (Apt.info
         {| port := Some {| rx_buf :=
                              encode (Long 0x0006
                                (le_bytes 4 27000001 ++ replicate 8 Byte.x4b ++ le_bytes 2 16
                                 ++ [Byte.x01; Byte.x00; Byte.x02; Byte.x00]
                                 ++ replicate 48 Byte.x00 ++ replicate 12 Byte.x00
                                 ++ le_bytes 2 1 ++ le_bytes 2 0 ++ le_bytes 2 1)
                                0x01 0x50) ++ [];
                            rx_later := []; tx := [] |};
            slept := [] |})
  = Ok (<["serial" := VInt 27000001]> (<["model" := VBytes (replicate 8 Byte.x4b)]>
       (<["type" := VInt 16]>
       (<["firmware" := VTuple [VInt (b2z Byte.x01); VInt (b2z Byte.x00);
                                VInt (b2z Byte.x02); VInt (b2z Byte.x00)]]>
       (<["notes" := VBytes (replicate 48 Byte.x00)]> (<["hw_version" := VInt 1]>
       (<["mod_state" := VInt 0]> {["num_channels" := VInt 1]}))))))).
Proof.
  apply (info_reads 27000001 16 1 0 1 0x01 0x50 Byte.x01 Byte.x00 Byte.x02 Byte.x00
           (replicate 8 Byte.x4b) (replicate 48 Byte.x00) (replicate 12 Byte.x00)
           [] [] [] []); try lia; reflexivity.
Defined.

(** ** No reply *)

Lemma next_packet_nothing (out : list (list byte)) :
  next_packet {| rx_buf := []; rx_later := []; tx := out |}
  = (None, {| rx_buf := []; rx_later := []; tx := out |}).
Proof. reflexivity. Qed.

Lemma yields_nothing (n : nat) (out : list (list byte)) :
  yields n {| rx_buf := []; rx_later := []; tx := out |}
  = (replicate n None, {| rx_buf := []; rx_later := []; tx := out |}).
Proof.
  induction n as [|n IH]; [reflexivity|].
  cbn [yields]. rewrite next_packet_nothing, IH. reflexivity.
Qed.

(** X20: when the instrument does not answer, [get_pos] has purged the input
    and written its query, polls ten times with a sleep of 0.05 after each
    attempt, and raises the [ValueError] that names command 0x412 and the
    10 attempts; the conversion factors are untouched. *)
Theorem get_pos_no_reply (channel : Z) (stale : list byte) (out : list (list byte))
    (sl : list Q) (x v a : Q) (o : list Z) :
  0 <= channel < 256 ->
  Kdc.get_pos channel
    {| kdc_base := {| port := Some {| rx_buf := stale; rx_later := []; tx := out |};
                      slept := sl |};
       _x_conv := x; _v_conv := v; _a_conv := a; stdout := o |}
  = (Raise (ValueError "Expected packet with command 0x412, did not receive in 10 attempts"),
     {| kdc_base :=
          {| port := Some {| rx_buf := []; rx_later := [];
                             tx := out ++ [short_header 0x0411 channel 0 0x50 0x01] |};
             slept := sl ++ replicate 10 (5 # 100) |};
        _x_conv := x; _v_conv := v; _a_conv := a; stdout := o |}).
Proof.
  intros Hch. unfold Kdc.get_pos.
  erewrite bind_ok; cycle 1.
  { apply kdc_super. reflexivity. }
  unfold port_purge. cbn [rx_buf rx_later tx].
  erewrite bind_ok; cycle 1.
  { unfold Kdc._write_packet. apply kdc_super. apply write_short_frame;
      unfold Apt.dest_default, Apt.src_default; lia. }
  unfold port_write. cbn [rx_buf rx_later tx].
  erewrite bind_raise; cycle 1.
  { unfold Kdc._get_packet. apply kdc_super.
    unfold Apt._get_packet, Apt.attempts_default. change (Z.to_nat 10) with 10%nat.
    rewrite poll_miss.
    - rewrite yields_nothing. reflexivity.
    - rewrite yields_nothing. cbn [fst]. repeat constructor. }
  reflexivity.
Qed.

Lemma get_pos_no_reply_witness :
  fst (Kdc.get_pos 1 (Kdc.__init__ None silent_port))
  = Raise (ValueError "Expected packet with command 0x412, did not receive in 10 attempts").
Proof.
  unfold Kdc.__init__, silent_port, port_purge. cbn [rx_buf rx_later tx default from_option id].
  rewrite (get_pos_no_reply 1 [] [] [5 # 100; 5 # 100]) by lia. reflexivity.
Defined.

(** ** Positive counts *)

(** X21: for a positive [counts], [set_counts_per_unit] makes all three
    conversion factors positive, so that no getter divides by zero; with
    [counts = 0] all three are zero. *)
Theorem scales_positive (counts : Q) (s : KDC101) :
  let s' := snd (Kdc.set_counts_per_unit counts s) in
  ((0 < counts)%Q -> (0 < _x_conv s' /\ 0 < _v_conv s' /\ 0 < _a_conv s')%Q)
  /\ ((counts == 0)%Q -> (_x_conv s' == 0 /\ _v_conv s' == 0 /\ _a_conv s' == 0)%Q)
  /\ kdc_base s' = kdc_base s /\ stdout s' = stdout s.
Proof.
  intros s'. cbn [s' Kdc.set_counts_per_unit modify snd _x_conv _v_conv _a_conv].
  assert (HT : (0 < Kdc.DRIVER_T)%Q) by reflexivity.
  split; [|split; [|split; reflexivity]].
  - intros Hc. split; [exact Hc|].
    assert (Hv : (0 < counts * Kdc.DRIVER_T * 65536)%Q).
    { apply Qmult_lt_0_compat; [|reflexivity]. now apply Qmult_lt_0_compat. }
    split; [exact Hv|]. now apply Qmult_lt_0_compat.
  - intros Hz. split; [exact Hz|]. split; rewrite Hz; reflexivity.
Qed.

Lemma scales_positive_witness :
  (0 < _v_conv (snd (Kdc.set_counts_per_unit 34304 (Kdc.__init__ None silent_port))))%Q.
Proof.
  destruct (scales_positive 34304 (Kdc.__init__ None silent_port)) as [H _].
  apply H. reflexivity.
Defined.
